(** * Library synchronisation of a music provider

    A shallow embedding of [music_assistant/models/music_provider.py]:
    the capability contract ([library_supported]), the derived
    [lookup_key], the provider-mapping consistency checker
    ([_check_provider_mappings]), the seven per-media-type reconcilers
    ([_sync_library_artists] ... [_sync_library_radios]) and the
    orchestrator with its orphan collection ([sync_library]).

    The coroutines of the source become computations in a small monad
    that threads the state of the run, records every call made to the
    music controllers, the cache and the logger, and propagates Python
    exceptions. *)

From stdpp Require Import base decidable countable strings list gmap.
From Stdlib Require Import ZArith.

Local Open Scope Z_scope.
Local Open Scope string_scope.
Local Open Scope list_scope.

(** ** Enumerations of the models package *)

(** Modelled from the spec: the media type tags of the data model (the
    [MediaType] enum lives in the external models package). *)
Inductive MediaType :=
  | ARTIST | ALBUM | TRACK | PLAYLIST | RADIO | AUDIOBOOK | PODCAST
  | PODCAST_EPISODE.

Global Instance MediaType_eq_dec : EqDecision MediaType.
Proof. solve_decision. Defined.

(** [media_type.value], the key under which a snapshot is cached. *)
Definition MediaType_value (mt : MediaType) : string :=
  match mt with
  | ARTIST => "artist" | ALBUM => "album" | TRACK => "track"
  | PLAYLIST => "playlist" | RADIO => "radio" | AUDIOBOOK => "audiobook"
  | PODCAST => "podcast" | PODCAST_EPISODE => "podcast_episode"
  end.

(** Modelled from the spec: the capability tokens; per media type the
    flags [Library] and [LibraryEdit], and the global flags. *)
Inductive ProviderFeature :=
  | LIBRARY_ARTISTS | LIBRARY_ALBUMS | LIBRARY_TRACKS | LIBRARY_PLAYLISTS
  | LIBRARY_RADIOS | LIBRARY_AUDIOBOOKS | LIBRARY_PODCASTS
  | LIBRARY_ARTISTS_EDIT | LIBRARY_ALBUMS_EDIT | LIBRARY_TRACKS_EDIT
  | LIBRARY_PLAYLISTS_EDIT | LIBRARY_RADIOS_EDIT | LIBRARY_AUDIOBOOKS_EDIT
  | LIBRARY_PODCASTS_EDIT
  | PLAYLIST_TRACKS_EDIT | PLAYLIST_CREATE | SEARCH | RECOMMENDATIONS.

Global Instance ProviderFeature_eq_dec : EqDecision ProviderFeature.
Proof. solve_decision. Defined.

Definition ProviderFeature_code (f : ProviderFeature) : nat :=
  match f with
  | LIBRARY_ARTISTS => 0 | LIBRARY_ALBUMS => 1 | LIBRARY_TRACKS => 2
  | LIBRARY_PLAYLISTS => 3 | LIBRARY_RADIOS => 4 | LIBRARY_AUDIOBOOKS => 5
  | LIBRARY_PODCASTS => 6 | LIBRARY_ARTISTS_EDIT => 7
  | LIBRARY_ALBUMS_EDIT => 8 | LIBRARY_TRACKS_EDIT => 9
  | LIBRARY_PLAYLISTS_EDIT => 10 | LIBRARY_RADIOS_EDIT => 11
  | LIBRARY_AUDIOBOOKS_EDIT => 12 | LIBRARY_PODCASTS_EDIT => 13
  | PLAYLIST_TRACKS_EDIT => 14 | PLAYLIST_CREATE => 15 | SEARCH => 16
  | RECOMMENDATIONS => 17
  end%nat.

Definition ProviderFeature_of_code (n : nat) : ProviderFeature :=
  match n with
  | 0 => LIBRARY_ARTISTS | 1 => LIBRARY_ALBUMS | 2 => LIBRARY_TRACKS
  | 3 => LIBRARY_PLAYLISTS | 4 => LIBRARY_RADIOS | 5 => LIBRARY_AUDIOBOOKS
  | 6 => LIBRARY_PODCASTS | 7 => LIBRARY_ARTISTS_EDIT
  | 8 => LIBRARY_ALBUMS_EDIT | 9 => LIBRARY_TRACKS_EDIT
  | 10 => LIBRARY_PLAYLISTS_EDIT | 11 => LIBRARY_RADIOS_EDIT
  | 12 => LIBRARY_AUDIOBOOKS_EDIT | 13 => LIBRARY_PODCASTS_EDIT
  | 14 => PLAYLIST_TRACKS_EDIT | 15 => PLAYLIST_CREATE | 16 => SEARCH
  | _ => RECOMMENDATIONS
  end%nat.

Global Instance ProviderFeature_countable : Countable ProviderFeature.
Proof.
  refine (inj_countable' ProviderFeature_code ProviderFeature_of_code _).
  intros f. destruct f; reflexivity.
Defined.

(** ** Exceptions *)

(** The exception classes the engine raises or handles.
    [MediaNotFoundError] and [UnsupportedFeaturedException] are
    subclasses of [MusicAssistantError]; [OtherException] stands for
    every exception outside that hierarchy. *)
Inductive exn :=
  | MusicAssistantError (msg : string)
  | MediaNotFoundError (msg : string)
  | UnsupportedFeaturedException (msg : string)
  | OtherException (msg : string).

(** [isinstance(err, MusicAssistantError)] *)
Definition is_MusicAssistantError (e : exn) : bool :=
  match e with
  | OtherException _ => false
  | _ => true
  end.

(** [isinstance(err, MediaNotFoundError)] *)
Definition is_MediaNotFoundError (e : exn) : bool :=
  match e with
  | MediaNotFoundError _ => true
  | _ => false
  end.

(** The outcome of a call: a value, a raised exception, or a loop that
    did not finish within the fuel it was given. *)
Inductive result (A : Type) :=
  | Ok (a : A)
  | Raise (e : exn)
  | OutOfFuel.
Arguments Ok {A} a.
Arguments Raise {A} e.
Arguments OutOfFuel {A}.

(** ** Data model *)

(** Modelled from the spec: a provider mapping (the class lives in the
    external models package); the optional audio format and url play no
    part in synchronisation. *)
Module ProviderMapping.
Record t := mk {
  item_id : string;
  provider_domain : string;
  provider_instance : string;
  available : bool;
  in_library : bool
}.

Definition set_in_library (b : bool) (m : t) : t :=
  mk (item_id m) (provider_domain m) (provider_instance m) (available m) b.

(** The pair that identifies a mapping within one entity. *)
Definition key (m : t) : string * string := (provider_instance m, item_id m).
End ProviderMapping.

Global Instance ProviderMapping_eq_dec : EqDecision ProviderMapping.t.
Proof. solve_decision. Defined.

(** Modelled from the spec: a media item (the classes live in the
    external models package). Items yielded by a provider carry the
    provider's string id; items of the library carry the numeric
    database id, so [int(library_item.item_id)] is [item_id] itself. *)
Module MediaItem.
Record t (Id : Type) := mk {
  item_id : Id;
  provider : string;
  name : string;
  uri : string;
  favorite : bool;
  available : bool;
  cache_checksum : option string;
  resume_position_ms : option Z;
  fully_played : option bool;
  provider_mappings : list ProviderMapping.t
}.
Arguments mk {Id}.
Arguments item_id {Id}.
Arguments provider {Id}.
Arguments name {Id}.
Arguments uri {Id}.
Arguments favorite {Id}.
Arguments available {Id}.
Arguments cache_checksum {Id}.
Arguments resume_position_ms {Id}.
Arguments fully_played {Id}.
Arguments provider_mappings {Id}.

Definition set_favorite {Id} (b : bool) (i : t Id) : t Id :=
  mk (item_id i) (provider i) (name i) (uri i) b (available i)
     (cache_checksum i) (resume_position_ms i) (fully_played i)
     (provider_mappings i).

Definition set_provider_mappings {Id} (ms : list ProviderMapping.t)
    (i : t Id) : t Id :=
  mk (item_id i) (provider i) (name i) (uri i) (favorite i) (available i)
     (cache_checksum i) (resume_position_ms i) (fully_played i) ms.
End MediaItem.

Abbreviation ProviderItem := (MediaItem.t string).
Abbreviation LibraryItem := (MediaItem.t Z).

Global Instance MediaItem_eq_dec `{EqDecision Id} : EqDecision (MediaItem.t Id).
Proof. solve_decision. Defined.

(** How a lazily pulled sequence ends: exhausted, failed with an
    exception, or still running when the fuel ran out. *)
Inductive Ending :=
  | Exhausted
  | Failed (e : exn)
  | Unfinished.

(** An async generator of provider items, unrolled: the items it yields
    and the way it ends. *)
Record Catalog := {
  yielded : list ProviderItem;
  ending : Ending
}.

(** ** The provider *)

(** The attributes of [self] the engine reads, and the answers of the
    provider-specific catalog methods. *)
Record MusicProvider := {
  domain : string;
  instance_id : string;
  is_streaming_provider : bool;
  multi_instance : bool;                        (* manifest.multi_instance *)
  supported_features : gset ProviderFeature;
  conf_sync_album_tracks : bool;
  conf_sync_playlist_tracks : list string;
  get_library_items : MediaType -> Catalog;     (* get_library_artists, ... *)
  get_album_tracks : string -> result (list ProviderItem);
  get_playlist_tracks : string -> nat -> result (list ProviderItem)
}.

(** [lookup_key] *)
Definition lookup_key (self : MusicProvider) : string :=
  if is_streaming_provider self || negb (multi_instance self)
  then domain self
  else instance_id self.

(** [library_supported] *)
Definition library_supported (self : MusicProvider) (media_type : MediaType)
    : bool :=
  match media_type with
  | ARTIST => bool_decide (LIBRARY_ARTISTS ∈ supported_features self)
  | ALBUM => bool_decide (LIBRARY_ALBUMS ∈ supported_features self)
  | TRACK => bool_decide (LIBRARY_TRACKS ∈ supported_features self)
  | PLAYLIST => bool_decide (LIBRARY_PLAYLISTS ∈ supported_features self)
  | RADIO => bool_decide (LIBRARY_RADIOS ∈ supported_features self)
  | AUDIOBOOK => bool_decide (LIBRARY_AUDIOBOOKS ∈ supported_features self)
  | PODCAST => bool_decide (LIBRARY_PODCASTS ∈ supported_features self)
  | _ => false
  end.

(** [library_edit_supported] *)
Definition library_edit_supported (self : MusicProvider)
    (media_type : MediaType) : bool :=
  match media_type with
  | ARTIST => bool_decide (LIBRARY_ARTISTS_EDIT ∈ supported_features self)
  | ALBUM => bool_decide (LIBRARY_ALBUMS_EDIT ∈ supported_features self)
  | TRACK => bool_decide (LIBRARY_TRACKS_EDIT ∈ supported_features self)
  | PLAYLIST => bool_decide (LIBRARY_PLAYLISTS_EDIT ∈ supported_features self)
  | RADIO => bool_decide (LIBRARY_RADIOS_EDIT ∈ supported_features self)
  | AUDIOBOOK => bool_decide (LIBRARY_AUDIOBOOKS_EDIT ∈ supported_features self)
  | PODCAST => bool_decide (LIBRARY_PODCASTS_EDIT ∈ supported_features self)
  | _ => false
  end.

(** [iter_playlist_tracks]: pages are requested from [page] on until an
    empty page comes back; [fuel] bounds the number of requests. *)
Fixpoint iter_playlist_tracks (fuel : nat) (self : MusicProvider)
    (prov_playlist_id : string) (page : nat) : Catalog :=
  match fuel with
  | O => {| yielded := []; ending := Unfinished |}
  | S fuel' =>
      match get_playlist_tracks self prov_playlist_id page with
      | Ok [] => {| yielded := []; ending := Exhausted |}
      | Ok tracks =>
          let rest := iter_playlist_tracks fuel' self prov_playlist_id (S page) in
          {| yielded := tracks ++ yielded rest; ending := ending rest |}
      | Raise e => {| yielded := []; ending := Failed e |}
      | OutOfFuel => {| yielded := []; ending := Unfinished |}
      end
  end.

(** ** The provider-mapping consistency checker *)

(** [next((x for x in library_item.provider_mappings if ...), None)] *)
Definition find_library_mapping (library_item : LibraryItem)
    (provider_mapping : ProviderMapping.t) : option ProviderMapping.t :=
  List.find
    (fun x =>
       bool_decide (ProviderMapping.provider_instance x
                    = ProviderMapping.provider_instance provider_mapping)
       && bool_decide (ProviderMapping.item_id x
                       = ProviderMapping.item_id provider_mapping))
    (MediaItem.provider_mappings library_item).

(** [_check_provider_mappings]. The loop body returns or raises on its
    first iteration, so only the head of the mapping set is visited.
    The assignment [provider_mapping.in_library = in_library] mutates
    the observed item, so the item is returned next to the verdict. *)
Definition _check_provider_mappings (self : MusicProvider)
    (library_item : LibraryItem) (provider_item : ProviderItem)
    (in_library : bool) : result (bool * ProviderItem) :=
  match MediaItem.provider_mappings provider_item with
  | [] => Ok (false, provider_item)
  | provider_mapping :: others =>
      if negb (bool_decide (ProviderMapping.item_id provider_mapping
                            = MediaItem.item_id provider_item))
      then Raise (MusicAssistantError
                    "Inconsistent provider mapping item_id's found")
      else if negb (bool_decide
                      (ProviderMapping.provider_instance provider_mapping
                       = instance_id self))
      then Raise (MusicAssistantError
                    "Inconsistent provider mapping instance_id's found")
      else
        let provider_mapping :=
          ProviderMapping.set_in_library in_library provider_mapping in
        let provider_item :=
          MediaItem.set_provider_mappings (provider_mapping :: others)
            provider_item in
        match find_library_mapping library_item provider_mapping with
        | None => Ok (false, provider_item)
        | Some library_mapping =>
            if negb (bool_decide
                       (ProviderMapping.in_library provider_mapping
                        = ProviderMapping.in_library library_mapping))
            then Ok (false, provider_item)
            else Ok (bool_decide
                       (ProviderMapping.available provider_mapping
                        = ProviderMapping.available library_mapping),
                     provider_item)
        end
  end.

(** ** Calls, state and the monad of a run *)

(** Every call the engine makes to the music controllers
    ([self.mass.music.<controller>], identified by the media type), to
    the cache ([self.mass.cache]) and to [self.logger.warning]. Debug
    logging is left out. *)
Inductive Call :=
  | GetLibraryItemByProvMappings (mt : MediaType) (mappings : list ProviderMapping.t)
  | AddItemToLibrary (mt : MediaType) (item : ProviderItem)
  | UpdateItemInLibrary (mt : MediaType) (db_id : Z) (item : ProviderItem)
  | SetFavorite (mt : MediaType) (db_id : Z) (favorite : bool)
  | SetProviderMappings (mt : MediaType) (db_id : Z) (mappings : list ProviderMapping.t)
  | RemoveItemFromLibrary (mt : MediaType) (db_id : Z) (recursive : bool)
  | GetLibraryItem (mt : MediaType) (db_id : Z)
  | PodcastEpisodes (db_id : Z) (provider : string)
  | CacheGet (key : string) (category : Z) (base_key : string)
  | CacheSet (key : string) (data : list Z) (category : Z) (base_key : string)
  | LogWarning (subject : string + Z) (err : exn).

Global Instance exn_eq_dec : EqDecision exn.
Proof. solve_decision. Defined.

Global Instance Call_eq_dec : EqDecision Call.
Proof. solve_decision. Defined.

(** The calls that change the canonical library. *)
Definition is_mutation (c : Call) : bool :=
  match c with
  | AddItemToLibrary _ _ | UpdateItemInLibrary _ _ _ | SetFavorite _ _ _
  | SetProviderMappings _ _ _ | RemoveItemFromLibrary _ _ _ => true
  | _ => false
  end.

(** The interface of [self.mass] the engine relies on: the media
    controllers and the cache. The implementation is not part of the
    engine; [World] is whatever state it keeps. A call may change the
    world and may fail. *)
Class Mass (World : Type) := {
  mass_get_library_item_by_prov_mappings :
    MediaType -> list ProviderMapping.t -> World -> World * result (option LibraryItem);
  mass_add_item_to_library :
    MediaType -> ProviderItem -> World -> World * result LibraryItem;
  mass_update_item_in_library :
    MediaType -> Z -> ProviderItem -> World -> World * result LibraryItem;
  mass_set_favorite :
    MediaType -> Z -> bool -> World -> World * result unit;
  mass_set_provider_mappings :
    MediaType -> Z -> list ProviderMapping.t -> World -> World * result unit;
  mass_remove_item_from_library :
    MediaType -> Z -> bool -> World -> World * result unit;
  mass_get_library_item :
    MediaType -> Z -> World -> World * result LibraryItem;
  mass_podcast_episodes :
    Z -> string -> World -> World * result unit;
  mass_cache_get :
    string -> Z -> string -> World -> World * result (option (list Z));
  mass_cache_set :
    string -> list Z -> Z -> string -> World -> World * result unit
}.

(** The state of a run: the world behind [self.mass] and the local
    variable [cur_db_ids] of the reconciler in progress. *)
Record State (World : Type) := mkState {
  world : World;
  cur_db_ids : gset Z
}.
Arguments mkState {World}.
Arguments world {World}.
Arguments cur_db_ids {World}.

(** A computation: from a state to the calls made, the state reached
    and the outcome. *)
Definition M (World : Type) (A : Type) : Type :=
  State World -> list Call * (State World * result A).

Section Monad.
Context {World : Type}.

Definition ret {A} (a : A) : M World A := fun s => ([], (s, Ok a)).

Definition raise {A} (e : exn) : M World A := fun s => ([], (s, Raise e)).

Definition bind {A B} (m : M World A) (k : A -> M World B) : M World B :=
  fun s =>
    match m s with
    | (t1, (s1, Ok a)) => let '(t2, r) := k a s1 in (t1 ++ t2, r)
    | (t1, (s1, Raise e)) => (t1, (s1, Raise e))
    | (t1, (s1, OutOfFuel)) => (t1, (s1, OutOfFuel))
    end.

(** A pure outcome, as a computation. *)
Definition lift {A} (r : result A) : M World A := fun s => ([], (s, r)).

(** [try: body except <catches> as err: handler(err)]. Whatever the
    body did before it raised stays done. *)
Definition try_except {A} (body : M World A) (catches : exn -> bool)
    (handler : exn -> M World A) : M World A :=
  fun s =>
    match body s with
    | (t1, (s1, Raise e)) =>
        if catches e
        then let '(t2, r) := handler e s1 in (t1 ++ t2, r)
        else (t1, (s1, Raise e))
    | r => r
    end.

(** One call to [self.mass], recorded. *)
Definition perform {A} (c : Call) (op : World -> World * result A)
    : M World A :=
  fun s =>
    let '(w, r) := op (world s) in
    ([c], (mkState w (cur_db_ids s), r)).

Definition log_warning (subject : string + Z) (err : exn) : M World unit :=
  fun s => ([LogWarning subject err], (s, Ok tt)).

Definition get_cur_db_ids : M World (gset Z) :=
  fun s => ([], (s, Ok (cur_db_ids s))).

Definition set_cur_db_ids (ids : gset Z) : M World unit :=
  fun s => ([], (mkState (world s) ids, Ok tt)).
End Monad.

Global Instance M_ret {World} : MRet (M World) := @ret World.
Global Instance M_bind {World} : MBind (M World) :=
  fun A B k m => bind m k.

Section Loops.
Context {World : Type}.

(** [for x in items: body(x)] *)
Fixpoint for_each {A} (items : list A) (body : A -> M World unit)
    : M World unit :=
  match items with
  | [] => ret tt
  | x :: rest => bind (body x) (fun _ => for_each rest body)
  end.

(** [async for x in generator: body(x)]: the body runs for every item
    the generator yields; a failure of the generator propagates. *)
Definition async_for (gen : Catalog) (body : ProviderItem -> M World unit)
    : M World unit :=
  bind (for_each (yielded gen) body) (fun _ =>
    match ending gen with
    | Exhausted => ret tt
    | Failed e => raise e
    | Unfinished => lift OutOfFuel
    end).
End Loops.

(** ** The synchronisation engine *)

Section Engine.
Context {World : Type} `{!Mass World}.

(** The provider instance running the pass, and the cache category
    constant of [music_assistant.constants]. *)
Variable self : MusicProvider.
Variable CACHE_CATEGORY_LIBRARY_ITEMS : Z.

(** *** The calls to [self.mass], recorded in the trace *)

Definition get_library_item_by_prov_mappings (mt : MediaType)
    (mappings : list ProviderMapping.t) : M World (option LibraryItem) :=
  perform (GetLibraryItemByProvMappings mt mappings)
    (mass_get_library_item_by_prov_mappings mt mappings).

Definition add_item_to_library (mt : MediaType) (item : ProviderItem)
    : M World LibraryItem :=
  perform (AddItemToLibrary mt item) (mass_add_item_to_library mt item).

Definition update_item_in_library (mt : MediaType) (db_id : Z)
    (item : ProviderItem) : M World LibraryItem :=
  perform (UpdateItemInLibrary mt db_id item)
    (mass_update_item_in_library mt db_id item).

Definition set_favorite (mt : MediaType) (db_id : Z) (favorite : bool)
    : M World unit :=
  perform (SetFavorite mt db_id favorite) (mass_set_favorite mt db_id favorite).

Definition set_provider_mappings (mt : MediaType) (db_id : Z)
    (mappings : list ProviderMapping.t) : M World unit :=
  perform (SetProviderMappings mt db_id mappings)
    (mass_set_provider_mappings mt db_id mappings).

Definition remove_item_from_library (mt : MediaType) (db_id : Z)
    (recursive : bool) : M World unit :=
  perform (RemoveItemFromLibrary mt db_id recursive)
    (mass_remove_item_from_library mt db_id recursive).

Definition get_library_item (mt : MediaType) (db_id : Z)
    : M World LibraryItem :=
  perform (GetLibraryItem mt db_id) (mass_get_library_item mt db_id).

Definition podcast_episodes (db_id : Z) (provider : string) : M World unit :=
  perform (PodcastEpisodes db_id provider) (mass_podcast_episodes db_id provider).

Definition cache_get (key : string) (category : Z) (base_key : string)
    : M World (option (list Z)) :=
  perform (CacheGet key category base_key)
    (mass_cache_get key category base_key).

Definition cache_set (key : string) (data : list Z) (category : Z)
    (base_key : string) : M World unit :=
  perform (CacheSet key data category base_key)
    (mass_cache_set key data category base_key).

(** [cur_db_ids.add(int(library_item.item_id))] *)
Definition cur_db_ids_add (library_item : LibraryItem) : M World unit :=
  ids ← get_cur_db_ids;
  set_cur_db_ids ({[ MediaItem.item_id library_item ]} ∪ ids).

(** [self._check_provider_mappings(...)] inside a coroutine. *)
Definition check_provider_mappings (library_item : LibraryItem)
    (provider_item : ProviderItem) (in_library : bool)
    : M World (bool * ProviderItem) :=
  lift (_check_provider_mappings self library_item provider_item in_library).

(** [if import_as_favorite: prov_item.favorite = True] *)
Definition mark_favorite (import_as_favorite : bool) (prov_item : ProviderItem)
    : ProviderItem :=
  if import_as_favorite then MediaItem.set_favorite true prov_item
  else prov_item.

(** *** [_sync_library_artists] *)

(** The [try] block of the loop body. *)
Definition sync_artist_body (import_as_favorite : bool) (prov_item : ProviderItem)
    (library_item : option LibraryItem) : M World unit :=
  library_item ←
    match library_item with
    | None =>
        (* add item to the library *)
        let prov_item := mark_favorite import_as_favorite prov_item in
        add_item_to_library ARTIST prov_item
    | Some library_item =>
        if negb (MediaItem.favorite library_item) && import_as_favorite
        then
          (* existing library item not favorite but should be *)
          set_favorite ARTIST (MediaItem.item_id library_item) true;;
          mret library_item
        else
          '(consistent, prov_item) ←
            check_provider_mappings library_item prov_item true;
          if negb consistent
          then
            (* existing library item but provider mapping doesn't match *)
            update_item_in_library ARTIST
              (MediaItem.item_id library_item) prov_item
          else mret library_item
    end;
  cur_db_ids_add library_item.

(** The loop body, for one yielded item. *)
Definition sync_artist (import_as_favorite : bool) (prov_item : ProviderItem)
    : M World unit :=
  library_item ← get_library_item_by_prov_mappings ARTIST
    (MediaItem.provider_mappings prov_item);
  try_except
    (sync_artist_body import_as_favorite prov_item library_item)
    is_MusicAssistantError
    (fun err => log_warning (inl (MediaItem.uri prov_item)) err).

Definition _sync_library_artists (import_as_favorite : bool)
    : M World (gset Z) :=
  set_cur_db_ids ∅;;
  async_for (get_library_items self ARTIST) (sync_artist import_as_favorite);;
  get_cur_db_ids.

(** *** [_sync_album_tracks] *)

(** The [try] block of the loop body. *)
Definition sync_album_track_body (prov_track : ProviderItem)
    (library_track : option LibraryItem) : M World unit :=
  match library_track with
  | None =>
      (* add item to the library *)
      add_item_to_library TRACK prov_track;;
      mret tt
  | Some library_track =>
      '(consistent, prov_track) ←
        check_provider_mappings library_track prov_track true;
      if negb consistent
      then
        (* existing library track but provider mapping doesn't match *)
        update_item_in_library TRACK
          (MediaItem.item_id library_track) prov_track;;
        mret tt
      else mret tt
  end.

(** The loop body, for one yielded item. *)
Definition sync_album_track (prov_track : ProviderItem)
    : M World unit :=
  library_track ← get_library_item_by_prov_mappings TRACK
    (MediaItem.provider_mappings prov_track);
  try_except
    (sync_album_track_body prov_track library_track)
    is_MusicAssistantError
    (fun err => log_warning (inl (MediaItem.uri prov_track)) err).

Definition _sync_album_tracks (provider_album : ProviderItem) : M World unit :=
  tracks ← lift (get_album_tracks self (MediaItem.item_id provider_album));
  for_each tracks sync_album_track.

(** *** [_sync_library_albums] *)

(** The [try] block of the loop body. *)
Definition sync_album_body (import_as_favorite : bool) (prov_item : ProviderItem)
    (library_item : option LibraryItem) : M World unit :=
  library_item ←
    match library_item with
    | None =>
        let prov_item := mark_favorite import_as_favorite prov_item in
        add_item_to_library ALBUM prov_item
    | Some library_item =>
        if negb (MediaItem.favorite library_item) && import_as_favorite
        then
          set_favorite ALBUM (MediaItem.item_id library_item) true;;
          mret library_item
        else
          '(consistent, prov_item) ←
            check_provider_mappings library_item prov_item true;
          if negb consistent
          then
            update_item_in_library ALBUM
              (MediaItem.item_id library_item) prov_item
          else mret library_item
    end;
  cur_db_ids_add library_item;;
  (* optionally add album tracks to library; only the album's id is
     read, which the assignments above leave alone *)
  if conf_sync_album_tracks self
  then _sync_album_tracks prov_item
  else mret tt.

(** The loop body, for one yielded item. *)
Definition sync_album (import_as_favorite : bool) (prov_item : ProviderItem)
    : M World unit :=
  library_item ← get_library_item_by_prov_mappings ALBUM
    (MediaItem.provider_mappings prov_item);
  try_except
    (sync_album_body import_as_favorite prov_item library_item)
    is_MusicAssistantError
    (fun err => log_warning (inl (MediaItem.uri prov_item)) err).

Definition _sync_library_albums (import_as_favorite : bool)
    : M World (gset Z) :=
  set_cur_db_ids ∅;;
  async_for (get_library_items self ALBUM) (sync_album import_as_favorite);;
  get_cur_db_ids.

(** *** [_sync_library_audiobooks] *)

(** [resume_position_ms] or [fully_played] changed. *)
Definition resume_state_changed (library_item : LibraryItem)
    (prov_item : ProviderItem) : bool :=
  bool_decide (MediaItem.resume_position_ms prov_item <> None)
  && bool_decide (MediaItem.fully_played prov_item <> None)
  && (bool_decide (MediaItem.resume_position_ms library_item
                   <> MediaItem.resume_position_ms prov_item)
      || bool_decide (MediaItem.fully_played library_item
                      <> MediaItem.fully_played prov_item)).

(** The [try] block of the loop body. *)
Definition sync_audiobook_body (import_as_favorite : bool) (prov_item : ProviderItem)
    (library_item : option LibraryItem) : M World unit :=
  '(library_item, prov_item) ←
    match library_item with
    | None =>
        let prov_item := mark_favorite import_as_favorite prov_item in
        library_item ← add_item_to_library AUDIOBOOK prov_item;
        mret (library_item, prov_item)
    | Some library_item =>
        if negb (MediaItem.favorite library_item) && import_as_favorite
        then
          set_favorite AUDIOBOOK (MediaItem.item_id library_item) true;;
          mret (library_item, prov_item)
        else
          '(consistent, prov_item) ←
            check_provider_mappings library_item prov_item true;
          if negb consistent
          then
            library_item ← update_item_in_library AUDIOBOOK
                             (MediaItem.item_id library_item) prov_item;
            mret (library_item, prov_item)
          else mret (library_item, prov_item)
    end;
  (* check if resume_position_ms or fully_played changed *)
  library_item ←
    (if resume_state_changed library_item prov_item
     then update_item_in_library AUDIOBOOK
            (MediaItem.item_id library_item) prov_item
     else mret library_item);
  cur_db_ids_add library_item.

(** The loop body, for one yielded item. *)
Definition sync_audiobook (import_as_favorite : bool) (prov_item : ProviderItem)
    : M World unit :=
  library_item ← get_library_item_by_prov_mappings AUDIOBOOK
    (MediaItem.provider_mappings prov_item);
  try_except
    (sync_audiobook_body import_as_favorite prov_item library_item)
    is_MusicAssistantError
    (fun err => log_warning (inl (MediaItem.uri prov_item)) err).

Definition _sync_library_audiobooks (import_as_favorite : bool)
    : M World (gset Z) :=
  set_cur_db_ids ∅;;
  async_for (get_library_items self AUDIOBOOK)
    (sync_audiobook import_as_favorite);;
  get_cur_db_ids.

(** *** [_sync_playlist_tracks] *)

(** The [try] block of the loop body. *)
Definition sync_playlist_track_body (prov_track : ProviderItem)
    (library_track : option LibraryItem) : M World unit :=
  match library_track with
  | None =>
      add_item_to_library TRACK prov_track;;
      mret tt
  | Some library_track =>
      '(consistent, prov_track) ←
        check_provider_mappings library_track prov_track true;
      if negb consistent
      then
        update_item_in_library TRACK
          (MediaItem.item_id library_track) prov_track;;
        mret tt
      else mret tt
  end.

(** The loop body, for one yielded item. *)
Definition sync_playlist_track (prov_track : ProviderItem)
    : M World unit :=
  library_track ← get_library_item_by_prov_mappings TRACK
    (MediaItem.provider_mappings prov_track);
  try_except
    (sync_playlist_track_body prov_track library_track)
    is_MusicAssistantError
    (fun err => log_warning (inl (MediaItem.uri prov_track)) err).

Definition _sync_playlist_tracks (fuel : nat) (provider_playlist : ProviderItem)
    : M World unit :=
  async_for
    (iter_playlist_tracks fuel self (MediaItem.item_id provider_playlist) 0)
    sync_playlist_track.

(** *** [_sync_library_playlists] *)

(** The [try] block of the loop body. *)
Definition sync_playlist_body (fuel : nat) (import_as_favorite : bool) (prov_item : ProviderItem)
    (library_item : option LibraryItem) : M World unit :=
  library_item ←
    match library_item with
    | None =>
        let prov_item := mark_favorite import_as_favorite prov_item in
        add_item_to_library PLAYLIST prov_item
    | Some library_item =>
        if negb (bool_decide (MediaItem.cache_checksum library_item
                              = MediaItem.cache_checksum prov_item))
        then
          (* existing dbitem checksum changed *)
          update_item_in_library PLAYLIST
            (MediaItem.item_id library_item) prov_item
        else if negb (MediaItem.favorite library_item) && import_as_favorite
        then
          set_favorite PLAYLIST (MediaItem.item_id library_item) true;;
          mret library_item
        else
          '(consistent, prov_item) ←
            check_provider_mappings library_item prov_item true;
          if negb consistent
          then
            update_item_in_library PLAYLIST
              (MediaItem.item_id library_item) prov_item
          else mret library_item
    end;
  cur_db_ids_add library_item;;
  (* optionally sync playlist tracks *)
  if bool_decide (MediaItem.name prov_item ∈ conf_sync_playlist_tracks self)
     || bool_decide (MediaItem.uri prov_item ∈ conf_sync_playlist_tracks self)
  then _sync_playlist_tracks fuel prov_item
  else mret tt.

(** The loop body, for one yielded item. *)
Definition sync_playlist (fuel : nat) (import_as_favorite : bool) (prov_item : ProviderItem)
    : M World unit :=
  library_item ← get_library_item_by_prov_mappings PLAYLIST
    (MediaItem.provider_mappings prov_item);
  try_except
    (sync_playlist_body fuel import_as_favorite prov_item library_item)
    is_MusicAssistantError
    (fun err => log_warning (inl (MediaItem.uri prov_item)) err).

Definition _sync_library_playlists (fuel : nat) (import_as_favorite : bool)
    : M World (gset Z) :=
  set_cur_db_ids ∅;;
  async_for (get_library_items self PLAYLIST)
    (sync_playlist fuel import_as_favorite);;
  get_cur_db_ids.

(** *** [_sync_library_tracks] *)

(** The [try] block of the loop body. *)
Definition sync_track_body (import_as_favorite : bool) (prov_item : ProviderItem)
    (library_item : option LibraryItem) : M World unit :=
  if bool_decide (library_item = None)
     && negb (MediaItem.available prov_item)
  then
    (* skip unavailable tracks: [continue] *)
    mret tt
  else
    library_item ←
      match library_item with
      | None =>
          let prov_item := mark_favorite import_as_favorite prov_item in
          add_item_to_library TRACK prov_item
      | Some library_item =>
          if negb (bool_decide (MediaItem.available library_item
                                = MediaItem.available prov_item))
          then
            (* existing library item but availability changed *)
            update_item_in_library TRACK
              (MediaItem.item_id library_item) prov_item
          else if negb (MediaItem.favorite library_item)
                  && import_as_favorite
          then
            set_favorite TRACK (MediaItem.item_id library_item) true;;
            mret library_item
          else
            '(consistent, prov_item) ←
              check_provider_mappings library_item prov_item true;
            if negb consistent
            then
              update_item_in_library TRACK
                (MediaItem.item_id library_item) prov_item
            else mret library_item
      end;
    cur_db_ids_add library_item.

(** The loop body, for one yielded item. *)
Definition sync_track (import_as_favorite : bool) (prov_item : ProviderItem)
    : M World unit :=
  library_item ← get_library_item_by_prov_mappings TRACK
    (MediaItem.provider_mappings prov_item);
  try_except
    (sync_track_body import_as_favorite prov_item library_item)
    is_MusicAssistantError
    (fun err => log_warning (inl (MediaItem.uri prov_item)) err).

Definition _sync_library_tracks (import_as_favorite : bool)
    : M World (gset Z) :=
  set_cur_db_ids ∅;;
  async_for (get_library_items self TRACK) (sync_track import_as_favorite);;
  get_cur_db_ids.

(** *** [_sync_library_podcasts] *)

(** The [try] block of the loop body. *)
Definition sync_podcast_body (import_as_favorite : bool) (prov_item : ProviderItem)
    (library_item : option LibraryItem) : M World unit :=
  library_item ←
    match library_item with
    | None =>
        let prov_item := mark_favorite import_as_favorite prov_item in
        add_item_to_library PODCAST prov_item
    | Some library_item =>
        if negb (bool_decide (MediaItem.available library_item
                              = MediaItem.available prov_item))
        then
          update_item_in_library PODCAST
            (MediaItem.item_id library_item) prov_item
        else if negb (MediaItem.favorite library_item) && import_as_favorite
        then
          set_favorite PODCAST (MediaItem.item_id library_item) true;;
          mret library_item
        else
          '(consistent, prov_item) ←
            check_provider_mappings library_item prov_item true;
          if negb consistent
          then
            update_item_in_library PODCAST
              (MediaItem.item_id library_item) prov_item
          else mret library_item
    end;
  cur_db_ids_add library_item;;
  (* precache podcast episodes *)
  podcast_episodes (MediaItem.item_id library_item)
    (MediaItem.provider library_item).

(** The loop body, for one yielded item. *)
Definition sync_podcast (import_as_favorite : bool) (prov_item : ProviderItem)
    : M World unit :=
  library_item ← get_library_item_by_prov_mappings PODCAST
    (MediaItem.provider_mappings prov_item);
  try_except
    (sync_podcast_body import_as_favorite prov_item library_item)
    is_MusicAssistantError
    (fun err => log_warning (inl (MediaItem.uri prov_item)) err).

Definition _sync_library_podcasts (import_as_favorite : bool)
    : M World (gset Z) :=
  set_cur_db_ids ∅;;
  async_for (get_library_items self PODCAST)
    (sync_podcast import_as_favorite);;
  get_cur_db_ids.

(** *** [_sync_library_radios] *)

(** The [try] block of the loop body. *)
Definition sync_radio_body (import_as_favorite : bool) (prov_item : ProviderItem)
    (library_item : option LibraryItem) : M World unit :=
  library_item ←
    match library_item with
    | None =>
        let prov_item := mark_favorite import_as_favorite prov_item in
        add_item_to_library RADIO prov_item
    | Some library_item =>
        if negb (MediaItem.favorite library_item) && import_as_favorite
        then
          set_favorite RADIO (MediaItem.item_id library_item) true;;
          mret library_item
        else
          '(consistent, prov_item) ←
            check_provider_mappings library_item prov_item true;
          if negb consistent
          then
            update_item_in_library RADIO
              (MediaItem.item_id library_item) prov_item
          else mret library_item
    end;
  cur_db_ids_add library_item.

(** The loop body, for one yielded item. *)
Definition sync_radio (import_as_favorite : bool) (prov_item : ProviderItem)
    : M World unit :=
  library_item ← get_library_item_by_prov_mappings RADIO
    (MediaItem.provider_mappings prov_item);
  try_except
    (sync_radio_body import_as_favorite prov_item library_item)
    is_MusicAssistantError
    (fun err => log_warning (inl (MediaItem.uri prov_item)) err).

Definition _sync_library_radios (import_as_favorite : bool)
    : M World (gset Z) :=
  set_cur_db_ids ∅;;
  async_for (get_library_items self RADIO) (sync_radio import_as_favorite);;
  get_cur_db_ids.

(** *** [sync_library] *)

(** The provider instances, other than this one, that still mark the
    item as in their library. *)
Definition remaining_providers (library_item : LibraryItem) : gset string :=
  list_to_set
    (List.map ProviderMapping.provider_instance
       (List.filter
          (fun x =>
             negb (bool_decide (ProviderMapping.provider_instance x
                                = instance_id self))
             && ProviderMapping.in_library x)
          (MediaItem.provider_mappings library_item))).

(** [for prov_map in library_item.provider_mappings:
       if prov_map.provider_instance == self.instance_id:
           prov_map.in_library = False] *)
Definition unset_in_library (library_item : LibraryItem) : LibraryItem :=
  MediaItem.set_provider_mappings
    (List.map
       (fun prov_map =>
          if bool_decide (ProviderMapping.provider_instance prov_map
                          = instance_id self)
          then ProviderMapping.set_in_library false prov_map
          else prov_map)
       (MediaItem.provider_mappings library_item))
    library_item.

(** The body of the deletion loop, for one id of the previous
    snapshot. *)
Definition sync_deletion (media_type : MediaType) (cur_db_ids : gset Z)
    (db_id : Z) : M World unit :=
  if bool_decide (db_id ∉ cur_db_ids)
  then
    found ←
      try_except
        (library_item ← get_library_item media_type db_id;
         mret (Some library_item))
        is_MediaNotFoundError
        (fun _ => (* edge case: the item is already removed *) mret None);
    match found with
    | None => mret tt
    | Some library_item =>
        (* check if we have other provider-mappings (marked as in-library) *)
        if bool_decide (remaining_providers library_item <> ∅)
        then
          (* if we have other remaining providers, update the provider
             mappings *)
          let library_item := unset_in_library library_item in
          set_provider_mappings media_type db_id
            (MediaItem.provider_mappings library_item)
        else
          (* it is safe to remove it from the MA library too *)
          try_except
            (remove_item_from_library media_type db_id
               (bool_decide (media_type = ALBUM)))
            is_MusicAssistantError
            (fun err =>
               (* this is probably because the item still has dependents *)
               log_warning (inr db_id) err;;
               (* just un-favorite the item if we can't remove it *)
               (if MediaItem.favorite library_item
                then set_favorite media_type db_id false
                else mret tt);;
               let library_item := unset_in_library library_item in
               set_provider_mappings media_type db_id
                 (MediaItem.provider_mappings library_item))
    end
  else mret tt.

(** The reconciler [sync_library] dispatches to; [None] is the final
    [else] of the chain of comparisons. *)
Definition reconciler (fuel : nat) (media_type : MediaType)
    (import_as_favorite : bool) : option (M World (gset Z)) :=
  match media_type with
  | ARTIST => Some (_sync_library_artists import_as_favorite)
  | ALBUM => Some (_sync_library_albums import_as_favorite)
  | TRACK => Some (_sync_library_tracks import_as_favorite)
  | PLAYLIST => Some (_sync_library_playlists fuel import_as_favorite)
  | PODCAST => Some (_sync_library_podcasts import_as_favorite)
  | RADIO => Some (_sync_library_radios import_as_favorite)
  | AUDIOBOOK => Some (_sync_library_audiobooks import_as_favorite)
  | _ => None
  end.

(** Everything after the dispatch: process deletions, then store the
    current list of ids in the cache. *)
Definition process_deletions (media_type : MediaType) (cur_db_ids : gset Z)
    : M World unit :=
  let cache_category := CACHE_CATEGORY_LIBRARY_ITEMS in
  let cache_base_key := instance_id self in
  prev_library_items ←
    cache_get (MediaType_value media_type) cache_category cache_base_key;
  match prev_library_items with
  | Some (db_id :: rest) =>
      for_each (db_id :: rest) (sync_deletion media_type cur_db_ids)
  | _ => mret tt
  end;;
  cache_set (MediaType_value media_type) (elements cur_db_ids)
    cache_category cache_base_key.

Definition sync_library (fuel : nat) (media_type : MediaType)
    (import_as_favorite : bool) : M World unit :=
  if negb (library_supported self media_type)
  then raise (UnsupportedFeaturedException
                "Library sync not supported for this media type")
  else
    cur_db_ids ←
      match reconciler fuel media_type import_as_favorite with
      | Some sync => sync
      | None =>
          (* this should not happen but catch it anyways *)
          raise (UnsupportedFeaturedException
                   "Unexpected media type to sync")
      end;
    process_deletions media_type cur_db_ids.
End Engine.

(** ** A library store to run the engine against *)

(** Modelled from the spec: the Library Store and Snapshot Cache behind
    [self.mass] (their implementation is not part of the engine). The
    store keeps the canonical entities in creation order, hands out
    fresh numeric ids, and looks an item up by the (provider instance,
    item id) pairs of its mappings. [faults] lets a run inject the
    failure of any call, the way a flaky backend would fail. *)
Record Library := {
  entities : list (MediaType * LibraryItem);
  next_id : Z;
  snapshots : list (string * Z * string * list Z);
  faults : Call -> option exn
}.

Definition same_key (a b : ProviderMapping.t) : bool :=
  bool_decide (ProviderMapping.key a = ProviderMapping.key b).

Definition claims (mappings : list ProviderMapping.t) (e : MediaType * LibraryItem)
    (mt : MediaType) : bool :=
  bool_decide (fst e = mt)
  && existsb (fun m => existsb (same_key m) (MediaItem.provider_mappings (snd e)))
       mappings.

Definition is_entity (mt : MediaType) (db_id : Z) (e : MediaType * LibraryItem)
    : bool :=
  bool_decide (fst e = mt) && bool_decide (MediaItem.item_id (snd e) = db_id).

Definition find_entity (mt : MediaType) (db_id : Z) (lib : Library)
    : option LibraryItem :=
  snd <$> List.find (is_entity mt db_id) (entities lib).

Definition with_entities (es : list (MediaType * LibraryItem)) (lib : Library)
    : Library :=
  {| entities := es; next_id := next_id lib; snapshots := snapshots lib;
     faults := faults lib |}.

(** Apply [f] to the entity with the given type and id. *)
Definition alter_entity (f : LibraryItem -> LibraryItem) (mt : MediaType)
    (db_id : Z) (lib : Library) : Library :=
  with_entities
    (List.map (fun e => if is_entity mt db_id e then (fst e, f (snd e)) else e)
       (entities lib))
    lib.

(** The mappings of an update replace those with the same key and are
    appended otherwise. *)
Definition merge_mappings (old new : list ProviderMapping.t)
    : list ProviderMapping.t :=
  List.filter (fun x => negb (existsb (same_key x) new)) old ++ new.

(** Run [op] unless a fault is injected for the call. *)
Definition guarded {A} (c : Call) (op : Library -> Library * result A)
    (lib : Library) : Library * result A :=
  match faults lib c with
  | Some e => (lib, Raise e)
  | None => op lib
  end.

Definition mem_lookup (mt : MediaType) (mappings : list ProviderMapping.t)
    : Library -> Library * result (option LibraryItem) :=
  guarded (GetLibraryItemByProvMappings mt mappings) (fun lib =>
    (lib, Ok (snd <$> List.find (fun e => claims mappings e mt) (entities lib)))).

Definition mem_add (mt : MediaType) (item : ProviderItem)
    : Library -> Library * result LibraryItem :=
  guarded (AddItemToLibrary mt item) (fun lib =>
    let created :=
      MediaItem.mk (next_id lib) "library" (MediaItem.name item)
        (MediaItem.uri item) (MediaItem.favorite item)
        (MediaItem.available item) (MediaItem.cache_checksum item)
        (MediaItem.resume_position_ms item) (MediaItem.fully_played item)
        (MediaItem.provider_mappings item) in
    ({| entities := entities lib ++ [(mt, created)];
        next_id := next_id lib + 1;
        snapshots := snapshots lib;
        faults := faults lib |},
     Ok created)).

Definition mem_update (mt : MediaType) (db_id : Z) (item : ProviderItem)
    : Library -> Library * result LibraryItem :=
  guarded (UpdateItemInLibrary mt db_id item) (fun lib =>
    match find_entity mt db_id lib with
    | None => (lib, Raise (MediaNotFoundError "item not found"))
    | Some old =>
        let updated :=
          MediaItem.mk db_id (MediaItem.provider old) (MediaItem.name item)
            (MediaItem.uri item) (MediaItem.favorite old)
            (MediaItem.available item) (MediaItem.cache_checksum item)
            (MediaItem.resume_position_ms item) (MediaItem.fully_played item)
            (merge_mappings (MediaItem.provider_mappings old)
               (MediaItem.provider_mappings item)) in
        (alter_entity (fun _ => updated) mt db_id lib, Ok updated)
    end).

Definition mem_set_favorite (mt : MediaType) (db_id : Z) (favorite : bool)
    : Library -> Library * result unit :=
  guarded (SetFavorite mt db_id favorite) (fun lib =>
    (alter_entity (MediaItem.set_favorite favorite) mt db_id lib, Ok tt)).

Definition mem_set_provider_mappings (mt : MediaType) (db_id : Z)
    (mappings : list ProviderMapping.t) : Library -> Library * result unit :=
  guarded (SetProviderMappings mt db_id mappings) (fun lib =>
    (alter_entity (MediaItem.set_provider_mappings mappings) mt db_id lib,
     Ok tt)).

Definition mem_remove (mt : MediaType) (db_id : Z) (recursive : bool)
    : Library -> Library * result unit :=
  guarded (RemoveItemFromLibrary mt db_id recursive) (fun lib =>
    (with_entities
       (List.filter (fun e => negb (is_entity mt db_id e)) (entities lib)) lib,
     Ok tt)).

Definition mem_get (mt : MediaType) (db_id : Z)
    : Library -> Library * result LibraryItem :=
  guarded (GetLibraryItem mt db_id) (fun lib =>
    match find_entity mt db_id lib with
    | None => (lib, Raise (MediaNotFoundError "item not found"))
    | Some item => (lib, Ok item)
    end).

Definition mem_podcast_episodes (db_id : Z) (provider : string)
    : Library -> Library * result unit :=
  guarded (PodcastEpisodes db_id provider) (fun lib => (lib, Ok tt)).

Definition is_snapshot (key : string) (category : Z) (base_key : string)
    (entry : string * Z * string * list Z) : bool :=
  bool_decide (fst entry = (key, category, base_key)).

Definition mem_cache_get (key : string) (category : Z) (base_key : string)
    : Library -> Library * result (option (list Z)) :=
  guarded (CacheGet key category base_key) (fun lib =>
    (lib, Ok (snd <$> List.find (is_snapshot key category base_key)
                        (snapshots lib)))).

Definition mem_cache_set (key : string) (data : list Z) (category : Z)
    (base_key : string) : Library -> Library * result unit :=
  guarded (CacheSet key data category base_key) (fun lib =>
    ({| entities := entities lib; next_id := next_id lib;
        snapshots :=
          (key, category, base_key, data)
          :: List.filter (fun e => negb (is_snapshot key category base_key e))
               (snapshots lib);
        faults := faults lib |},
     Ok tt)).

Global Instance Library_Mass : Mass Library := {|
  mass_get_library_item_by_prov_mappings := mem_lookup;
  mass_add_item_to_library := mem_add;
  mass_update_item_in_library := mem_update;
  mass_set_favorite := mem_set_favorite;
  mass_set_provider_mappings := mem_set_provider_mappings;
  mass_remove_item_from_library := mem_remove;
  mass_get_library_item := mem_get;
  mass_podcast_episodes := mem_podcast_episodes;
  mass_cache_get := mem_cache_get;
  mass_cache_set := mem_cache_set
|}.

(** No injected failure. *)
Definition healthy : Call -> option exn := fun _ => None.

(** What a run shows from outside: the calls made and the outcome. *)
Definition observe {World A} (m : M World A) (w : World)
    : list Call * result A :=
  let '(t, (_, r)) := m (mkState w ∅) in (t, r).

(** The world a run ends in. *)
Definition final_world {World A} (m : M World A) (w : World) : World :=
  world (fst (snd (m (mkState w ∅)))).

(** ** Running computations *)

(** The calls a computation makes from a given state. *)
Definition trace_of {World A} (m : M World A) (s : State World) : list Call :=
  fst (m s).

Ltac unfold_monad :=
  unfold mbind, M_bind, mret, M_ret, bind, ret, raise, lift, try_except,
    perform, log_warning, get_cur_db_ids, set_cur_db_ids, trace_of in *.

(** Case analysis on the membership of a call in an explicit trace. *)
Ltac in_trace H :=
  repeat match type of H with
    | _ ∈ [] => by apply elem_of_nil in H
    | _ ∈ _ :: _ => apply elem_of_cons in H as [H | H]
    | _ ∈ _ ++ _ => apply elem_of_app in H as [H | H]
    end;
  simplify_eq.

(** ** The vocabulary of the statements *)

(** The reading of the lookup key that lets a multi-instance provider
    share its domain unless it is "differentiated"; the source has no
    such attribute, so it is a parameter here. *)
Definition lookup_key_by_differentiation (differentiated : bool)
    (self : MusicProvider) : string :=
  if is_streaming_provider self || (multi_instance self && negb differentiated)
  then domain self
  else instance_id self.

(** What the collector may do to one mapping on behalf of provider
    instance [self]: a mapping of this instance has its [in_library]
    flag cleared and nothing else changed; a mapping of another
    instance is left as it is. *)
Definition demotes (self : MusicProvider) (old new : ProviderMapping.t) : Prop :=
  (ProviderMapping.provider_instance old = instance_id self ->
   new = ProviderMapping.set_in_library false old)
  /\ (ProviderMapping.provider_instance old <> instance_id self -> new = old).

Definition is_SetFavorite (c : Call) : bool :=
  match c with
  | SetFavorite _ _ _ => true
  | _ => false
  end.

Ltac unfold_calls :=
  unfold get_library_item_by_prov_mappings, add_item_to_library,
    update_item_in_library, set_favorite, set_provider_mappings,
    remove_item_from_library, get_library_item, podcast_episodes, cache_get,
    cache_set, cur_db_ids_add, check_provider_mappings in *.

Section Vocabulary.
Context {World : Type} `{!Mass World}.
Variable self : MusicProvider.

(** What it means for the reconciler [sync] of media type [mt], with
    loop body [step] and guarded block [body], to isolate a failure:
    when the items before [item] have been processed, the lookup for
    [item] succeeds and its guarded block raises a
    [MusicAssistantError], the failure is logged, whatever was done
    so far stays done, the remaining items are processed from the
    state the failure left, and the pass returns the ids it
    recorded. *)
Definition isolates_failure (mt : MediaType)
    (step : ProviderItem -> M World unit)
    (body : ProviderItem -> option LibraryItem -> M World unit)
    (sync : M World (gset Z)) : Prop :=
  forall (pre post : list ProviderItem) (item : ProviderItem)
         (s s1 s2 s3 : State World) (w : World)
         (found : option LibraryItem) (t1 t2 t3 : list Call) (err : exn),
    yielded (get_library_items self mt) = pre ++ item :: post ->
    ending (get_library_items self mt) = Exhausted ->
    for_each pre step (mkState (world s) ∅) = (t1, (s1, Ok tt)) ->
    mass_get_library_item_by_prov_mappings mt
      (MediaItem.provider_mappings item) (world s1) = (w, Ok found) ->
    body item found (mkState w (cur_db_ids s1)) = (t2, (s2, Raise err)) ->
    is_MusicAssistantError err = true ->
    for_each post step s2 = (t3, (s3, Ok tt)) ->
    sync s
    = (t1
       ++ GetLibraryItemByProvMappings mt (MediaItem.provider_mappings item)
          :: t2
       ++ LogWarning (inl (MediaItem.uri item)) err
          :: t3,
       (s3, Ok (cur_db_ids s3))).

(** The checker accepts the pair without raising. *)
Definition consistent (library_item : LibraryItem) (prov_item : ProviderItem)
    : bool :=
  match _check_provider_mappings self library_item prov_item true with
  | Ok (verdict, _) => verdict
  | _ => false
  end.

(** No branch of the reconciler of [mt] has anything to do for the
    matched pair: no promotion is pending, there is no type-specific
    change and the mapping is consistent. *)
Definition needs_nothing (mt : MediaType) (import_as_favorite : bool)
    (library_item : LibraryItem) (prov_item : ProviderItem) : bool :=
  (MediaItem.favorite library_item || negb import_as_favorite)
  && consistent library_item prov_item
  && match mt with
     | PLAYLIST =>
         bool_decide (MediaItem.cache_checksum library_item
                      = MediaItem.cache_checksum prov_item)
     | TRACK | PODCAST =>
         bool_decide (MediaItem.available library_item
                      = MediaItem.available prov_item)
     | AUDIOBOOK => negb (resume_state_changed library_item prov_item)
     | _ => true
     end.

(** A track of an album or playlist that is in the library of world
    [w0] with a consistent mapping; looking it up leaves [w0] as it is. *)
Definition track_settled (w0 : World) (prov_track : ProviderItem) : Prop :=
  exists library_track,
    mass_get_library_item_by_prov_mappings TRACK
      (MediaItem.provider_mappings prov_track) w0
    = (w0, Ok (Some library_track))
    /\ consistent library_track prov_track = true.

(** What the iteration does beyond the item itself needs nothing
    either: the tracks of an album or playlist, when they are synced,
    are settled, and precaching the episodes of a podcast leaves [w0]
    as it is. *)
Definition children_settled (fuel : nat) (mt : MediaType) (w0 : World)
    (library_item : LibraryItem) (prov_item : ProviderItem) : Prop :=
  match mt with
  | ALBUM =>
      conf_sync_album_tracks self = true ->
      exists tracks,
        get_album_tracks self (MediaItem.item_id prov_item) = Ok tracks
        /\ Forall (track_settled w0) tracks
  | PLAYLIST =>
      MediaItem.name prov_item ∈ conf_sync_playlist_tracks self
      \/ MediaItem.uri prov_item ∈ conf_sync_playlist_tracks self ->
      ending (iter_playlist_tracks fuel self (MediaItem.item_id prov_item) 0)
      = Exhausted
      /\ Forall (track_settled w0)
           (yielded (iter_playlist_tracks fuel self
                       (MediaItem.item_id prov_item) 0))
  | PODCAST =>
      mass_podcast_episodes (MediaItem.item_id library_item)
        (MediaItem.provider library_item) w0 = (w0, Ok tt)
  | _ => True
  end.

(** The catalog item is matched in world [w0] by the entity [db_id],
    and the pair needs nothing. *)
Definition settled (fuel : nat) (mt : MediaType) (import_as_favorite : bool)
    (w0 : World) (prov_item : ProviderItem) (db_id : Z) : Prop :=
  exists library_item,
    mass_get_library_item_by_prov_mappings mt
      (MediaItem.provider_mappings prov_item) w0
    = (w0, Ok (Some library_item))
    /\ MediaItem.item_id library_item = db_id
    /\ needs_nothing mt import_as_favorite library_item prov_item = true
    /\ children_settled fuel mt w0 library_item prov_item.

(** A computation that, started in world [w0], only reads: it ends in
    [w0] without an exception, makes no mutating call, and turns the
    recorded ids [seen] into [record seen]. *)
Definition quiet (w0 : World) (m : M World unit) (record : gset Z -> gset Z)
    : Prop :=
  forall seen,
    exists reads,
      m (mkState w0 seen) = (reads, (mkState w0 (record seen), Ok tt))
      /\ Forall (fun c => is_mutation c = false) reads.

End Vocabulary.

(** ** Example providers and libraries *)

Definition mapping (item_id instance : string) (available in_library : bool)
    : ProviderMapping.t :=
  ProviderMapping.mk item_id "plex" instance available in_library.

Definition provider_item (item_id : string) (available : bool)
    (mappings : list ProviderMapping.t) : ProviderItem :=
  MediaItem.mk item_id "plex--1" item_id item_id false available None None None
    mappings.

Definition library_item (db_id : Z) (favorite available : bool)
    (mappings : list ProviderMapping.t) : LibraryItem :=
  MediaItem.mk db_id "library" "" "" favorite available None None None mappings.

Definition no_items : Catalog := {| yielded := []; ending := Exhausted |}.

(** A provider whose catalog is private to the instance, with the given
    catalog for one media type. *)
Definition plex (mt : MediaType) (items : list ProviderItem) : MusicProvider := {|
  domain := "plex";
  instance_id := "plex--1";
  is_streaming_provider := false;
  multi_instance := true;
  supported_features :=
    {[ LIBRARY_ARTISTS; LIBRARY_TRACKS; LIBRARY_PLAYLISTS; LIBRARY_AUDIOBOOKS ]};
  conf_sync_album_tracks := false;
  conf_sync_playlist_tracks := [];
  get_library_items := fun mt' =>
    if bool_decide (mt' = mt)
    then {| yielded := items; ending := Exhausted |}
    else no_items;
  get_album_tracks := fun _ => Ok [];
  get_playlist_tracks := fun _ _ => Ok []
|}.

(** A single-instance provider that is not a streaming provider. *)
Definition builtin : MusicProvider := {|
  domain := "builtin";
  instance_id := "builtin--x7";
  is_streaming_provider := false;
  multi_instance := false;
  supported_features := ∅;
  conf_sync_album_tracks := false;
  conf_sync_playlist_tracks := [];
  get_library_items := fun _ => no_items;
  get_album_tracks := fun _ => Ok [];
  get_playlist_tracks := fun _ _ => Ok []
|}.

Definition library_of (es : list (MediaType * LibraryItem))
    (snaps : list (string * Z * string * list Z)) (fs : Call -> option exn)
    : Library :=
  {| entities := es; next_id := 100; snapshots := snaps; faults := fs |}.

(** *** Orphan collection on example libraries *)

(** Track 4 is claimed by two provider instances. *)
Definition shared_track : LibraryItem :=
  library_item 4 true true
    [mapping "d" "plex--1" true true; mapping "d" "plex--2" true true].

Definition shared_library : Library :=
  library_of [(TRACK, shared_track)] [("track", 0, "plex--1", [4])] healthy.

(** Track 5 is a favorite claimed by this instance only, and the store
    refuses to remove it. *)
Definition sole_track : LibraryItem :=
  library_item 5 true true [mapping "e" "plex--1" true true].

Definition has_dependents (c : Call) : option exn :=
  match c with
  | RemoveItemFromLibrary _ _ _ => Some (MusicAssistantError "item has dependents")
  | _ => None
  end.

Definition referenced_library : Library :=
  library_of [(TRACK, sole_track)] [("track", 0, "plex--1", [5])] has_dependents.

(** *** A failing item among three artists *)

Definition artist (item_id : string) : ProviderItem :=
  provider_item item_id true [mapping item_id "plex--1" true true].

Definition three_artists : MusicProvider :=
  plex ARTIST [artist "a1"; artist "a2"; artist "a3"].

(** The store fails to add artist a2. *)
Definition add_fails (c : Call) : option exn :=
  match c with
  | AddItemToLibrary ARTIST item =>
      if bool_decide (MediaItem.item_id item = "a2")
      then Some (MusicAssistantError "database error")
      else None
  | _ => None
  end.

(** The store fails to look artist a2 up. *)
Definition lookup_fails (c : Call) : option exn :=
  match c with
  | GetLibraryItemByProvMappings ARTIST mappings =>
      if bool_decide (mappings = MediaItem.provider_mappings (artist "a2"))
      then Some (MusicAssistantError "database error")
      else None
  | _ => None
  end.

Definition lookup_of (item : ProviderItem) : Call :=
  GetLibraryItemByProvMappings ARTIST (MediaItem.provider_mappings item).

(** *** A pending promotion together with a type-specific change *)

(** Library entity 7: not a favorite, available, checksum v1, no resume
    state; it is stored once under each of four media types. *)
Definition stale_entity : LibraryItem :=
  MediaItem.mk 7 "library" "mix" "library://7" false true (Some "v1") None None
    [mapping "p1" "plex--1" true true].

(** What the provider reports for it now: unavailable, checksum v2,
    half played. *)
Definition fresh_item : ProviderItem :=
  MediaItem.mk "p1" "plex--1" "mix" "plex--1://p1" false false (Some "v2")
    (Some 5000) (Some false) [mapping "p1" "plex--1" false true].

Definition stale_library : Library :=
  library_of
    [(PLAYLIST, stale_entity); (TRACK, stale_entity); (PODCAST, stale_entity);
     (AUDIOBOOK, stale_entity)]
    [] healthy.

Definition lookup_fresh (mt : MediaType) : Call :=
  GetLibraryItemByProvMappings mt (MediaItem.provider_mappings fresh_item).

(** *** Unavailable tracks *)

Definition gone_track : ProviderItem :=
  provider_item "t9" false [mapping "t9" "plex--1" false true].


(** *** Two passes in a row *)

Definition one_artist : MusicProvider := plex ARTIST [artist "a1"].

(** Artist 7 was demoted earlier: its mapping is not in-library and it
    is not a favorite. The provider lists it again. *)
Definition demoted_library : Library :=
  library_of
    [(ARTIST, library_item 7 false true [mapping "a1" "plex--1" true false])]
    [("artist", 0, "plex--1", [7])] healthy.

(** Artist 7 is a favorite and its mapping agrees with the provider. *)
Definition synced_library : Library :=
  library_of
    [(ARTIST, library_item 7 true true [mapping "a1" "plex--1" true true])]
    [("artist", 0, "plex--1", [7])] healthy.

(** ** Editing the provider's library *)

(** [NotImplementedError], [KeyError] and [IndexError] are outside the
    [MusicAssistantError] hierarchy. *)
Definition NotImplementedError : exn := OtherException "NotImplementedError".
Definition KeyError (msg : string) : exn := OtherException ("KeyError: " +:+ msg).
Definition IndexError : exn := OtherException "IndexError".

(** [library_add]; of [item] only [item.media_type] is read. The
    informational log line is left out. *)
Definition library_add (self : MusicProvider) (item_media_type : MediaType)
    : result bool :=
  if bool_decide (item_media_type = ARTIST)
     && bool_decide (LIBRARY_ARTISTS_EDIT ∈ supported_features self)
  then Raise NotImplementedError
  else if bool_decide (item_media_type = ALBUM)
          && bool_decide (LIBRARY_ALBUMS_EDIT ∈ supported_features self)
  then Raise NotImplementedError
  else if bool_decide (item_media_type = TRACK)
          && bool_decide (LIBRARY_TRACKS_EDIT ∈ supported_features self)
  then Raise NotImplementedError
  else if bool_decide (item_media_type = PLAYLIST)
          && bool_decide (LIBRARY_PLAYLISTS_EDIT ∈ supported_features self)
  then Raise NotImplementedError
  else if bool_decide (item_media_type = RADIO)
          && bool_decide (LIBRARY_RADIOS_EDIT ∈ supported_features self)
  then Raise NotImplementedError
  else if bool_decide (item_media_type = AUDIOBOOK)
          && bool_decide (LIBRARY_AUDIOBOOKS_EDIT ∈ supported_features self)
  then Raise NotImplementedError
  else if bool_decide (item_media_type = PODCAST)
          && bool_decide (LIBRARY_PODCASTS_EDIT ∈ supported_features self)
  then Raise NotImplementedError
  else Ok true.

(** [library_remove] *)
Definition library_remove (self : MusicProvider) (prov_item_id : string)
    (media_type : MediaType) : result bool :=
  if bool_decide (media_type = ARTIST)
     && bool_decide (LIBRARY_ARTISTS_EDIT ∈ supported_features self)
  then Raise NotImplementedError
  else if bool_decide (media_type = ALBUM)
          && bool_decide (LIBRARY_ALBUMS_EDIT ∈ supported_features self)
  then Raise NotImplementedError
  else if bool_decide (media_type = TRACK)
          && bool_decide (LIBRARY_TRACKS_EDIT ∈ supported_features self)
  then Raise NotImplementedError
  else if bool_decide (media_type = PLAYLIST)
          && bool_decide (LIBRARY_PLAYLISTS_EDIT ∈ supported_features self)
  then Raise NotImplementedError
  else if bool_decide (media_type = RADIO)
          && bool_decide (LIBRARY_RADIOS_EDIT ∈ supported_features self)
  then Raise NotImplementedError
  else if bool_decide (media_type = AUDIOBOOK)
          && bool_decide (LIBRARY_AUDIOBOOKS_EDIT ∈ supported_features self)
  then Raise NotImplementedError
  else if bool_decide (media_type = PODCAST)
          && bool_decide (LIBRARY_PODCASTS_EDIT ∈ supported_features self)
  then Raise NotImplementedError
  else Ok true.

(** ** Strings *)

(** The rest of [s] after the prefix [p], if [p] is a prefix of [s]. *)
Fixpoint strip_prefix (p s : string) : option string :=
  match p, s with
  | EmptyString, _ => Some s
  | String a p', String b s' =>
      if bool_decide (a = b) then strip_prefix p' s' else None
  | String _ _, EmptyString => None
  end.

(** [s.split(sep, 1)[1]] for a separator that is not empty: what
    follows the leftmost occurrence of [sep] in [s]; [None] when [sep]
    does not occur, where Python raises [IndexError]. *)
Fixpoint split_after (sep s : string) : option string :=
  match strip_prefix sep s with
  | Some rest => Some rest
  | None =>
      match s with
      | EmptyString => None
      | String _ s' => split_after sep s'
      end
  end.

(** [needle in haystack], for a needle that is not empty. *)
Definition contains (needle haystack : string) : bool :=
  match split_after needle haystack with
  | Some _ => true
  | None => false
  end.

(** ** Browsing *)

(** Modelled from the spec: a browse folder of the external models
    package; [is_playable] is false unless given. *)
Record BrowseFolder := {
  folder_item_id : string;
  folder_provider : string;
  folder_path : string;
  folder_name : string;
  folder_translation_key : string;
  folder_is_playable : bool
}.

(** What [browse] returns: items listed by the provider, items of the
    library, or folders. *)
Inductive BrowseEntry :=
  | ProviderEntry (item : ProviderItem)
  | LibraryEntry (item : LibraryItem)
  | FolderEntry (folder : BrowseFolder).

(** [[x async for x in generator]] *)
Definition collect (gen : Catalog) : result (list BrowseEntry) :=
  match ending gen with
  | Exhausted => Ok (ProviderEntry <$> yielded gen)
  | Failed e => Raise e
  | Unfinished => OutOfFuel
  end.

(** The main listing of [browse]: one folder for each library feature
    the provider declares, in the order of the source. *)
Definition root_folders (self : MusicProvider) (path : string)
    : list BrowseFolder :=
  (if bool_decide (LIBRARY_ARTISTS ∈ supported_features self)
   then [Build_BrowseFolder "artists" (instance_id self) (path +:+ "artists")
           "Artists" "artists" true]
   else [])
  ++ (if bool_decide (LIBRARY_ALBUMS ∈ supported_features self)
      then [Build_BrowseFolder "albums" (instance_id self) (path +:+ "albums")
              "Albums" "albums" true]
      else [])
  ++ (if bool_decide (LIBRARY_TRACKS ∈ supported_features self)
      then [Build_BrowseFolder "tracks" (domain self) (path +:+ "tracks")
              "Tracks" "tracks" true]
      else [])
  ++ (if bool_decide (LIBRARY_PLAYLISTS ∈ supported_features self)
      then [Build_BrowseFolder "playlists" (instance_id self)
              (path +:+ "playlists") "Playlists" "playlists" true]
      else [])
  ++ (if bool_decide (LIBRARY_RADIOS ∈ supported_features self)
      then [Build_BrowseFolder "radios" (instance_id self) (path +:+ "radios")
              "Radio" "radios" false]
      else [])
  ++ (if bool_decide (LIBRARY_AUDIOBOOKS ∈ supported_features self)
      then [Build_BrowseFolder "audiobooks" (instance_id self)
              (path +:+ "audiobooks") "Audiobooks" "audiobooks" false]
      else [])
  ++ (if bool_decide (LIBRARY_PODCASTS ∈ supported_features self)
      then [Build_BrowseFolder "podcasts" (instance_id self)
              (path +:+ "podcasts") "Podcasts" "podcasts" false]
      else []).

Section Browse.
Context {World : Type} `{!Mass World}.
Variable self : MusicProvider.
Variable CACHE_CATEGORY_LIBRARY_ITEMS : Z.

(** [ProviderFeature.BROWSE in self.supported_features]; the token is
    not among the capability tokens of the data model. *)
Variable BROWSE_supported : bool.

(** [controller.library_items(provider=..., extra_query=...,
    extra_query_params={"ids": ids})] of the controller of a media
    type. *)
Variable mass_library_items :
  MediaType -> option string -> string -> list Z -> World ->
  World * result (list LibraryItem).

(** One of the seven listing branches of [browse]: the ids of the last
    sync are read from the cache; without them the provider lists its
    library itself, with them the library is queried for those ids. *)
Definition browse_listing (mt : MediaType) (key : string)
    (provider : option string) (query : string) (w : World)
    : World * result (list BrowseEntry) :=
  match mass_cache_get key CACHE_CATEGORY_LIBRARY_ITEMS (instance_id self) w with
  | (w1, Ok library_item_ids) =>
      match library_item_ids with
      | None | Some [] => (w1, collect (get_library_items self mt))
      | Some library_item_ids =>
          match mass_library_items mt provider query library_item_ids w1 with
          | (w2, Ok items) => (w2, Ok (LibraryEntry <$> items))
          | (w2, Raise e) => (w2, Raise e)
          | (w2, OutOfFuel) => (w2, OutOfFuel)
          end
      end
  | (w1, Raise e) => (w1, Raise e)
  | (w1, OutOfFuel) => (w1, OutOfFuel)
  end.

(** [browse]; [fuel] bounds the depth of the recursion. *)
Fixpoint browse (fuel : nat) (path : string) (w : World)
    : World * result (list BrowseEntry) :=
  match fuel with
  | O => (w, OutOfFuel)
  | S fuel' =>
      if negb BROWSE_supported
      then (w, Raise NotImplementedError)
      else
        match split_after "://" path with
        | None => (w, Raise IndexError)
        | Some subpath =>
            if bool_decide (subpath = "artists")
            then browse_listing ARTIST "artist" (Some (instance_id self))
                   "artists.item_id in :ids" w
            else if bool_decide (subpath = "albums")
            then browse_listing ALBUM "album" None "albums.item_id in :ids" w
            else if bool_decide (subpath = "tracks")
            then browse_listing TRACK "track" None "tracks.item_id in :ids" w
            else if bool_decide (subpath = "radios")
            then browse_listing RADIO "radio" None "radios.item_id in :ids" w
            else if bool_decide (subpath = "playlists")
            then browse_listing PLAYLIST "playlist" None
                   "playlists.item_id in :ids" w
            else if bool_decide (subpath = "audiobooks")
            then browse_listing AUDIOBOOK "audiobook" None
                   "audiobooks.item_id in :ids" w
            else if bool_decide (subpath = "podcasts")
            then browse_listing PODCAST "podcast" None
                   "podcasts.item_id in :ids" w
            else if negb (bool_decide (subpath = ""))
            then (* unknown path *) (w, Raise (KeyError "Invalid subpath"))
            else
              (* no subpath: return main listing *)
              match root_folders self path with
              | [only] =>
                  (* only one level, return the items directly *)
                  browse fuel' (folder_path only) w
              | folders => (w, Ok (FolderEntry <$> folders))
              end
        end
  end.
End Browse.

(** ** Spotify: images *)

(** [TypeError] is outside the [MusicAssistantError] hierarchy. *)
Definition TypeError : exn := OtherException "TypeError".

#[local] Unset Elimination Schemes.

(** What a value typed [Any] can be in a decoded JSON document of the
    Spotify API: [None], a boolean, a number, a string, a list or a
    dict with string keys. *)
Inductive json :=
  | JNull
  | JBool (b : bool)
  | JNumber (n : Z)
  | JString (s : string)
  | JArray (items : list json)
  | JObject (fields : gmap string json).

#[local] Set Elimination Schemes.

(** [needle in value] for a string [needle] that is not empty: the
    substring test on a string, membership among the items of a list
    and among the keys of a dict; [TypeError] on [None], a boolean and
    a number, which are not iterable. *)
Definition py_in (needle : string) (value : json) : result bool :=
  match value with
  | JString s => Ok (contains needle s)
  | JArray items =>
      Ok (existsb
            (fun item =>
               match item with
               | JString s => bool_decide (s = needle)
               | _ => false
               end)
            items)
  | JObject fields => Ok (bool_decide (is_Some (fields !! needle)))
  | JNull | JBool _ | JNumber _ => Raise TypeError
  end.

(** Modelled from the spec: the image of a media item, of the external
    models package; the type is always [ImageType.THUMB] here. The
    dataclass and [UniqueList] are taken not to inspect [path], which
    is whatever value the image is given. *)
Record MediaItemImage := {
  image_is_thumb : bool;
  image_path : json;
  image_provider : string;
  image_remotely_accessible : bool
}.

(** The file name of Spotify's generic placeholder picture. *)
Definition GENERIC_IMAGE : string := "2a96cbd8b46e442fc41c2b86b821562f".

(** The [for] loop of [parse_images]; an image object is a
    [dict[str, Any]]. *)
Fixpoint parse_images_loop (images_list : list (gmap string json))
    (lookup_key : string) (exclude_generic : bool)
    : result (list MediaItemImage) :=
  match images_list with
  | [] => Ok []
  | img :: rest =>
      match img !! "url" with
      | None => Raise (KeyError "url")
      | Some img_url =>
          (* Skip generic placeholder images for artists if requested;
             [and] evaluates [in] only when [exclude_generic] holds *)
          match
            (if exclude_generic then py_in GENERIC_IMAGE img_url else Ok false)
          with
          | Ok true => parse_images_loop rest lookup_key exclude_generic
          | Ok false =>
              Ok [{| image_is_thumb := true; image_path := img_url;
                     image_provider := lookup_key;
                     image_remotely_accessible := true |}]
          | Raise e => Raise e
          | OutOfFuel => OutOfFuel
          end
      end
  end.

(** [parse_images] of [providers/spotify/parsers.py] *)
Definition parse_images (images_list : list (gmap string json))
    (lookup_key : string) (exclude_generic : bool)
    : result (list MediaItemImage) :=
  match images_list with
  | [] => Ok []
  | _ => parse_images_loop images_list lookup_key exclude_generic
  end.

(** ** More vocabulary *)

(** Every call the computation makes, from whatever state, satisfies
    [P]. *)
Definition emits {World A} (P : Call -> Prop) (m : M World A) : Prop :=
  forall s, Forall P (trace_of m s).

(** The controllers the reconciler of [mt] may address: its own, and
    the track controller when it syncs the tracks of albums or
    playlists. *)
Definition reconciler_target (mt m : MediaType) : bool :=
  bool_decide (m = mt)
  || (bool_decide (m = TRACK)
      && (bool_decide (mt = ALBUM) || bool_decide (mt = PLAYLIST))).

(** The calls a reconciler of [mt] may make: look up, add and update
    on its controllers, promote to favorite on its own controller,
    precache podcast episodes, and log a skipped item. *)
Definition reconciler_call (mt : MediaType) (c : Call) : bool :=
  match c with
  | GetLibraryItemByProvMappings m _ => reconciler_target mt m
  | AddItemToLibrary m _ => reconciler_target mt m
  | UpdateItemInLibrary m _ _ => reconciler_target mt m
  | SetFavorite m _ favorite => bool_decide (m = mt) && favorite
  | PodcastEpisodes _ _ => bool_decide (mt = PODCAST)
  | LogWarning (inl _) _ => true
  | _ => false
  end.

Definition is_CacheSet (c : Call) : bool :=
  match c with
  | CacheSet _ _ _ _ => true
  | _ => false
  end.

(** The calls the deletion processing of a pass for [mt] may make:
    besides reading and writing the snapshot and logging, it fetches,
    removes, un-favorites and re-maps only entities of media type [mt]
    whose id is in the previous snapshot [prev] and not among the ids
    [seen] by the pass. *)
Definition deletion_call (self : MusicProvider) (category : Z) (mt : MediaType)
    (prev : list Z) (seen : gset Z) (c : Call) : Prop :=
  match c with
  | GetLibraryItem m db_id | RemoveItemFromLibrary m db_id _
  | SetProviderMappings m db_id _ =>
      m = mt /\ db_id ∈ prev /\ db_id ∉ seen
  | SetFavorite m db_id favorite =>
      m = mt /\ db_id ∈ prev /\ (db_id ∉ seen) /\ favorite = false
  | LogWarning (inr db_id) _ => db_id ∈ prev /\ db_id ∉ seen
  | CacheGet key cat base_key | CacheSet key _ cat base_key =>
      key = MediaType_value mt /\ cat = category /\ base_key = instance_id self
  | _ => False
  end.

(** The folder of [browse] that lists a media type; podcast episodes
    have none. *)
Definition folder_of (mt : MediaType) : option string :=
  match mt with
  | ARTIST => Some "artists" | ALBUM => Some "albums" | TRACK => Some "tracks"
  | PLAYLIST => Some "playlists" | RADIO => Some "radios"
  | AUDIOBOOK => Some "audiobooks" | PODCAST => Some "podcasts"
  | PODCAST_EPISODE => None
  end.

(** The provider filter [browse] hands to the library: only artists
    are filtered by provider instance. *)
Definition browse_provider (self : MusicProvider) (mt : MediaType)
    : option string :=
  match mt with
  | ARTIST => Some (instance_id self)
  | _ => None
  end.

(** The media types the main listing of [browse] goes through, in
    order. *)
Definition browsable : list MediaType :=
  [ARTIST; ALBUM; TRACK; PLAYLIST; RADIO; AUDIOBOOK; PODCAST].

(** The observed item with the [in_library] flag of its first mapping
    set to [flag]. *)
Definition set_first_in_library (flag : bool) (provider_item : ProviderItem)
    : ProviderItem :=
  match MediaItem.provider_mappings provider_item with
  | [] => provider_item
  | m :: others =>
      MediaItem.set_provider_mappings
        (ProviderMapping.set_in_library flag m :: others) provider_item
  end.

(** A library whose snapshot lists track 5, which is gone. *)
Definition vanished_library : Library :=
  library_of [] [("track", 0, "plex--1", [5])] healthy.

(** Track 5 is claimed by this instance only, and can be removed. *)
Definition orphan_library : Library :=
  library_of [(TRACK, sole_track)] [("track", 0, "plex--1", [5])] healthy.

(** A provider whose playlist "mix" comes in two pages. *)
Definition paged : MusicProvider := {|
  domain := "paged";
  instance_id := "paged--1";
  is_streaming_provider := true;
  multi_instance := true;
  supported_features := {[ LIBRARY_PLAYLISTS; LIBRARY_TRACKS_EDIT ]};
  conf_sync_album_tracks := false;
  conf_sync_playlist_tracks := [];
  get_library_items := fun _ => no_items;
  get_album_tracks := fun _ => Ok [];
  get_playlist_tracks := fun _ page =>
    match page with
    | O => Ok [gone_track; fresh_item]
    | S O => Ok [artist "a1"]
    | _ => Ok []
    end
|}.

(** A provider whose second page cannot be fetched. *)
Definition flaky_pages : MusicProvider := {|
  domain := "paged";
  instance_id := "paged--2";
  is_streaming_provider := true;
  multi_instance := true;
  supported_features := ∅;
  conf_sync_album_tracks := false;
  conf_sync_playlist_tracks := [];
  get_library_items := fun _ => no_items;
  get_album_tracks := fun _ => Ok [];
  get_playlist_tracks := fun _ page =>
    match page with
    | O => Ok [gone_track; fresh_item]
    | _ => Raise (MusicAssistantError "timeout")
    end
|}.


(** The media controller a call addresses, if any. *)
Definition controller_of (c : Call) : option MediaType :=
  match c with
  | GetLibraryItemByProvMappings m _ | AddItemToLibrary m _
  | UpdateItemInLibrary m _ _ | SetFavorite m _ _ | SetProviderMappings m _ _
  | RemoveItemFromLibrary m _ _ | GetLibraryItem m _ => Some m
  | PodcastEpisodes _ _ => Some PODCAST
  | CacheGet _ _ _ | CacheSet _ _ _ _ | LogWarning _ _ => None
  end.

(** The configuration asks for the tracks of no item the catalog of
    [mt] yields: album tracks are switched off, and no playlist is
    listed by name or by uri. *)
Definition no_child_tracks (self : MusicProvider) (mt : MediaType) : Prop :=
  match mt with
  | ALBUM => conf_sync_album_tracks self = false
  | PLAYLIST =>
      forall x,
        x ∈ yielded (get_library_items self PLAYLIST) ->
        (MediaItem.name x ∉ conf_sync_playlist_tracks self)
        /\ (MediaItem.uri x ∉ conf_sync_playlist_tracks self)
  | _ => True
  end.

(** The image [parse_images] builds for a url. *)
Definition thumb (img_url : json) (lookup_key : string) : MediaItemImage :=
  {| image_is_thumb := true; image_path := img_url;
     image_provider := lookup_key; image_remotely_accessible := true |}.

(** [parse_images] passes over the image object: placeholders are
    excluded, the object has a url, and the placeholder's name is [in]
    the url. *)
Definition skipped (exclude_generic : bool) (img : gmap string json) : Prop :=
  exclude_generic = true
  /\ exists img_url,
       img !! "url" = Some img_url /\ py_in GENERIC_IMAGE img_url = Ok true.

(** An image object with a url. *)
Definition image_object (img_url : string) : gmap string json :=
  {[ "url" := JString img_url; "height" := JNumber 640 ]}.

Definition placeholder : gmap string json :=
  image_object "https://i.scdn.co/image/2a96cbd8b46e442fc41c2b86b821562f".

Definition portrait : gmap string json :=
  image_object "https://i.scdn.co/image/ab6761610000e5eb".

(** Modelled from the spec: [library_items] of a library controller
    of the Library Store, reduced to what [browse] asks of it: the
    entities of the media type whose id is among [ids]. *)
Definition mem_library_items (mt : MediaType) (provider : option string)
    (query : string) (ids : list Z) (lib : Library)
    : Library * result (list LibraryItem) :=
  (lib,
   Ok (snd <$> List.filter
                 (fun e => bool_decide (fst e = mt)
                           && bool_decide (MediaItem.item_id (snd e) ∈ ids))
                 (entities lib))).

(** A provider that keeps playlists only. *)
Definition playlists_only : MusicProvider := {|
  domain := "lists";
  instance_id := "lists--1";
  is_streaming_provider := true;
  multi_instance := true;
  supported_features := {[ LIBRARY_PLAYLISTS ]};
  conf_sync_album_tracks := false;
  conf_sync_playlist_tracks := [];
  get_library_items := fun mt =>
    if bool_decide (mt = PLAYLIST)
    then {| yielded := [fresh_item]; ending := Exhausted |}
    else no_items;
  get_album_tracks := fun _ => Ok [];
  get_playlist_tracks := fun _ _ => Ok []
|}.

(** A provider whose listing of artists breaks off after the first. *)
Definition outage : MusicProvider := {|
  domain := "plex";
  instance_id := "plex--1";
  is_streaming_provider := false;
  multi_instance := true;
  supported_features := {[ LIBRARY_ARTISTS ]};
  conf_sync_album_tracks := false;
  conf_sync_playlist_tracks := [];
  get_library_items := fun _ =>
    {| yielded := [artist "a0"];
       ending := Failed (MusicAssistantError "connection lost") |};
  get_album_tracks := fun _ => Ok [];
  get_playlist_tracks := fun _ _ => Ok []
|}.
(** *** Where a pass stands *)

Section Pass_vocabulary.
Context {World : Type} `{!Mass World}.
Variable self : MusicProvider.
Variable CACHE_CATEGORY_LIBRARY_ITEMS : Z.

(** What is left of a pass after one step of the deletion loop: the
    steps for the ids [after] it, then the snapshot. *)
Definition rest_of_pass (mt : MediaType) (seen : gset Z) (after : list Z)
    : M World unit :=
  for_each after (sync_deletion self mt seen);;
  cache_set (MediaType_value mt) (elements seen) CACHE_CATEGORY_LIBRARY_ITEMS
    (instance_id self).

(** The pass for [mt] started in state [s] gets to the step of the
    deletion loop for [db_id]: the media type is supported, the
    reconciler returned [seen], the previous snapshot is
    [before ++ db_id :: after], and the steps for [before] ended
    normally, in state [s1]; [so_far] are the calls made until then. *)
Definition reaches_step (fuel : nat) (mt : MediaType)
    (import_as_favorite : bool) (s : State World) (seen : gset Z)
    (before : list Z) (db_id : Z) (after : list Z) (so_far : list Call)
    (s1 : State World) : Prop :=
  library_supported self mt = true
  /\ exists sync t s0 w0 t0,
       reconciler self fuel mt import_as_favorite = Some sync
       /\ sync s = (t, (s0, Ok seen))
       /\ mass_cache_get (MediaType_value mt) CACHE_CATEGORY_LIBRARY_ITEMS
            (instance_id self) (world s0)
          = (w0, Ok (Some (before ++ db_id :: after)))
       /\ for_each before (sync_deletion self mt seen)
            (mkState w0 (cur_db_ids s0))
          = (t0, (s1, Ok tt))
       /\ so_far
          = t ++ CacheGet (MediaType_value mt) CACHE_CATEGORY_LIBRARY_ITEMS
                   (instance_id self) :: t0.
End Pass_vocabulary.


(** The snapshot lists a track that is gone (6), a track that another
    instance claims too (4), a track of this instance alone (5) and
    another one that is gone (8). *)
Definition mixed_library (fs : Call -> option exn) : Library :=
  library_of [(TRACK, shared_track); (TRACK, sole_track)]
    [("track", 0, "plex--1", [6; 4; 5; 8])] fs.

(** ** The derived lookup key *)

(** C9, as stated, fails: a provider that is neither streaming nor
    multi-instance gets its domain as lookup key, not its instance id,
    whatever "differentiated" is taken to mean. *)
Lemma lookup_key_single_instance_counterexample :
  lookup_key builtin = "builtin"
  /\ lookup_key_by_differentiation true builtin = "builtin--x7"
  /\ lookup_key_by_differentiation false builtin = "builtin--x7".
Proof. repeat split; reflexivity. Qed.

(** C9, amended: the lookup key is the domain when the provider is a
    streaming provider or is not multi-instance-capable, and the
    instance id otherwise. *)
Theorem lookup_key_spec (self : MusicProvider) :
  (is_streaming_provider self = true \/ multi_instance self = false ->
   lookup_key self = domain self)
  /\ (is_streaming_provider self = false /\ multi_instance self = true ->
      lookup_key self = instance_id self).
Proof.
  unfold lookup_key. split.
  - intros [-> | ->]; [reflexivity |].
    by destruct (is_streaming_provider self).
  - by intros [-> ->].
Qed.

Lemma lookup_key_spec_witness :
  lookup_key builtin = "builtin"
  /\ lookup_key (plex ARTIST []) = "plex--1".
Proof.
  split.
  - apply (proj1 (lookup_key_spec builtin)). right. reflexivity.
  - apply (proj2 (lookup_key_spec (plex ARTIST []))). split; reflexivity.
Defined.

(** ** The consistency checker *)

Lemma find_library_mapping_Some library_item provider_mapping x :
  find_library_mapping library_item provider_mapping = Some x ->
  x ∈ MediaItem.provider_mappings library_item
  /\ ProviderMapping.key x = ProviderMapping.key provider_mapping.
Proof.
  unfold find_library_mapping. intros Hfind.
  apply List.find_some in Hfind as [Hin Hkey].
  apply andb_true_iff in Hkey as [Hi Hid].
  apply bool_decide_eq_true in Hi, Hid.
  split; [by apply list_elem_of_In |].
  unfold ProviderMapping.key. by rewrite Hi, Hid.
Qed.

Lemma find_library_mapping_None library_item provider_mapping x :
  find_library_mapping library_item provider_mapping = None ->
  x ∈ MediaItem.provider_mappings library_item ->
  ProviderMapping.key x <> ProviderMapping.key provider_mapping.
Proof.
  unfold find_library_mapping. intros Hfind Hin Hkey.
  apply list_elem_of_In in Hin.
  pose proof (List.find_none _ _ Hfind x Hin) as Hno.
  unfold ProviderMapping.key in Hkey. injection Hkey as Hi Hid.
  simpl in Hno. rewrite !bool_decide_eq_true_2 in Hno by done. done.
Qed.

(** Within a mapping set without duplicate keys, the key determines the
    mapping. *)
Lemma unique_key (ms : list ProviderMapping.t) x y :
  NoDup (ProviderMapping.key <$> ms) ->
  x ∈ ms -> y ∈ ms -> ProviderMapping.key x = ProviderMapping.key y -> x = y.
Proof.
  induction ms as [| m ms IH]; intros Hnd Hx Hy Hkey.
  - by apply elem_of_nil in Hx.
  - rewrite fmap_cons in Hnd. apply NoDup_cons in Hnd as [Hm Hnd].
    apply elem_of_cons in Hx as [-> | Hx]; apply elem_of_cons in Hy as [-> | Hy].
    + done.
    + exfalso. apply Hm. rewrite Hkey. by apply list_elem_of_fmap_2.
    + exfalso. apply Hm. rewrite <- Hkey. by apply list_elem_of_fmap_2.
    + by apply IH.
Qed.

(** C5: the checker raises when the first observed mapping does not
    carry the item's own id or the syncing provider's instance id;
    otherwise it looks at that first mapping only and answers true
    exactly when the library item holds a mapping with the same
    (provider instance, item id) whose [in_library] is the requested
    value and whose [available] is the observed one; it answers false
    for an empty mapping set. The mapping set of the library item has
    no two mappings with the same key. *)
Theorem check_provider_mappings_spec (self : MusicProvider)
    (library_item : LibraryItem) (provider_item : ProviderItem)
    (in_library : bool) :
  NoDup (ProviderMapping.key <$> MediaItem.provider_mappings library_item) ->
  match MediaItem.provider_mappings provider_item with
  | [] =>
      _check_provider_mappings self library_item provider_item in_library
      = Ok (false, provider_item)
  | m :: others =>
      if bool_decide (ProviderMapping.item_id m <> MediaItem.item_id provider_item
                      \/ ProviderMapping.provider_instance m <> instance_id self)
      then
        exists msg,
          _check_provider_mappings self library_item provider_item in_library
          = Raise (MusicAssistantError msg)
      else
        exists verdict,
          _check_provider_mappings self library_item provider_item in_library
          = Ok (verdict,
                MediaItem.set_provider_mappings
                  (ProviderMapping.set_in_library in_library m :: others)
                  provider_item)
          /\ (verdict = true <->
              exists x,
                x ∈ MediaItem.provider_mappings library_item
                /\ ProviderMapping.provider_instance x
                   = ProviderMapping.provider_instance m
                /\ ProviderMapping.item_id x = ProviderMapping.item_id m
                /\ ProviderMapping.in_library x = in_library
                /\ ProviderMapping.available x = ProviderMapping.available m)
  end.
Proof.
  intros Hnd. unfold _check_provider_mappings.
  destruct (MediaItem.provider_mappings provider_item) as [| m others]; [done |].
  case_bool_decide as Hbad.
  - destruct (decide (ProviderMapping.item_id m = MediaItem.item_id provider_item))
      as [Hid | Hid].
    + rewrite (bool_decide_eq_true_2 _ Hid). simpl.
      destruct Hbad as [Hbad | Hbad]; [done |].
      rewrite (bool_decide_eq_false_2 _ Hbad). simpl. eauto.
    + rewrite (bool_decide_eq_false_2 _ Hid). simpl. eauto.
  - assert (Hid : ProviderMapping.item_id m = MediaItem.item_id provider_item).
    { apply dec_stable. intros Hne. apply Hbad. by left. }
    assert (Hinst : ProviderMapping.provider_instance m = instance_id self).
    { apply dec_stable. intros Hne. apply Hbad. by right. }
    rewrite (bool_decide_eq_true_2 _ Hid), (bool_decide_eq_true_2 _ Hinst).
    simpl.
    set (m' := ProviderMapping.set_in_library in_library m).
    assert (Hkey' : ProviderMapping.key m' = ProviderMapping.key m) by done.
    destruct (find_library_mapping library_item m') as [x |] eqn:Hfind.
    + apply find_library_mapping_Some in Hfind as [Hin Hkey].
      rewrite Hkey' in Hkey.
      assert (Hx : forall y, y ∈ MediaItem.provider_mappings library_item ->
                 ProviderMapping.provider_instance y
                 = ProviderMapping.provider_instance m ->
                 ProviderMapping.item_id y = ProviderMapping.item_id m -> y = x).
      { intros y Hy Hi Hd. apply (unique_key _ _ _ Hnd Hy Hin).
        rewrite Hkey. unfold ProviderMapping.key. by rewrite Hi, Hd. }
      unfold ProviderMapping.key in Hkey. simplify_eq.
      case_bool_decide as Hlib; simpl.
      * eexists. split; [reflexivity |]. rewrite bool_decide_eq_true. split.
        -- intros Hav. exists x. simpl in Hlib. repeat split; try done.
        -- intros (y & Hy & Hi & Hd & _ & Hav). by rewrite (Hx y Hy Hi Hd) in Hav.
      * eexists. split; [reflexivity |]. split; [done |].
        intros (y & Hy & Hi & Hd & Hl & _). rewrite (Hx y Hy Hi Hd) in Hl.
        simpl in Hlib. congruence.
    + eexists. split; [reflexivity |]. split; [done |].
      intros (y & Hy & Hi & Hd & _).
      exfalso. apply (find_library_mapping_None _ _ y Hfind Hy).
      rewrite Hkey'. unfold ProviderMapping.key. by rewrite Hi, Hd.
Qed.

Lemma check_provider_mappings_spec_witness :
  let library := library_item 7 false true [mapping "a1" "plex--1" true true] in
  let observed := provider_item "a1" true [mapping "a1" "plex--1" true false] in
  NoDup (ProviderMapping.key <$> MediaItem.provider_mappings library)
  /\ exists verdict,
       _check_provider_mappings (plex ARTIST []) library observed true
       = Ok (verdict,
             provider_item "a1" true [mapping "a1" "plex--1" true true])
       /\ (verdict = true <->
           exists x,
             x ∈ MediaItem.provider_mappings library
             /\ ProviderMapping.provider_instance x = "plex--1"
             /\ ProviderMapping.item_id x = "a1"
             /\ ProviderMapping.in_library x = true
             /\ ProviderMapping.available x = true).
Proof.
  intros library observed.
  assert (Hnd : NoDup (ProviderMapping.key <$> MediaItem.provider_mappings library)).
  { apply (bool_decide_unpack _). vm_compute. reflexivity. }
  split; [exact Hnd |].
  exact (check_provider_mappings_spec (plex ARTIST []) library observed true Hnd).
Defined.

Section Loop_facts.
Context {World : Type}.

Lemma for_each_app {A} (xs ys : list A) (body : A -> M World unit) s :
  for_each (xs ++ ys) body s
  = bind (for_each xs body) (fun _ => for_each ys body) s.
Proof.
  revert s. induction xs as [| x xs IH]; intros s; simpl.
  - unfold bind, ret. simpl. by destruct (for_each ys body s) as [t [s' r]].
  - unfold bind. destruct (body x s) as [t1 [s1 [[] | e |]]]; try done.
    rewrite IH. unfold bind.
    destruct (for_each xs body s1) as [t2 [s2 [[] | e |]]]; try done.
    destruct (for_each ys body s2) as [t3 r]. by rewrite app_assoc.
Qed.

(** A property of calls that every iteration keeps holds of the whole
    loop. *)
Lemma for_each_Forall {A} (P : Call -> Prop) (xs : list A)
    (body : A -> M World unit) :
  (forall x s, x ∈ xs -> Forall P (trace_of (body x) s)) ->
  forall s, Forall P (trace_of (for_each xs body) s).
Proof.
  unfold trace_of. induction xs as [| x xs IH]; intros Hbody s; simpl.
  - constructor.
  - unfold bind. specialize (Hbody x s) as Hx.
    destruct (body x s) as [t1 [s1 [[] | e |]]]; simpl in *;
      try (apply Hx; by left).
    specialize (IH (fun y s' Hy => Hbody y s' (list_elem_of_further _ _ _ Hy)) s1).
    destruct (for_each xs body s1) as [t2 r]. simpl in *.
    apply Forall_app. split; [apply Hx; by left | done].
Qed.
End Loop_facts.

(** ** The capability check *)

Section Capability.
Context {World : Type} `{!Mass World}.
Variable self : MusicProvider.
Variable CACHE_CATEGORY_LIBRARY_ITEMS : Z.

(** A supported media type has a reconciler, and the pass is that
    reconciler followed by the processing of deletions. *)
Lemma supported_runs_reconciler (fuel : nat) (media_type : MediaType)
    (import_as_favorite : bool) :
  library_supported self media_type = true ->
  exists sync,
    reconciler self fuel media_type import_as_favorite = Some sync
    /\ sync_library self CACHE_CATEGORY_LIBRARY_ITEMS fuel media_type
         import_as_favorite
       = (cur_db_ids ← sync;
          process_deletions self CACHE_CATEGORY_LIBRARY_ITEMS
            media_type cur_db_ids).
Proof.
  unfold sync_library. intros Hsup. rewrite Hsup. simpl.
  destruct media_type; try discriminate Hsup; eexists; split; reflexivity.
Qed.

(** C6: for a media type without declared library support the pass
    raises [UnsupportedFeaturedException] at once: no call is made
    and the state is untouched. For a supported media type the check
    lets the pass through to the reconciler of that type, followed by
    the processing of deletions. *)
Theorem sync_library_capability_check (fuel : nat) (media_type : MediaType)
    (import_as_favorite : bool) :
  (library_supported self media_type = false ->
   forall s : State World,
     sync_library self CACHE_CATEGORY_LIBRARY_ITEMS fuel media_type
       import_as_favorite s
     = ([], (s, Raise (UnsupportedFeaturedException
                         "Library sync not supported for this media type"))))
  /\ (library_supported self media_type = true ->
      exists sync,
        reconciler self fuel media_type import_as_favorite = Some sync
        /\ sync_library self CACHE_CATEGORY_LIBRARY_ITEMS fuel media_type
             import_as_favorite
           = (cur_db_ids ← sync;
              process_deletions self CACHE_CATEGORY_LIBRARY_ITEMS
                media_type cur_db_ids)).
Proof.
  split.
  - intros Hsup s. unfold sync_library. rewrite Hsup. reflexivity.
  - apply supported_runs_reconciler.
Qed.
End Capability.

Lemma sync_library_capability_check_witness :
  let self := plex ARTIST [provider_item "a1" true [mapping "a1" "plex--1" true true]] in
  let lib := library_of [] [] healthy in
  (library_supported self ALBUM = false
   /\ observe (sync_library self 0 1%nat ALBUM true) lib
      = ([], Raise (UnsupportedFeaturedException
                      "Library sync not supported for this media type")))
  /\ (library_supported self ARTIST = true
      /\ exists sync,
           reconciler self 1%nat ARTIST true = Some sync
           /\ sync_library self 0 1%nat ARTIST true
              = (cur_db_ids ← sync; process_deletions self 0 ARTIST cur_db_ids)).
Proof.
  intros self lib. split.
  - assert (Hno : library_supported self ALBUM = false) by (vm_compute; reflexivity).
    split; [exact Hno |]. unfold observe.
    by rewrite (proj1 (sync_library_capability_check (World:=Library) self 0 1%nat ALBUM true) Hno).
  - assert (Hyes : library_supported self ARTIST = true) by (vm_compute; reflexivity).
    split; [exact Hyes |].
    exact (proj2 (sync_library_capability_check (World:=Library) self 0 1%nat ARTIST true) Hyes).
Defined.

(** ** Orphan collection *)

Section Orphans.
Context {World : Type} `{!Mass World}.
Variable self : MusicProvider.
Variable CACHE_CATEGORY_LIBRARY_ITEMS : Z.

Lemma unset_in_library_demotes (library_item : LibraryItem) :
  Forall2 (demotes self)
    (MediaItem.provider_mappings library_item)
    (MediaItem.provider_mappings (unset_in_library self library_item)).
Proof.
  unfold unset_in_library. simpl.
  induction (MediaItem.provider_mappings library_item) as [| m ms IH]; simpl.
  - constructor.
  - constructor; [| exact IH].
    unfold demotes. case_bool_decide; split; intros; done.
Qed.

Lemma remaining_providers_nonempty (library_item : LibraryItem) :
  remaining_providers self library_item <> ∅
  <-> exists x,
        x ∈ MediaItem.provider_mappings library_item
        /\ ProviderMapping.provider_instance x <> instance_id self
        /\ ProviderMapping.in_library x = true.
Proof.
  unfold remaining_providers. split.
  - intros Hne.
    destruct (List.filter _ (MediaItem.provider_mappings library_item))
      as [| x rest] eqn:Hfilter; [done |].
    assert (Hin : In x (x :: rest)) by (by left).
    rewrite <- Hfilter in Hin. apply List.filter_In in Hin as [Hin Hx].
    apply andb_true_iff in Hx as [Hother Hlib].
    apply negb_true_iff, bool_decide_eq_false in Hother.
    exists x. by rewrite list_elem_of_In.
  - intros (x & Hin & Hother & Hlib) Hempty.
    assert (Hx : ProviderMapping.provider_instance x
                 ∈ (∅ : gset string)); [| set_solver].
    rewrite <- Hempty. apply elem_of_list_to_set, list_elem_of_In.
    apply List.in_map, List.filter_In. split; [by apply list_elem_of_In |].
    by rewrite Hlib, bool_decide_eq_false_2.
Qed.

(** One step of the deletion loop for an entity that another provider
    instance still claims: the entity is fetched and its mappings are
    persisted with those of this instance demoted; no other call is
    made. *)
Lemma demotion_step (media_type : MediaType)
    (seen : gset Z) (db_id : Z) (s : State World) (w1 w2 : World)
    (library_item : LibraryItem) (r : result unit) :
  let demoted :=
    MediaItem.provider_mappings (unset_in_library self library_item) in
  db_id ∉ seen ->
  mass_get_library_item media_type db_id (world s) = (w1, Ok library_item) ->
  (exists x,
     x ∈ MediaItem.provider_mappings library_item
     /\ ProviderMapping.provider_instance x <> instance_id self
     /\ ProviderMapping.in_library x = true) ->
  mass_set_provider_mappings media_type db_id demoted w1 = (w2, r) ->
  sync_deletion self media_type seen db_id s
  = ([GetLibraryItem media_type db_id;
      SetProviderMappings media_type db_id demoted],
     (mkState w2 (cur_db_ids s), r))
  /\ Forall2 (demotes self) (MediaItem.provider_mappings library_item) demoted.
Proof.
  intros demoted Hunseen Hget Hclaimed Hset.
  split; [| apply unset_in_library_demotes].
  subst demoted. unfold unset_in_library in Hset |- *. simpl in Hset.
  apply remaining_providers_nonempty in Hclaimed.
  unfold sync_deletion. rewrite (bool_decide_eq_true_2 _ Hunseen).
  unfold get_library_item, set_provider_mappings. unfold_monad.
  rewrite Hget. simpl. rewrite (bool_decide_eq_true_2 _ Hclaimed).
  simpl. rewrite Hset. reflexivity.
Qed.

(** One step of the deletion loop for an entity no other provider
    instance claims, whose removal fails with a
    [MusicAssistantError]: the failure is logged and absorbed, and the
    step ends normally after the fallback. *)
Lemma failed_removal_step (media_type : MediaType)
    (seen : gset Z) (db_id : Z) (s : State World) (w1 w2 w3 w4 : World)
    (library_item : LibraryItem) (err : exn) :
  let demoted :=
    MediaItem.provider_mappings (unset_in_library self library_item) in
  let recursive := bool_decide (media_type = ALBUM) in
  db_id ∉ seen ->
  mass_get_library_item media_type db_id (world s) = (w1, Ok library_item) ->
  (forall x,
     x ∈ MediaItem.provider_mappings library_item ->
     ProviderMapping.provider_instance x = instance_id self
     \/ ProviderMapping.in_library x = false) ->
  mass_remove_item_from_library media_type db_id recursive w1
  = (w2, Raise err) ->
  is_MusicAssistantError err = true ->
  (if MediaItem.favorite library_item
   then mass_set_favorite media_type db_id false w2 = (w3, Ok tt)
   else w3 = w2) ->
  mass_set_provider_mappings media_type db_id demoted w3 = (w4, Ok tt) ->
  sync_deletion self media_type seen db_id s
  = ([GetLibraryItem media_type db_id;
      RemoveItemFromLibrary media_type db_id recursive;
      LogWarning (inr db_id) err]
     ++ (if MediaItem.favorite library_item
         then [SetFavorite media_type db_id false] else [])
     ++ [SetProviderMappings media_type db_id demoted],
     (mkState w4 (cur_db_ids s), Ok tt))
  /\ (recursive = true <-> media_type = ALBUM)
  /\ Forall2 (demotes self) (MediaItem.provider_mappings library_item) demoted.
Proof.
  intros demoted recursive Hunseen Hget Hsole Hremove Hma Hfav Hset.
  split; [| split; [apply bool_decide_eq_true | apply unset_in_library_demotes]].
  assert (Hnone : ~ remaining_providers self library_item <> ∅).
  { rewrite remaining_providers_nonempty. intros (x & Hin & Hother & Hlib).
    destruct (Hsole x Hin); congruence. }
  subst demoted recursive. unfold unset_in_library in Hset |- *. simpl in Hset.
  unfold sync_deletion. rewrite (bool_decide_eq_true_2 _ Hunseen).
  unfold get_library_item, set_provider_mappings, remove_item_from_library,
    set_favorite.
  unfold_monad. rewrite Hget. simpl. rewrite (bool_decide_eq_false_2 _ Hnone).
  simpl. rewrite Hremove, Hma. simpl.
  destruct (MediaItem.favorite library_item); simpl.
  - rewrite Hfav. simpl. rewrite Hset. reflexivity.
  - subst w3. rewrite Hset. reflexivity.
Qed.

(** A pass that gets to a step of the deletion loop is what it did so
    far, then that step, then, if the step ended normally, the rest
    of the pass. *)
Lemma sync_library_at_step (fuel : nat) (mt : MediaType)
    (import_as_favorite : bool) (s : State World) (seen : gset Z)
    (before : list Z) (db_id : Z) (after : list Z) (so_far : list Call)
    (s1 : State World) :
  reaches_step self CACHE_CATEGORY_LIBRARY_ITEMS fuel mt import_as_favorite s
    seen before db_id after so_far s1 ->
  sync_library self CACHE_CATEGORY_LIBRARY_ITEMS fuel mt import_as_favorite s
  = (let '(t, out) :=
       bind (sync_deletion self mt seen db_id)
         (fun _ => rest_of_pass self CACHE_CATEGORY_LIBRARY_ITEMS mt seen after)
         s1 in
     (so_far ++ t, out)).
Proof.
  intros (Hsupported & sync & t & s0 & w0 & t0 & Hsync & Hrun & Hcache
          & Hbefore & ->).
  destruct (supported_runs_reconciler self CACHE_CATEGORY_LIBRARY_ITEMS fuel mt
              import_as_favorite Hsupported) as (sync' & Hsync' & ->).
  rewrite Hsync in Hsync'. injection Hsync' as <-.
  unfold mbind, M_bind. unfold bind at 1. rewrite Hrun.
  unfold process_deletions, rest_of_pass, cache_get, perform.
  unfold mbind, M_bind. unfold bind at 1. rewrite Hcache. simpl.
  assert (Hloop :
            match before ++ db_id :: after with
            | db_id0 :: rest =>
                bind (sync_deletion self mt seen db_id0)
                  (fun _ => for_each rest (sync_deletion self mt seen))
            | [] => mret tt
            end
            = for_each (before ++ db_id :: after) (sync_deletion self mt seen)).
  { by destruct (before ++ db_id :: after). }
  rewrite Hloop. clear Hloop.
  unfold bind at 1. rewrite for_each_app. unfold bind at 1.
  rewrite Hbefore. simpl.
  unfold bind.
  destruct (sync_deletion self mt seen db_id s1) as [t1 [s2 [[] | e |]]];
    simpl; rewrite <- ?app_assoc; simpl; try done.
  destruct (for_each after (sync_deletion self mt seen) s2)
    as [t2 [s3 [[] | e |]]]; simpl; rewrite <- ?app_assoc; simpl; try done.
  destruct (cache_set _ _ _ _ s3) as [t3 out]. simpl.
  by rewrite <- !app_assoc.
Qed.

(** A loop that ends normally got through every prefix of its items. *)
Lemma for_each_reaches {A} (before : list A) (x : A) (after : list A)
    (body : A -> M World unit) (s s' : State World) (t : list Call) :
  for_each (before ++ x :: after) body s = (t, (s', Ok tt)) ->
  exists t0 s1, for_each before body s = (t0, (s1, Ok tt)).
Proof.
  rewrite for_each_app. unfold bind.
  destruct (for_each before body s) as [t0 [s1 [[] | e |]]]; [eauto | done..].
Qed.

(** A pass that ends normally gets to the step of every id of the
    previous snapshot. *)
Lemma completed_pass_reaches (fuel : nat) (mt : MediaType)
    (import_as_favorite : bool) (s s' : State World) (t : list Call) :
  sync_library self CACHE_CATEGORY_LIBRARY_ITEMS fuel mt import_as_favorite s
  = (t, (s', Ok tt)) ->
  exists sync t1 s0 seen w0 prev,
    reconciler self fuel mt import_as_favorite = Some sync
    /\ sync s = (t1, (s0, Ok seen))
    /\ mass_cache_get (MediaType_value mt) CACHE_CATEGORY_LIBRARY_ITEMS
         (instance_id self) (world s0)
       = (w0, Ok prev)
    /\ forall before db_id after,
         prev = Some (before ++ db_id :: after) ->
         exists so_far s1,
           reaches_step self CACHE_CATEGORY_LIBRARY_ITEMS fuel mt
             import_as_favorite s seen before db_id after so_far s1.
Proof.
  intros Hpass.
  destruct (library_supported self mt) eqn:Hsupported;
    [| unfold sync_library in Hpass; by rewrite Hsupported in Hpass].
  destruct (supported_runs_reconciler self CACHE_CATEGORY_LIBRARY_ITEMS fuel mt
              import_as_favorite Hsupported) as (sync & Hsync & Hrun).
  rewrite Hrun in Hpass. clear Hrun.
  unfold mbind, M_bind in Hpass. unfold bind at 1 in Hpass.
  destruct (sync s) as [t1 [s0 [seen | e |]]] eqn:Hseen; simpl in Hpass;
    [| done | done].
  unfold process_deletions, cache_get, perform in Hpass.
  unfold mbind, M_bind in Hpass. unfold bind at 1 in Hpass.
  destruct (mass_cache_get (MediaType_value mt) CACHE_CATEGORY_LIBRARY_ITEMS
              (instance_id self) (world s0)) as [w0 [prev | e |]] eqn:Hcache;
    simpl in Hpass; [| done | done].
  exists sync, t1, s0, seen, w0, prev.
  split; [done |]. split; [done |]. split; [done |].
  intros before db_id after ->.
  assert (Hloop :
            match before ++ db_id :: after with
            | db_id0 :: rest =>
                bind (sync_deletion self mt seen db_id0)
                  (fun _ => for_each rest (sync_deletion self mt seen))
            | [] => mret tt
            end
            = for_each (before ++ db_id :: after) (sync_deletion self mt seen)).
  { by destruct (before ++ db_id :: after). }
  rewrite Hloop in Hpass. clear Hloop.
  unfold bind at 1 in Hpass.
  destruct (for_each (before ++ db_id :: after) (sync_deletion self mt seen)
              (mkState w0 (cur_db_ids s0)))
    as [t2 [s2 [[] | e |]]] eqn:Hsteps; simpl in Hpass; [| done | done].
  apply for_each_reaches in Hsteps as (t0 & s1 & Hbefore).
  exists (t1 ++ CacheGet (MediaType_value mt) CACHE_CATEGORY_LIBRARY_ITEMS
                  (instance_id self) :: t0), s1.
  split; [done |]. by exists sync, t1, s0, w0, t0.
Qed.

(** C1: in a pass for a media type, every id of the previous snapshot
    that the pass did not see, and whose entity still has a mapping of
    another provider instance marked in-library, is not removed: when
    the deletion loop gets to it, the entity is fetched and its
    mappings are persisted with those of this instance demoted, and
    nothing else is called for it. If persisting succeeds the pass
    goes on with the ids after it and the snapshot; otherwise the pass
    ends there with that outcome. The id may stand anywhere in the
    snapshot. *)
Theorem still_claimed_entity_demoted (fuel : nat) (mt : MediaType)
    (import_as_favorite : bool) (s : State World) (seen : gset Z)
    (before : list Z) (db_id : Z) (after : list Z) (so_far : list Call)
    (s1 : State World) (w1 w2 : World) (library_item : LibraryItem)
    (r : result unit) :
  let demoted :=
    MediaItem.provider_mappings (unset_in_library self library_item) in
  let step :=
    [GetLibraryItem mt db_id; SetProviderMappings mt db_id demoted] in
  let s2 := mkState w2 (cur_db_ids s1) in
  reaches_step self CACHE_CATEGORY_LIBRARY_ITEMS fuel mt import_as_favorite s
    seen before db_id after so_far s1 ->
  db_id ∉ seen ->
  mass_get_library_item mt db_id (world s1) = (w1, Ok library_item) ->
  (exists x,
     x ∈ MediaItem.provider_mappings library_item
     /\ ProviderMapping.provider_instance x <> instance_id self
     /\ ProviderMapping.in_library x = true) ->
  mass_set_provider_mappings mt db_id demoted w1 = (w2, r) ->
  sync_library self CACHE_CATEGORY_LIBRARY_ITEMS fuel mt import_as_favorite s
  = match r with
    | Ok tt =>
        let rest :=
          rest_of_pass self CACHE_CATEGORY_LIBRARY_ITEMS mt seen after s2 in
        (so_far ++ step ++ fst rest, snd rest)
    | _ => (so_far ++ step, (s2, r))
    end
  /\ Forall2 (demotes self) (MediaItem.provider_mappings library_item) demoted.
Proof.
  intros demoted step s2 Hreaches Hunseen Hget Hclaimed Hset.
  split; [| apply unset_in_library_demotes].
  rewrite (sync_library_at_step _ _ _ _ _ _ _ _ _ _ Hreaches).
  unfold bind at 1.
  rewrite (proj1 (demotion_step mt seen db_id s1 w1 w2 library_item r
                    Hunseen Hget Hclaimed Hset)).
  fold demoted. fold s2.
  destruct r as [[] | e |]; simpl; [| done | done].
  by destruct (rest_of_pass _ _ _ _ _ s2) as [t2 out].
Qed.

(** C7: in a pass for a media type, when the deletion loop gets to an
    id the pass did not see whose entity no other provider instance
    claims, and the removal fails with a [MusicAssistantError], the
    pass does not abort: the failure is logged, the entity is
    un-favorited if it was a favorite, this instance's mappings are
    demoted and persisted, and the pass goes on with the ids after it
    and the snapshot. Removal is asked to recurse exactly for
    albums. *)
Theorem failed_removal_falls_back (fuel : nat) (mt : MediaType)
    (import_as_favorite : bool) (s : State World) (seen : gset Z)
    (before : list Z) (db_id : Z) (after : list Z) (so_far : list Call)
    (s1 : State World) (w1 w2 w3 w4 : World) (library_item : LibraryItem)
    (err : exn) :
  let demoted :=
    MediaItem.provider_mappings (unset_in_library self library_item) in
  let recursive := bool_decide (mt = ALBUM) in
  let step :=
    [GetLibraryItem mt db_id;
     RemoveItemFromLibrary mt db_id recursive;
     LogWarning (inr db_id) err]
    ++ (if MediaItem.favorite library_item
        then [SetFavorite mt db_id false] else [])
    ++ [SetProviderMappings mt db_id demoted] in
  let rest :=
    rest_of_pass self CACHE_CATEGORY_LIBRARY_ITEMS mt seen after
      (mkState w4 (cur_db_ids s1)) in
  reaches_step self CACHE_CATEGORY_LIBRARY_ITEMS fuel mt import_as_favorite s
    seen before db_id after so_far s1 ->
  db_id ∉ seen ->
  mass_get_library_item mt db_id (world s1) = (w1, Ok library_item) ->
  (forall x,
     x ∈ MediaItem.provider_mappings library_item ->
     ProviderMapping.provider_instance x = instance_id self
     \/ ProviderMapping.in_library x = false) ->
  mass_remove_item_from_library mt db_id recursive w1 = (w2, Raise err) ->
  is_MusicAssistantError err = true ->
  (if MediaItem.favorite library_item
   then mass_set_favorite mt db_id false w2 = (w3, Ok tt)
   else w3 = w2) ->
  mass_set_provider_mappings mt db_id demoted w3 = (w4, Ok tt) ->
  sync_library self CACHE_CATEGORY_LIBRARY_ITEMS fuel mt import_as_favorite s
  = (so_far ++ step ++ fst rest, snd rest)
  /\ (recursive = true <-> mt = ALBUM)
  /\ Forall2 (demotes self) (MediaItem.provider_mappings library_item) demoted.
Proof.
  intros demoted recursive step rest Hreaches Hunseen Hget Hsole Hremove Hma
    Hfav Hset.
  split; [| split; [apply bool_decide_eq_true | apply unset_in_library_demotes]].
  rewrite (sync_library_at_step _ _ _ _ _ _ _ _ _ _ Hreaches).
  unfold bind at 1.
  rewrite (proj1 (failed_removal_step mt seen db_id s1 w1 w2 w3 w4 library_item
                    err Hunseen Hget Hsole Hremove Hma Hfav Hset)).
  fold demoted. fold recursive. fold step. fold rest.
  by destruct rest as [t2 out].
Qed.

(** C8: whatever mappings one step of the collector persists, they
    are the fetched entity's own mappings with only this instance's
    [in_library] flags cleared: a mapping of another provider
    instance is persisted unchanged in all its fields. This covers
    both the still-claimed branch and the fallback after a failed
    removal. *)
Theorem sync_deletion_frame (media_type : MediaType) (seen : gset Z)
    (db_id : Z) (s : State World) (mt : MediaType) (id : Z)
    (persisted : list ProviderMapping.t) :
  SetProviderMappings mt id persisted
    ∈ trace_of (sync_deletion self media_type seen db_id) s ->
  exists w1 library_item,
    mass_get_library_item media_type db_id (world s) = (w1, Ok library_item)
    /\ mt = media_type /\ id = db_id
    /\ Forall2 (demotes self)
         (MediaItem.provider_mappings library_item) persisted.
Proof.
  unfold trace_of, sync_deletion.
  case_bool_decide; [| simpl; by intros ?%elem_of_nil].
  unfold get_library_item, set_provider_mappings, remove_item_from_library,
    set_favorite.
  unfold_monad. simpl.
  destruct (mass_get_library_item media_type db_id (world s))
    as [w1 [library_item | e |]] eqn:Hget; simpl.
  - pose proof (unset_in_library_demotes library_item) as Hdem.
    unfold unset_in_library in Hdem. simpl in Hdem.
    case_bool_decide; simpl.
    + destruct (mass_set_provider_mappings _ _ _ w1) as [w2 r]. simpl.
      intros Hin. in_trace Hin. eauto 10.
    + destruct (mass_remove_item_from_library _ _ _ w1) as [w2 [[] | e |]];
        simpl; try (intros Hin; by in_trace Hin).
      destruct (is_MusicAssistantError e); simpl;
        try (intros Hin; by in_trace Hin).
      destruct (MediaItem.favorite library_item); simpl.
      * destruct (mass_set_favorite _ _ _ w2) as [w3 [[] | e' |]]; simpl;
          try (intros Hin; by in_trace Hin).
        destruct (mass_set_provider_mappings _ _ _ w3) as [w4 r]. simpl.
        intros Hin. in_trace Hin. eauto 10.
      * destruct (mass_set_provider_mappings _ _ _ w2) as [w4 r]. simpl.
        intros Hin. in_trace Hin. eauto 10.
  - destruct (is_MediaNotFoundError e); simpl; intros Hin; by in_trace Hin.
  - intros Hin. by in_trace Hin.
Qed.
End Orphans.

Lemma still_claimed_entity_demoted_witness :
  observe (sync_library (plex TRACK []) 0 0 TRACK false) (mixed_library healthy)
  = ([CacheGet "track" 0 "plex--1";
      GetLibraryItem TRACK 6;
      GetLibraryItem TRACK 4;
      SetProviderMappings TRACK 4
        [mapping "d" "plex--1" true false; mapping "d" "plex--2" true true];
      GetLibraryItem TRACK 5;
      RemoveItemFromLibrary TRACK 5 false;
      GetLibraryItem TRACK 8;
      CacheSet "track" [] 0 "plex--1"],
     Ok tt).
Proof.
  set (self := plex TRACK []).
  set (lib := mixed_library healthy).
  set (demoted := [mapping "d" "plex--1" true false;
                   mapping "d" "plex--2" true true]).
  set (w2 := fst (mem_set_provider_mappings TRACK 4 demoted lib)).
  assert (Hreaches : reaches_step self 0 0 TRACK false (mkState lib ∅) ∅
                       [6] 4 [5; 8]
                       [CacheGet "track" 0 "plex--1"; GetLibraryItem TRACK 6]
                       (mkState lib ∅)).
  { split; [vm_compute; reflexivity |].
    exists (_sync_library_tracks self false), [], (mkState lib ∅), lib,
      [GetLibraryItem TRACK 6].
    repeat split; vm_compute; reflexivity. }
  assert (Hget : mass_get_library_item TRACK 4 (world (mkState lib ∅))
                 = (lib, Ok shared_track))
    by (vm_compute; reflexivity).
  assert (Hclaimed : exists x,
             x ∈ MediaItem.provider_mappings shared_track
             /\ ProviderMapping.provider_instance x <> instance_id self
             /\ ProviderMapping.in_library x = true).
  { exists (mapping "d" "plex--2" true true). split; [| split].
    - apply list_elem_of_further, list_elem_of_here.
    - discriminate.
    - reflexivity. }
  assert (Hset : mass_set_provider_mappings TRACK 4
                   (MediaItem.provider_mappings
                      (unset_in_library self shared_track)) lib
                 = (w2, Ok tt))
    by (vm_compute; reflexivity).
  unfold observe.
  rewrite (proj1 (still_claimed_entity_demoted self 0 0 TRACK false
                    (mkState lib ∅) ∅ [6] 4 [5; 8] _ (mkState lib ∅) lib w2
                    shared_track (Ok tt)
                    Hreaches (not_elem_of_empty 4) Hget Hclaimed Hset)).
  vm_compute. reflexivity.
Defined.

Lemma failed_removal_falls_back_witness :
  observe (sync_library (plex TRACK []) 0 0 TRACK false)
    (mixed_library has_dependents)
  = ([CacheGet "track" 0 "plex--1";
      GetLibraryItem TRACK 6;
      GetLibraryItem TRACK 4;
      SetProviderMappings TRACK 4
        [mapping "d" "plex--1" true false; mapping "d" "plex--2" true true];
      GetLibraryItem TRACK 5;
      RemoveItemFromLibrary TRACK 5 false;
      LogWarning (inr 5) (MusicAssistantError "item has dependents");
      SetFavorite TRACK 5 false;
      SetProviderMappings TRACK 5 [mapping "e" "plex--1" true false];
      GetLibraryItem TRACK 8;
      CacheSet "track" [] 0 "plex--1"],
     Ok tt).
Proof.
  set (self := plex TRACK []).
  set (lib := mixed_library has_dependents).
  set (err := MusicAssistantError "item has dependents").
  set (w1 := fst (mem_set_provider_mappings TRACK 4
                    [mapping "d" "plex--1" true false;
                     mapping "d" "plex--2" true true] lib)).
  set (w3 := fst (mem_set_favorite TRACK 5 false w1)).
  set (w4 := fst (mem_set_provider_mappings TRACK 5
                    [mapping "e" "plex--1" true false] w3)).
  assert (Hreaches : reaches_step self 0 0 TRACK false (mkState lib ∅) ∅
                       [6; 4] 5 [8]
                       [CacheGet "track" 0 "plex--1"; GetLibraryItem TRACK 6;
                        GetLibraryItem TRACK 4;
                        SetProviderMappings TRACK 4
                          [mapping "d" "plex--1" true false;
                           mapping "d" "plex--2" true true]]
                       (mkState w1 ∅)).
  { split; [vm_compute; reflexivity |].
    exists (_sync_library_tracks self false), [], (mkState lib ∅), lib,
      [GetLibraryItem TRACK 6; GetLibraryItem TRACK 4;
       SetProviderMappings TRACK 4
         [mapping "d" "plex--1" true false; mapping "d" "plex--2" true true]].
    repeat split; vm_compute; reflexivity. }
  assert (Hget : mass_get_library_item TRACK 5 (world (mkState w1 ∅))
                 = (w1, Ok sole_track))
    by (vm_compute; reflexivity).
  assert (Hsole : forall x,
             x ∈ MediaItem.provider_mappings sole_track ->
             ProviderMapping.provider_instance x = instance_id self
             \/ ProviderMapping.in_library x = false).
  { intros x Hx. left. simpl in Hx. in_trace Hx. reflexivity. }
  assert (Hremove : mass_remove_item_from_library TRACK 5
                      (bool_decide (TRACK = ALBUM)) w1
                    = (w1, Raise err))
    by (vm_compute; reflexivity).
  assert (Hfav : if MediaItem.favorite sole_track
                 then mass_set_favorite TRACK 5 false w1 = (w3, Ok tt)
                 else w3 = w1)
    by (vm_compute; reflexivity).
  assert (Hset : mass_set_provider_mappings TRACK 5
                   (MediaItem.provider_mappings
                      (unset_in_library self sole_track)) w3
                 = (w4, Ok tt))
    by (vm_compute; reflexivity).
  unfold observe.
  rewrite (proj1 (failed_removal_falls_back self 0 0 TRACK false
                    (mkState lib ∅) ∅ [6; 4] 5 [8] _ (mkState w1 ∅)
                    w1 w1 w3 w4 sole_track err
                    Hreaches (not_elem_of_empty 5) Hget Hsole Hremove eq_refl
                    Hfav Hset)).
  vm_compute. reflexivity.
Defined.

Lemma sync_deletion_frame_witness :
  exists w1 library_item,
    mass_get_library_item TRACK 4 shared_library = (w1, Ok library_item)
    /\ TRACK = TRACK /\ 4 = 4
    /\ Forall2 (demotes (plex TRACK []))
         (MediaItem.provider_mappings library_item)
         [mapping "d" "plex--1" true false; mapping "d" "plex--2" true true].
Proof.
  apply (sync_deletion_frame (plex TRACK []) TRACK ∅ 4
           (mkState shared_library ∅)).
  vm_compute. apply list_elem_of_further, list_elem_of_here.
Defined.

(** ** The reconcilers, item by item *)

Section Reconcilers.
Context {World : Type} `{!Mass World}.
Variable self : MusicProvider.


(** Syncing the tracks of a playlist never touches a favorite flag. *)
Lemma sync_playlist_track_no_favorite (prov_track : ProviderItem)
    (s : State World) :
  Forall (fun c => is_SetFavorite c = false)
    (trace_of (sync_playlist_track self prov_track) s).
Proof.
  unfold sync_playlist_track, sync_playlist_track_body.
  unfold_calls. unfold_monad. simpl.
  destruct (mass_get_library_item_by_prov_mappings TRACK _ (world s))
    as [w1 [[library_track |] | e |]]; simpl;
    try by repeat constructor.
  - destruct (_check_provider_mappings self library_track prov_track true)
      as [[[] prov_track'] | e |]; simpl; try by repeat constructor.
    + destruct (mass_update_item_in_library TRACK _ _ w1)
        as [w2 [updated | e |]]; simpl; try by repeat constructor.
      destruct (is_MusicAssistantError e); simpl; by repeat constructor.
    + destruct (is_MusicAssistantError e); simpl; by repeat constructor.
  - destruct (mass_add_item_to_library TRACK _ w1)
      as [w2 [created | e |]]; simpl; try by repeat constructor.
    destruct (is_MusicAssistantError e); simpl; by repeat constructor.
Qed.

Lemma sync_playlist_tracks_no_favorite (fuel : nat)
    (provider_playlist : ProviderItem) (s : State World) :
  Forall (fun c => is_SetFavorite c = false)
    (trace_of (_sync_playlist_tracks self fuel provider_playlist) s).
Proof.
  unfold _sync_playlist_tracks, async_for.
  set (tracks := yielded _).
  pose proof (for_each_Forall (fun c => is_SetFavorite c = false) tracks
                (sync_playlist_track self)
                (fun x s0 _ => sync_playlist_track_no_favorite x s0) s)
    as Hloop.
  unfold trace_of in *. unfold bind.
  destruct (for_each tracks (sync_playlist_track self) s)
    as [t [s1 [[] | e |]]]; simpl in *; try done.
  destruct (ending _); simpl; by rewrite ?app_nil_r.
Qed.

(** C4, amended: for a playlist whose checksum changed, and for a
    track or podcast whose availability changed, the update comes
    first: the entity is updated and no favorite flag is set in that
    iteration, whether or not a favorite promotion is pending. For an
    audiobook the resume state is compared after the chain of
    branches, so a pending promotion and a changed resume state lead
    to both [set_favorite] and an update in one iteration. *)
Theorem change_detection_precedes_favorite (fuel : nat)
    (import_as_favorite : bool) (prov_item : ProviderItem)
    (s : State World) (w1 : World) (library_item : LibraryItem) :
  let lookup mt :=
    GetLibraryItemByProvMappings mt (MediaItem.provider_mappings prov_item) in
  let found mt :=
    mass_get_library_item_by_prov_mappings mt
      (MediaItem.provider_mappings prov_item) (world s)
    = (w1, Ok (Some library_item)) in
  let update mt :=
    UpdateItemInLibrary mt (MediaItem.item_id library_item) prov_item in
  (found PLAYLIST ->
   MediaItem.cache_checksum library_item <> MediaItem.cache_checksum prov_item ->
   exists t s' r,
     sync_playlist self fuel import_as_favorite prov_item s
     = (lookup PLAYLIST :: update PLAYLIST :: t, (s', r))
     /\ Forall (fun c => is_SetFavorite c = false) t)
  /\ (found TRACK ->
      MediaItem.available library_item <> MediaItem.available prov_item ->
      exists t s' r,
        sync_track self import_as_favorite prov_item s
        = (lookup TRACK :: update TRACK :: t, (s', r))
        /\ Forall (fun c => is_SetFavorite c = false) t)
  /\ (found PODCAST ->
      MediaItem.available library_item <> MediaItem.available prov_item ->
      exists t s' r,
        sync_podcast self import_as_favorite prov_item s
        = (lookup PODCAST :: update PODCAST :: t, (s', r))
        /\ Forall (fun c => is_SetFavorite c = false) t)
  /\ (found AUDIOBOOK ->
      MediaItem.favorite library_item = false ->
      import_as_favorite = true ->
      resume_state_changed library_item prov_item = true ->
      forall w2,
        mass_set_favorite AUDIOBOOK (MediaItem.item_id library_item) true w1
        = (w2, Ok tt) ->
        exists t s' r,
          sync_audiobook self import_as_favorite prov_item s
          = (lookup AUDIOBOOK
             :: SetFavorite AUDIOBOOK (MediaItem.item_id library_item) true
             :: update AUDIOBOOK :: t, (s', r))).
Proof.
  intros lookup found update. subst lookup found update. simpl.
  split; [| split; [| split]].
  - intros Hfound Hchanged.
    unfold sync_playlist, sync_playlist_body. unfold_calls. unfold_monad.
    rewrite Hfound. simpl. rewrite (bool_decide_eq_false_2 _ Hchanged). simpl.
    destruct (mass_update_item_in_library PLAYLIST _ prov_item w1)
      as [w2 [updated | e |]]; simpl.
    + match goal with
      | |- context [(if ?c then _ else _) ?s1] => destruct c
      end.
      * match goal with
        | |- context [_sync_playlist_tracks self fuel prov_item ?s1] =>
            pose proof (sync_playlist_tracks_no_favorite fuel prov_item s1)
              as Htracks; unfold trace_of in Htracks;
            destruct (_sync_playlist_tracks self fuel prov_item s1)
              as [t [s2 [[] | e |]]]
        end; simpl in *.
        -- eauto 10.
        -- destruct (is_MusicAssistantError e); simpl; [| eauto 10].
           do 3 eexists. split; [reflexivity |].
           apply Forall_app. split; [done | by repeat constructor].
        -- eauto 10.
      * simpl. do 3 eexists. split; [reflexivity | constructor].
    + destruct (is_MusicAssistantError e); simpl;
        do 3 eexists; (split; [reflexivity | by repeat constructor]).
    + do 3 eexists; (split; [reflexivity | by repeat constructor]).
  - intros Hfound Hchanged.
    unfold sync_track, sync_track_body. unfold_calls. unfold_monad.
    rewrite Hfound. simpl. rewrite (bool_decide_eq_false_2 _ Hchanged). simpl.
    destruct (mass_update_item_in_library TRACK _ prov_item w1)
      as [w2 [updated | e |]]; simpl;
      [| destruct (is_MusicAssistantError e); simpl |];
      do 3 eexists; (split; [reflexivity | by repeat constructor]).
  - intros Hfound Hchanged.
    unfold sync_podcast, sync_podcast_body. unfold_calls. unfold_monad.
    rewrite Hfound. simpl. rewrite (bool_decide_eq_false_2 _ Hchanged). simpl.
    destruct (mass_update_item_in_library PODCAST _ prov_item w1)
      as [w2 [updated | e |]]; simpl;
      [destruct (mass_podcast_episodes _ _ w2) as [w3 [[] | e |]]; simpl;
         [| destruct (is_MusicAssistantError e); simpl |]
      | destruct (is_MusicAssistantError e); simpl |];
      do 3 eexists; (split; [reflexivity | by repeat constructor]).
  - intros Hfound Hfavorite -> Hresume w2 Hset.
    unfold sync_audiobook, sync_audiobook_body. unfold_calls. unfold_monad.
    rewrite Hfound. simpl. rewrite Hfavorite. simpl. rewrite Hset. simpl.
    rewrite Hresume. simpl.
    destruct (mass_update_item_in_library AUDIOBOOK _ prov_item w2)
      as [w3 [updated | e |]]; simpl;
      [| destruct (is_MusicAssistantError e); simpl |]; eauto.
Qed.
End Reconcilers.


(** C4, as stated, fails: with a favorite promotion pending and the
    checksum of a playlist (the availability of a track) changed, the
    iteration updates the entity and does not call [set_favorite]. *)
Lemma favorite_first_counterexample :
  observe (sync_playlist (plex PLAYLIST [fresh_item]) 1 true fresh_item)
    stale_library
  = ([lookup_fresh PLAYLIST; UpdateItemInLibrary PLAYLIST 7 fresh_item], Ok tt)
  /\ observe (sync_track (plex TRACK [fresh_item]) true fresh_item)
       stale_library
     = ([lookup_fresh TRACK; UpdateItemInLibrary TRACK 7 fresh_item], Ok tt).
Proof. split; vm_compute; reflexivity. Qed.

Lemma change_detection_precedes_favorite_witness :
  let self := plex PLAYLIST [fresh_item] in
  let s := mkState stale_library ∅ in
  (exists t s' r,
     sync_playlist self 1 true fresh_item s
     = (lookup_fresh PLAYLIST :: UpdateItemInLibrary PLAYLIST 7 fresh_item :: t,
        (s', r))
     /\ Forall (fun c => is_SetFavorite c = false) t)
  /\ (exists t s' r,
        sync_track self true fresh_item s
        = (lookup_fresh TRACK :: UpdateItemInLibrary TRACK 7 fresh_item :: t,
           (s', r))
        /\ Forall (fun c => is_SetFavorite c = false) t)
  /\ (exists t s' r,
        sync_podcast self true fresh_item s
        = (lookup_fresh PODCAST :: UpdateItemInLibrary PODCAST 7 fresh_item :: t,
           (s', r))
        /\ Forall (fun c => is_SetFavorite c = false) t)
  /\ (exists t s' r,
        sync_audiobook self true fresh_item s
        = (lookup_fresh AUDIOBOOK :: SetFavorite AUDIOBOOK 7 true
           :: UpdateItemInLibrary AUDIOBOOK 7 fresh_item :: t,
           (s', r))).
Proof.
  intros self s.
  destruct (change_detection_precedes_favorite self 1 true fresh_item s
              stale_library stale_entity)
    as (Hplaylist & Htrack & Hpodcast & Haudiobook).
  split; [| split; [| split]].
  - apply Hplaylist; [vm_compute; reflexivity | discriminate].
  - apply Htrack; [vm_compute; reflexivity | discriminate].
  - apply Hpodcast; [vm_compute; reflexivity | discriminate].
  - apply (Haudiobook ltac:(vm_compute; reflexivity) eq_refl eq_refl eq_refl
             (fst (mem_set_favorite AUDIOBOOK 7 true stale_library))).
    vm_compute. reflexivity.
Defined.

(** ** Failures of single items *)

Section Isolation.
Context {World : Type} `{!Mass World}.
Variable self : MusicProvider.

(** Every reconciler has the shape this lemma asks for: look the item
    up, run the guarded block, log what it raises. *)
Lemma guarded_loop_isolates (mt : MediaType)
    (step : ProviderItem -> M World unit)
    (body : ProviderItem -> option LibraryItem -> M World unit)
    (sync : M World (gset Z)) :
  (forall item,
     step item
     = (library_item ← get_library_item_by_prov_mappings mt
                         (MediaItem.provider_mappings item);
        try_except (body item library_item) is_MusicAssistantError
          (fun err => log_warning (inl (MediaItem.uri item)) err))) ->
  sync = (set_cur_db_ids ∅;;
          async_for (get_library_items self mt) step;;
          get_cur_db_ids) ->
  isolates_failure self mt step body sync.
Proof.
  intros Hstep -> pre post item s s1 s2 s3 w found t1 t2 t3 err
    Hitems Hend Hpre Hlookup Hbody Hma Hpost.
  unfold async_for. rewrite Hitems, Hend.
  unfold mbind, M_bind. unfold bind at 1. unfold set_cur_db_ids at 1.
  unfold bind at 1. unfold bind at 1. rewrite for_each_app.
  unfold bind at 1. rewrite Hpre.
  change (for_each (item :: post) step)
    with (bind (step item) (fun _ => for_each post step)).
  unfold bind at 1. rewrite Hstep.
  unfold_calls. unfold_monad. rewrite Hlookup. simpl.
  rewrite Hbody, Hma. simpl. rewrite Hpost. simpl.
  by rewrite !app_nil_r, <- !app_assoc.
Qed.

(** C3, amended: each of the seven reconcilers isolates the failure
    of one item's guarded block. (The library lookup for an item sits
    outside the guarded block.) *)
Theorem reconcilers_isolate_failures (fuel : nat) (import_as_favorite : bool) :
  isolates_failure self ARTIST (sync_artist self import_as_favorite)
    (sync_artist_body self import_as_favorite)
    (_sync_library_artists self import_as_favorite)
  /\ isolates_failure self TRACK (sync_track self import_as_favorite)
       (sync_track_body self import_as_favorite)
       (_sync_library_tracks self import_as_favorite)
  /\ isolates_failure self ALBUM (sync_album self import_as_favorite)
       (sync_album_body self import_as_favorite)
       (_sync_library_albums self import_as_favorite)
  /\ isolates_failure self PLAYLIST (sync_playlist self fuel import_as_favorite)
       (sync_playlist_body self fuel import_as_favorite)
       (_sync_library_playlists self fuel import_as_favorite)
  /\ isolates_failure self PODCAST (sync_podcast self import_as_favorite)
       (sync_podcast_body self import_as_favorite)
       (_sync_library_podcasts self import_as_favorite)
  /\ isolates_failure self RADIO (sync_radio self import_as_favorite)
       (sync_radio_body self import_as_favorite)
       (_sync_library_radios self import_as_favorite)
  /\ isolates_failure self AUDIOBOOK (sync_audiobook self import_as_favorite)
       (sync_audiobook_body self import_as_favorite)
       (_sync_library_audiobooks self import_as_favorite).
Proof.
  repeat split; by apply guarded_loop_isolates.
Qed.
End Isolation.

(** C3, as stated, fails: when the library lookup for the second of
    three artists raises a [MusicAssistantError], the pass ends with
    that exception; the third artist is never attempted and no set of
    ids is returned. *)
Lemma lookup_failure_aborts_counterexample :
  observe (_sync_library_artists three_artists false)
    (library_of [] [] lookup_fails)
  = ([lookup_of (artist "a1"); AddItemToLibrary ARTIST (artist "a1");
      lookup_of (artist "a2")],
     Raise (MusicAssistantError "database error")).
Proof. vm_compute. reflexivity. Qed.

Lemma reconcilers_isolate_failures_witness :
  observe (_sync_library_artists three_artists false)
    (library_of [] [] add_fails)
  = ([lookup_of (artist "a1"); AddItemToLibrary ARTIST (artist "a1");
      lookup_of (artist "a2"); AddItemToLibrary ARTIST (artist "a2");
      LogWarning (inl "a2") (MusicAssistantError "database error");
      lookup_of (artist "a3"); AddItemToLibrary ARTIST (artist "a3")],
     Ok {[ 100; 101 ]}).
Proof.
  set (lib := library_of [] [] add_fails).
  set (step := sync_artist three_artists false).
  set (before := for_each [artist "a1"] step (mkState lib ∅)).
  set (s1 := fst (snd before)).
  set (w := fst (mass_get_library_item_by_prov_mappings ARTIST
                   (MediaItem.provider_mappings (artist "a2")) (world s1))).
  set (failing := sync_artist_body three_artists false (artist "a2") None
                    (mkState w (cur_db_ids s1))).
  set (s2 := fst (snd failing)).
  set (after := for_each [artist "a3"] step s2).
  unfold observe.
  rewrite (proj1 (reconcilers_isolate_failures three_artists 0 false)
             [artist "a1"] [artist "a3"] (artist "a2")
             (mkState lib ∅) s1 s2 (fst (snd after)) w None
             (fst before) (fst failing) (fst after)
             (MusicAssistantError "database error"));
    vm_compute; reflexivity.
Defined.

(** ** A pass over a library that is already in sync *)

Section Quiescence.
Context {World : Type} `{!Mass World}.
Variable self : MusicProvider.
Variable CACHE_CATEGORY_LIBRARY_ITEMS : Z.

Lemma consistent_check (library_item : LibraryItem) (prov_item : ProviderItem) :
  consistent self library_item prov_item = true ->
  exists prov_item',
    _check_provider_mappings self library_item prov_item true
    = Ok (true, prov_item')
    /\ resume_state_changed library_item prov_item'
       = resume_state_changed library_item prov_item.
Proof.
  unfold consistent.
  destruct (_check_provider_mappings self library_item prov_item true)
    as [[verdict prov_item'] | e |] eqn:Hcheck; try done.
  intros ->. exists prov_item'. split; [done |].
  unfold _check_provider_mappings in Hcheck.
  destruct (MediaItem.provider_mappings prov_item) as [| m others]; [done |].
  destruct (negb _); [done |]. destruct (negb _); [done |].
  destruct (find_library_mapping _ _); [| done].
  destruct (negb _); by simplify_eq.
Qed.

Lemma quiet_for_each_children {A} (w0 : World) (xs : list A)
    (body : A -> M World unit) :
  Forall (fun x => quiet w0 (body x) id) xs ->
  quiet w0 (for_each xs body) id.
Proof.
  induction 1 as [| x xs Hx Hxs IH]; intros seen; simpl.
  - exists []. by split.
  - destruct (Hx seen) as (t1 & Hrun1 & Hreads1).
    destruct (IH seen) as (t2 & Hrun2 & Hreads2).
    exists (t1 ++ t2). unfold bind. simpl in *. rewrite Hrun1, Hrun2.
    split; [done | by apply Forall_app].
Qed.

Lemma quiet_for_each_items (w0 : World) (xs : list ProviderItem) (ids : list Z)
    (body : ProviderItem -> M World unit) :
  Forall2 (fun x db_id => quiet w0 (body x) (fun seen => {[ db_id ]} ∪ seen))
    xs ids ->
  quiet w0 (for_each xs body) (fun seen => list_to_set ids ∪ seen).
Proof.
  induction 1 as [| x db_id xs ids Hx Hxs IH]; intros seen; simpl.
  - exists []. split; [| done]. by rewrite (left_id_L ∅ (∪)).
  - destruct (Hx seen) as (t1 & Hrun1 & Hreads1).
    destruct (IH ({[ db_id ]} ∪ seen)) as (t2 & Hrun2 & Hreads2).
    exists (t1 ++ t2). unfold bind. rewrite Hrun1, Hrun2.
    split; [| by apply Forall_app].
    do 3 f_equal. apply set_eq. intros z.
    rewrite !elem_of_union. tauto.
Qed.

(** Splits [needs_nothing] into what the branches test. *)
Lemma needs_nothing_inv (mt : MediaType) (import_as_favorite : bool)
    (library_item : LibraryItem) (prov_item : ProviderItem) :
  needs_nothing self mt import_as_favorite library_item prov_item = true ->
  negb (MediaItem.favorite library_item) && import_as_favorite = false
  /\ (exists prov_item',
        _check_provider_mappings self library_item prov_item true
        = Ok (true, prov_item')
        /\ resume_state_changed library_item prov_item'
           = resume_state_changed library_item prov_item)
  /\ match mt with
     | PLAYLIST =>
         MediaItem.cache_checksum library_item
         = MediaItem.cache_checksum prov_item
     | TRACK | PODCAST =>
         MediaItem.available library_item = MediaItem.available prov_item
     | AUDIOBOOK => resume_state_changed library_item prov_item = false
     | _ => True
     end.
Proof.
  unfold needs_nothing. intros Hneeds.
  apply andb_true_iff in Hneeds as [Hneeds Htype].
  apply andb_true_iff in Hneeds as [Hfav Hcons].
  split; [| split].
  - destruct (MediaItem.favorite library_item), import_as_favorite; done.
  - by apply consistent_check.
  - destruct mt; try done; try by apply bool_decide_eq_true in Htype.
    by apply negb_true_iff in Htype.
Qed.

Lemma sync_album_track_settled (w0 : World) (prov_track : ProviderItem) :
  track_settled self w0 prov_track ->
  quiet w0 (sync_album_track self prov_track) id.
Proof.
  intros (library_track & Hlookup & Hcons) seen.
  apply consistent_check in Hcons as (prov_track' & Hcheck & _).
  unfold sync_album_track, sync_album_track_body. unfold_calls. unfold_monad.
  simpl. rewrite Hlookup. simpl. rewrite Hcheck. simpl.
  eexists. split; [reflexivity | by repeat constructor].
Qed.

Lemma sync_playlist_track_settled (w0 : World) (prov_track : ProviderItem) :
  track_settled self w0 prov_track ->
  quiet w0 (sync_playlist_track self prov_track) id.
Proof.
  intros (library_track & Hlookup & Hcons) seen.
  apply consistent_check in Hcons as (prov_track' & Hcheck & _).
  unfold sync_playlist_track, sync_playlist_track_body. unfold_calls.
  unfold_monad.
  simpl. rewrite Hlookup. simpl. rewrite Hcheck. simpl.
  eexists. split; [reflexivity | by repeat constructor].
Qed.

Lemma sync_artist_settled (fuel : nat) (import_as_favorite : bool) (w0 : World)
    (prov_item : ProviderItem) (db_id : Z) :
  settled self fuel ARTIST import_as_favorite w0 prov_item db_id ->
  quiet w0 (sync_artist self import_as_favorite prov_item)
    (fun seen => {[ db_id ]} ∪ seen).
Proof.
  intros (library_item & Hlookup & <- & Hneeds & _) seen.
  apply needs_nothing_inv in Hneeds as (Hfav & (prov_item' & Hcheck & _) & _).
  unfold sync_artist, sync_artist_body. unfold_calls. unfold_monad.
  simpl. rewrite Hlookup. simpl. rewrite Hfav, Hcheck. simpl.
  eexists. split; [reflexivity | by repeat constructor].
Qed.

Lemma sync_radio_settled (fuel : nat) (import_as_favorite : bool) (w0 : World)
    (prov_item : ProviderItem) (db_id : Z) :
  settled self fuel RADIO import_as_favorite w0 prov_item db_id ->
  quiet w0 (sync_radio self import_as_favorite prov_item)
    (fun seen => {[ db_id ]} ∪ seen).
Proof.
  intros (library_item & Hlookup & <- & Hneeds & _) seen.
  apply needs_nothing_inv in Hneeds as (Hfav & (prov_item' & Hcheck & _) & _).
  unfold sync_radio, sync_radio_body. unfold_calls. unfold_monad.
  simpl. rewrite Hlookup. simpl. rewrite Hfav, Hcheck. simpl.
  eexists. split; [reflexivity | by repeat constructor].
Qed.

Lemma sync_track_settled (fuel : nat) (import_as_favorite : bool) (w0 : World)
    (prov_item : ProviderItem) (db_id : Z) :
  settled self fuel TRACK import_as_favorite w0 prov_item db_id ->
  quiet w0 (sync_track self import_as_favorite prov_item)
    (fun seen => {[ db_id ]} ∪ seen).
Proof.
  intros (library_item & Hlookup & <- & Hneeds & _) seen.
  apply needs_nothing_inv
    in Hneeds as (Hfav & (prov_item' & Hcheck & _) & Havailable).
  unfold sync_track, sync_track_body. unfold_calls. unfold_monad.
  simpl. rewrite Hlookup. simpl.
  rewrite (bool_decide_eq_true_2 _ Havailable). simpl.
  rewrite Hfav, Hcheck. simpl.
  eexists. split; [reflexivity | by repeat constructor].
Qed.

Lemma sync_podcast_settled (fuel : nat) (import_as_favorite : bool) (w0 : World)
    (prov_item : ProviderItem) (db_id : Z) :
  settled self fuel PODCAST import_as_favorite w0 prov_item db_id ->
  quiet w0 (sync_podcast self import_as_favorite prov_item)
    (fun seen => {[ db_id ]} ∪ seen).
Proof.
  intros (library_item & Hlookup & <- & Hneeds & Hepisodes) seen.
  apply needs_nothing_inv
    in Hneeds as (Hfav & (prov_item' & Hcheck & _) & Havailable).
  simpl in Hepisodes.
  unfold sync_podcast, sync_podcast_body. unfold_calls. unfold_monad.
  simpl. rewrite Hlookup. simpl.
  rewrite (bool_decide_eq_true_2 _ Havailable). simpl.
  rewrite Hfav, Hcheck. simpl. rewrite Hepisodes. simpl.
  eexists. split; [reflexivity | by repeat constructor].
Qed.

Lemma sync_audiobook_settled (fuel : nat) (import_as_favorite : bool)
    (w0 : World) (prov_item : ProviderItem) (db_id : Z) :
  settled self fuel AUDIOBOOK import_as_favorite w0 prov_item db_id ->
  quiet w0 (sync_audiobook self import_as_favorite prov_item)
    (fun seen => {[ db_id ]} ∪ seen).
Proof.
  intros (library_item & Hlookup & <- & Hneeds & _) seen.
  apply needs_nothing_inv
    in Hneeds as (Hfav & (prov_item' & Hcheck & Hsame) & Hresume).
  unfold sync_audiobook, sync_audiobook_body. unfold_calls. unfold_monad.
  simpl. rewrite Hlookup. simpl. rewrite Hfav, Hcheck. simpl.
  rewrite Hsame, Hresume. simpl.
  eexists. split; [reflexivity | by repeat constructor].
Qed.

Lemma sync_album_settled (fuel : nat) (import_as_favorite : bool) (w0 : World)
    (prov_item : ProviderItem) (db_id : Z) :
  settled self fuel ALBUM import_as_favorite w0 prov_item db_id ->
  quiet w0 (sync_album self import_as_favorite prov_item)
    (fun seen => {[ db_id ]} ∪ seen).
Proof.
  intros (library_item & Hlookup & <- & Hneeds & Htracks) seen.
  apply needs_nothing_inv in Hneeds as (Hfav & (prov_item' & Hcheck & _) & _).
  simpl in Htracks.
  unfold sync_album, sync_album_body, _sync_album_tracks. unfold_calls.
  unfold_monad.
  simpl. rewrite Hlookup. simpl. rewrite Hfav, Hcheck. simpl.
  destruct (conf_sync_album_tracks self); simpl.
  - destruct Htracks as (tracks & -> & Hsettled); [done |].
    destruct (quiet_for_each_children w0 tracks (sync_album_track self)
                (Forall_impl _ _ _ Hsettled (sync_album_track_settled w0))
                ({[ MediaItem.item_id library_item ]} ∪ seen))
      as (reads & Hrun & Hreads).
    rewrite Hrun. simpl.
    eexists. split; [reflexivity |]. by repeat constructor.
  - eexists. split; [reflexivity | by repeat constructor].
Qed.

Lemma sync_playlist_settled (fuel : nat) (import_as_favorite : bool)
    (w0 : World) (prov_item : ProviderItem) (db_id : Z) :
  settled self fuel PLAYLIST import_as_favorite w0 prov_item db_id ->
  quiet w0 (sync_playlist self fuel import_as_favorite prov_item)
    (fun seen => {[ db_id ]} ∪ seen).
Proof.
  intros (library_item & Hlookup & <- & Hneeds & Htracks) seen.
  apply needs_nothing_inv
    in Hneeds as (Hfav & (prov_item' & Hcheck & _) & Hchecksum).
  simpl in Htracks.
  unfold sync_playlist, sync_playlist_body, _sync_playlist_tracks, async_for.
  unfold_calls. unfold_monad.
  simpl. rewrite Hlookup. simpl.
  rewrite (bool_decide_eq_true_2 _ Hchecksum). simpl.
  rewrite Hfav, Hcheck. simpl.
  destruct (bool_decide (MediaItem.name prov_item ∈ _)
            || bool_decide (MediaItem.uri prov_item ∈ _)) eqn:Hconf; simpl.
  - apply orb_true_iff in Hconf.
    rewrite !bool_decide_eq_true in Hconf.
    destruct (Htracks Hconf) as [Hend Hsettled].
    destruct (quiet_for_each_children w0 _ (sync_playlist_track self)
                (Forall_impl _ _ _ Hsettled (sync_playlist_track_settled w0))
                ({[ MediaItem.item_id library_item ]} ∪ seen))
      as (reads & Hrun & Hreads).
    rewrite Hrun, Hend. simpl.
    eexists. split; [reflexivity |]. rewrite app_nil_r. by repeat constructor.
  - eexists. split; [reflexivity | by repeat constructor].
Qed.

(** A reconciler whose catalog is settled only reads, and returns the
    ids of the matched entities. *)
Lemma reconciler_settled (fuel : nat) (mt : MediaType)
    (import_as_favorite : bool) (w0 : World) (ids : list Z)
    (sync : M World (gset Z)) :
  reconciler self fuel mt import_as_favorite = Some sync ->
  ending (get_library_items self mt) = Exhausted ->
  Forall2 (settled self fuel mt import_as_favorite w0)
    (yielded (get_library_items self mt)) ids ->
  forall seen,
    exists reads,
      sync (mkState w0 seen)
      = (reads, (mkState w0 (list_to_set ids), Ok (list_to_set ids)))
      /\ Forall (fun c => is_mutation c = false) reads.
Proof.
  intros Hsync Hend Hsettled seen.
  assert (Hloop : exists step,
             sync = (set_cur_db_ids ∅;;
                     async_for (get_library_items self mt) step;;
                     get_cur_db_ids)
             /\ forall prov_item db_id,
                  settled self fuel mt import_as_favorite w0 prov_item db_id ->
                  quiet w0 (step prov_item) (fun seen => {[ db_id ]} ∪ seen)).
  { destruct mt; simpl in Hsync; simplify_eq; eexists; (split; [reflexivity |]);
      intros prov_item db_id.
    - apply sync_artist_settled.
    - apply sync_album_settled.
    - apply sync_track_settled.
    - apply sync_playlist_settled.
    - apply sync_radio_settled.
    - apply sync_audiobook_settled.
    - apply sync_podcast_settled. }
  destruct Hloop as (step & -> & Hstep).
  destruct (quiet_for_each_items w0 _ ids step
              (Forall2_impl _ _ _ _ Hsettled Hstep) ∅)
    as (reads & Hrun & Hreads).
  unfold async_for. unfold_monad. simpl. rewrite Hrun, Hend. simpl.
  exists reads. rewrite !app_nil_r, (right_id_L ∅ (∪)). by split.
Qed.

(** Ids the pass has seen are left alone by the deletion loop. *)
Lemma seen_ids_are_kept (mt : MediaType) (seen : gset Z) (prev : list Z)
    (s : State World) :
  (forall db_id, db_id ∈ prev -> db_id ∈ seen) ->
  for_each prev (sync_deletion self mt seen) s = ([], (s, Ok tt)).
Proof.
  induction prev as [| db_id prev IH]; intros Hprev; simpl; [done |].
  assert (Hskip : sync_deletion self mt seen db_id s = ([], (s, Ok tt))).
  { unfold sync_deletion.
    rewrite bool_decide_eq_false_2; [done |].
    intros Hnot. apply Hnot, Hprev. by left. }
  unfold bind. rewrite Hskip, IH; [done |].
  intros db_id' Hin. apply Hprev. by right.
Qed.

(** C2, amended: a pass over a library that is already in sync with
    the catalog makes no mutating call and persists the ids of the
    matched entities as the snapshot. In sync means: the catalog is
    exhausted without failure, every item of it is matched by an entity
    that needs no promotion, shows no type-specific change and has a
    consistent mapping (likewise the album or playlist tracks that are
    synced with it), reading leaves the world as it is, and every id of
    the previous snapshot is matched again. *)
Theorem settled_pass_is_quiet (fuel : nat) (media_type : MediaType)
    (import_as_favorite : bool) (w0 : World) (ids : list Z)
    (prev : option (list Z)) (seen : gset Z) :
  let key := MediaType_value media_type in
  let snapshot := elements (list_to_set ids : gset Z) in
  library_supported self media_type = true ->
  ending (get_library_items self media_type) = Exhausted ->
  Forall2 (settled self fuel media_type import_as_favorite w0)
    (yielded (get_library_items self media_type)) ids ->
  mass_cache_get key CACHE_CATEGORY_LIBRARY_ITEMS (instance_id self) w0
  = (w0, Ok prev) ->
  (forall db_id, db_id ∈ default [] prev -> db_id ∈ ids) ->
  exists reads,
    sync_library self CACHE_CATEGORY_LIBRARY_ITEMS fuel media_type
      import_as_favorite (mkState w0 seen)
    = (let '(w1, r) :=
         mass_cache_set key snapshot CACHE_CATEGORY_LIBRARY_ITEMS
           (instance_id self) w0 in
       (reads
        ++ [CacheSet key snapshot CACHE_CATEGORY_LIBRARY_ITEMS
              (instance_id self)],
        (mkState w1 (list_to_set ids), r)))
    /\ Forall (fun c => is_mutation c = false) reads.
Proof.
  intros key snapshot Hsupported Hend Hsettled Hcache Hprev.
  destruct (supported_runs_reconciler self CACHE_CATEGORY_LIBRARY_ITEMS fuel
              media_type import_as_favorite Hsupported)
    as (sync & Hsync & ->).
  destruct (reconciler_settled fuel media_type import_as_favorite w0 ids sync
              Hsync Hend Hsettled seen)
    as (reads & Hrun & Hreads).
  exists (reads ++ [CacheGet key CACHE_CATEGORY_LIBRARY_ITEMS (instance_id self)]).
  split; [| apply Forall_app; split; [done | by repeat constructor]].
  unfold process_deletions. unfold_calls. unfold_monad. rewrite Hrun. simpl.
  fold key. rewrite Hcache. simpl.
  assert (Hloop : forall prev_ids s,
             (forall db_id, db_id ∈ prev_ids -> db_id ∈ ids) ->
             for_each prev_ids
               (sync_deletion self media_type (list_to_set ids)) s
             = ([], (s, Ok tt))).
  { intros prev_ids s Hin. apply seen_ids_are_kept.
    intros db_id Hdb. apply elem_of_list_to_set, Hin, Hdb. }
  destruct prev as [[| db_id rest] |]; simpl in *.
  - fold snapshot.
    destruct (mass_cache_set key snapshot _ _ w0) as [w1 r].
    by rewrite <- app_assoc.
  - change (bind (sync_deletion self media_type (list_to_set ids) db_id)
              (fun _ => for_each rest
                          (sync_deletion self media_type (list_to_set ids))))
      with (for_each (db_id :: rest)
              (sync_deletion self media_type (list_to_set ids))).
    rewrite (Hloop _ _ Hprev). simpl. fold snapshot.
    destruct (mass_cache_set key snapshot _ _ w0) as [w1 r].
    by rewrite <- app_assoc.
  - fold snapshot.
    destruct (mass_cache_set key snapshot _ _ w0) as [w1 r].
    by rewrite <- app_assoc.
Qed.
End Quiescence.

(** C2, as stated, fails: with the catalog unchanged and nothing else
    touching the library, the first pass promotes artist 7 to favorite
    and the second pass, finding the mapping still inconsistent,
    updates it: the second pass mutates the library. *)
Lemma second_pass_mutates_counterexample :
  observe (sync_library one_artist 0 1 ARTIST true) demoted_library
  = ([lookup_of (artist "a1"); SetFavorite ARTIST 7 true;
      CacheGet "artist" 0 "plex--1"; CacheSet "artist" [7] 0 "plex--1"],
     Ok tt)
  /\ observe (sync_library one_artist 0 1 ARTIST true)
       (final_world (sync_library one_artist 0 1 ARTIST true) demoted_library)
     = ([lookup_of (artist "a1"); UpdateItemInLibrary ARTIST 7 (artist "a1");
         CacheGet "artist" 0 "plex--1"; CacheSet "artist" [7] 0 "plex--1"],
        Ok tt).
Proof. split; vm_compute; reflexivity. Qed.

Lemma settled_pass_is_quiet_witness :
  exists reads,
    sync_library one_artist 0 1 ARTIST true (mkState synced_library ∅)
    = (let '(w1, r) :=
         mass_cache_set "artist" (elements (list_to_set [7] : gset Z)) 0
           "plex--1" synced_library in
       (reads
        ++ [CacheSet "artist" (elements (list_to_set [7] : gset Z)) 0
              "plex--1"],
        (mkState w1 (list_to_set [7]), r)))
    /\ Forall (fun c => is_mutation c = false) reads.
Proof.
  assert (Hsupported : library_supported one_artist ARTIST = true)
    by (vm_compute; reflexivity).
  assert (Hend : ending (get_library_items one_artist ARTIST) = Exhausted)
    by (vm_compute; reflexivity).
  assert (Hsettled : Forall2 (settled one_artist 1 ARTIST true synced_library)
                       (yielded (get_library_items one_artist ARTIST)) [7]).
  { change (yielded (get_library_items one_artist ARTIST)) with [artist "a1"].
    constructor; [| constructor].
    exists (library_item 7 true true [mapping "a1" "plex--1" true true]).
    repeat split; vm_compute; reflexivity. }
  assert (Hcache : mass_cache_get (MediaType_value ARTIST) 0
                     (instance_id one_artist) synced_library
                   = (synced_library, Ok (Some [7])))
    by (vm_compute; reflexivity).
  assert (Hprev : forall db_id : Z,
             db_id ∈ default [] (Some [7]) -> db_id ∈ [7]) by (intros ? H; exact H).
  exact (settled_pass_is_quiet one_artist 0 1 ARTIST true synced_library [7]
           (Some [7]) ∅ Hsupported Hend Hsettled Hcache Hprev).
Defined.

(** ** What the calls of a computation look like *)

Section Emits.
Context {World : Type}.
Variable P : Call -> Prop.

Lemma emits_ret {A} (a : A) : emits P (ret a : M World A).
Proof. intros s. constructor. Qed.

Lemma emits_mret {A} (a : A) : emits P (mret a : M World A).
Proof. intros s. constructor. Qed.

Lemma emits_raise {A} (e : exn) : emits P (raise e : M World A).
Proof. intros s. constructor. Qed.

Lemma emits_lift {A} (r : result A) : emits P (lift r : M World A).
Proof. intros s. constructor. Qed.

Lemma emits_get_cur_db_ids : emits P (get_cur_db_ids : M World (gset Z)).
Proof. intros s. constructor. Qed.

Lemma emits_set_cur_db_ids ids : emits P (set_cur_db_ids ids : M World unit).
Proof. intros s. constructor. Qed.

Lemma emits_perform {A} (c : Call) (op : World -> World * result A) :
  P c -> emits P (perform c op).
Proof.
  intros Hc s. unfold trace_of, perform.
  destruct (op (world s)) as [w r]. simpl. by repeat constructor.
Qed.

Lemma emits_log_warning subject err :
  P (LogWarning subject err) -> emits P (log_warning subject err : M World unit).
Proof. intros Hc s. by repeat constructor. Qed.

Lemma emits_bind {A B} (m : M World A) (k : A -> M World B) :
  emits P m -> (forall a, emits P (k a)) -> emits P (bind m k).
Proof.
  intros Hm Hk s. specialize (Hm s). unfold trace_of, bind in *.
  destruct (m s) as [t1 [s1 [a | e |]]]; simpl in *; try done.
  specialize (Hk a s1). unfold trace_of in Hk.
  destruct (k a s1) as [t2 r]. simpl in *. by apply Forall_app.
Qed.

Lemma emits_mbind {A B} (m : M World A) (k : A -> M World B) :
  emits P m -> (forall a, emits P (k a)) -> emits P (mbind k m).
Proof. apply emits_bind. Qed.

Lemma emits_try_except {A} (body : M World A) (catches : exn -> bool)
    (handler : exn -> M World A) :
  emits P body -> (forall e, emits P (handler e)) ->
  emits P (try_except body catches handler).
Proof.
  intros Hbody Hhandler s. specialize (Hbody s). unfold trace_of, try_except in *.
  destruct (body s) as [t1 [s1 [a | e |]]]; simpl in *; try done.
  destruct (catches e); simpl; [| done].
  specialize (Hhandler e s1). unfold trace_of in Hhandler.
  destruct (handler e s1) as [t2 r]. simpl in *. by apply Forall_app.
Qed.

Lemma emits_for_each {A} (xs : list A) (body : A -> M World unit) :
  (forall x, x ∈ xs -> emits P (body x)) -> emits P (for_each xs body).
Proof.
  intros Hbody s. apply for_each_Forall. intros x s' Hx. by apply Hbody.
Qed.

Lemma emits_async_for (gen : Catalog) (body : ProviderItem -> M World unit) :
  (forall x, x ∈ yielded gen -> emits P (body x)) -> emits P (async_for gen body).
Proof.
  intros Hbody. unfold async_for. apply emits_bind.
  - by apply emits_for_each.
  - intros []. destruct (ending gen);
      [apply emits_ret | apply emits_raise | apply emits_lift].
Qed.
End Emits.

(** One rule of the calculus of [emits], or a case split on what the
    computation branches on. *)
Ltac emits_step :=
  first
    [ apply emits_mret | apply emits_ret | apply emits_raise | apply emits_lift
    | apply emits_get_cur_db_ids | apply emits_set_cur_db_ids
    | apply emits_log_warning
    | apply emits_perform
    | apply emits_mbind; [| intros ?]
    | apply emits_try_except; [| intros ?]
    | apply emits_for_each; intros ? ?
    | apply emits_async_for; intros ? ?
    | match goal with
      | |- emits _ (match ?x with _ => _ end) => destruct x eqn:?
      | |- emits _ (if ?x then _ else _) => destruct x eqn:?
      end ].

(** ** What a reconciler calls *)

Section Reconciler_calls.
Context {World : Type} `{!Mass World}.
Variable self : MusicProvider.

(** The shape of every call a reconciler can make. *)
Lemma reconciler_emits (P : Call -> Prop) (fuel : nat) (mt : MediaType)
    (import_as_favorite : bool) (sync : M World (gset Z)) :
  (forall m mappings,
     reconciler_target mt m = true ->
     P (GetLibraryItemByProvMappings m mappings)) ->
  (forall x,
     x ∈ yielded (get_library_items self mt) ->
     P (AddItemToLibrary mt (mark_favorite import_as_favorite x))) ->
  (mt = ALBUM \/ mt = PLAYLIST -> forall item, P (AddItemToLibrary TRACK item)) ->
  (forall m db_id item,
     reconciler_target mt m = true -> P (UpdateItemInLibrary m db_id item)) ->
  (import_as_favorite = true -> forall db_id, P (SetFavorite mt db_id true)) ->
  (mt = PODCAST -> forall db_id provider, P (PodcastEpisodes db_id provider)) ->
  (forall uri err, P (LogWarning (inl uri) err)) ->
  reconciler self fuel mt import_as_favorite = Some sync ->
  emits P sync.
Proof.
  intros Hlookup Hadd Hchild Hupdate Hfavorite Hepisodes Hlog Hsync.
  destruct mt; simpl in Hsync; simplify_eq;
    unfold _sync_library_artists, _sync_library_albums, _sync_library_tracks,
      _sync_library_playlists, _sync_library_podcasts, _sync_library_radios,
      _sync_library_audiobooks, sync_artist, sync_artist_body, sync_album,
      sync_album_body, _sync_album_tracks, sync_album_track,
      sync_album_track_body, sync_track, sync_track_body, sync_playlist,
      sync_playlist_body, _sync_playlist_tracks, sync_playlist_track,
      sync_playlist_track_body, sync_podcast, sync_podcast_body, sync_radio,
      sync_radio_body, sync_audiobook, sync_audiobook_body;
    unfold_calls;
    repeat emits_step;
    first
      [ apply Hlog
      | apply Hlookup; reflexivity
      | apply Hupdate; reflexivity
      | by apply Hadd
      | apply Hchild; auto
      | apply Hepisodes; reflexivity
      | apply Hfavorite;
        match goal with
        | H : _ && _ = true |- _ => by apply andb_true_iff in H as [_ ->]
        end ].
Qed.

(** X1: a reconciler only looks items up, adds and updates them,
    promotes them to favorite, precaches podcast episodes and logs
    skipped items, and only on the controller of its own media type
    (and of tracks, for albums and playlists). It never removes an
    entity, never rewrites provider mappings, never clears a favorite
    flag and never touches the cache. *)
Theorem reconciler_calls_confined (fuel : nat) (mt : MediaType)
    (import_as_favorite : bool) (sync : M World (gset Z)) :
  reconciler self fuel mt import_as_favorite = Some sync ->
  emits (fun c => reconciler_call mt c = true) sync.
Proof.
  apply reconciler_emits; simpl; try done.
  - intros x _. unfold reconciler_target. by rewrite bool_decide_eq_true_2.
  - by intros [-> | ->].
  - intros _ db_id. by rewrite bool_decide_eq_true_2.
  - by intros ->.
Qed.

(** X2: a reconciler changes a favorite flag only when it imports as
    favorite, and then only to set it: a pass with
    [import_as_favorite = false] calls [set_favorite] not at all, and
    no pass ever calls it with [False]. *)
Theorem reconciler_favorite_monotone (fuel : nat) (mt : MediaType)
    (import_as_favorite : bool) (sync : M World (gset Z)) :
  reconciler self fuel mt import_as_favorite = Some sync ->
  emits (fun c => forall m db_id favorite,
           c = SetFavorite m db_id favorite ->
           favorite = true /\ import_as_favorite = true)
    sync.
Proof.
  apply reconciler_emits; try done.
  intros -> db_id m db_id' favorite [= _ _ <-]. done.
Qed.

(** X3: whatever a reconciler adds to the controller of its media type
    is an item the catalog yielded, with the favorite flag set when
    importing as favorite and otherwise as the provider sent it. *)
Theorem reconciler_adds_catalog_items (fuel : nat) (mt : MediaType)
    (import_as_favorite : bool) (sync : M World (gset Z)) :
  reconciler self fuel mt import_as_favorite = Some sync ->
  emits (fun c => forall item,
           c = AddItemToLibrary mt item ->
           exists x,
             x ∈ yielded (get_library_items self mt)
             /\ item = mark_favorite import_as_favorite x)
    sync.
Proof.
  intros Hsync. apply (reconciler_emits _ fuel mt import_as_favorite); try done.
  - intros x Hx item [= <-]. eauto.
  - intros [-> | ->] item item' [=].
Qed.

(** Away from albums and playlists a reconciler addresses the
    controller of its own media type only. *)
Lemma reconciler_target_own (mt m : MediaType) :
  mt <> ALBUM -> mt <> PLAYLIST -> reconciler_target mt m = true -> m = mt.
Proof.
  intros Halbum Hplaylist. unfold reconciler_target.
  rewrite (bool_decide_eq_false_2 _ Halbum),
    (bool_decide_eq_false_2 _ Hplaylist), andb_false_r, orb_false_r.
  apply bool_decide_eq_true_1.
Qed.

(** X4: syncing the tracks of albums and playlists is opt-in. When
    album tracks are switched off, and when no playlist of the catalog
    is listed in the configuration by name or by uri, the reconciler
    addresses the controller of its own media type only; in particular
    it looks up, adds and updates no track. *)
Theorem child_tracks_opt_in (fuel : nat) (mt : MediaType)
    (import_as_favorite : bool) (sync : M World (gset Z)) :
  reconciler self fuel mt import_as_favorite = Some sync ->
  no_child_tracks self mt ->
  emits (fun c => forall m, controller_of c = Some m -> m = mt) sync.
Proof.
  intros Hsync Hconf.
  destruct (decide (mt = ALBUM)) as [-> | Halbum];
    [| destruct (decide (mt = PLAYLIST)) as [-> | Hplaylist]].
  - simpl in Hsync, Hconf. simplify_eq.
    unfold _sync_library_albums, sync_album, sync_album_body.
    rewrite Hconf. unfold_calls.
    repeat emits_step; by intros m [= <-].
  - simpl in Hsync, Hconf. simplify_eq.
    unfold _sync_library_playlists, sync_playlist, sync_playlist_body.
    unfold_calls.
    repeat emits_step; try (by intros m [= <-]);
      match goal with
      | Hx : _ ∈ yielded _, Hlisted : _ || _ = true |- _ =>
          apply Hconf in Hx as [Hname Huri];
          apply orb_true_iff in Hlisted as [Hlisted | Hlisted];
          apply bool_decide_eq_true_1 in Hlisted; done
      end.
  - apply (reconciler_emits _ fuel mt import_as_favorite); try done.
    + intros m mappings Htarget m' [= <-].
      by apply reconciler_target_own.
    + by intros x _ m [= <-].
    + by intros [-> | ->].
    + intros m db_id item Htarget m' [= <-].
      by apply reconciler_target_own.
    + by intros _ db_id m [= <-].
    + by intros -> db_id provider m [= <-].
Qed.
End Reconciler_calls.

Lemma reconciler_calls_confined_witness :
  Forall (fun c => reconciler_call ARTIST c = true)
    (trace_of (_sync_library_artists three_artists false)
       (mkState (library_of [] [] add_fails) ∅)).
Proof.
  exact (reconciler_calls_confined three_artists 0 ARTIST false
           (_sync_library_artists three_artists false) eq_refl
           (mkState (library_of [] [] add_fails) ∅)).
Defined.

Lemma reconciler_favorite_monotone_witness :
  Forall (fun c => forall m db_id favorite,
            c = SetFavorite m db_id favorite ->
            favorite = true /\ true = true)
    (trace_of (_sync_library_artists one_artist true)
       (mkState demoted_library ∅)).
Proof.
  exact (reconciler_favorite_monotone one_artist 0 ARTIST true
           (_sync_library_artists one_artist true) eq_refl
           (mkState demoted_library ∅)).
Defined.

Lemma child_tracks_opt_in_witness :
  Forall (fun c => forall m, controller_of c = Some m -> m = ALBUM)
    (trace_of (_sync_library_albums (plex ALBUM [artist "a1"]) true)
       (mkState (library_of [] [] healthy) ∅)).
Proof.
  exact (child_tracks_opt_in (plex ALBUM [artist "a1"]) 0 ALBUM true
           (_sync_library_albums (plex ALBUM [artist "a1"]) true) eq_refl
           eq_refl (mkState (library_of [] [] healthy) ∅)).
Defined.

Lemma reconciler_adds_catalog_items_witness :
  Forall (fun c => forall item,
            c = AddItemToLibrary ARTIST item ->
            exists x,
              x ∈ yielded (get_library_items three_artists ARTIST)
              /\ item = mark_favorite true x)
    (trace_of (_sync_library_artists three_artists true)
       (mkState (library_of [] [] healthy) ∅)).
Proof.
  exact (reconciler_adds_catalog_items three_artists 0 ARTIST true
           (_sync_library_artists three_artists true) eq_refl
           (mkState (library_of [] [] healthy) ∅)).
Defined.

(** ** What the deletion processing calls *)

Section Deletion_calls.
Context {World : Type} `{!Mass World}.
Variable self : MusicProvider.
Variable CACHE_CATEGORY_LIBRARY_ITEMS : Z.

(** The shape of every call one step of the deletion loop can make. *)
Lemma sync_deletion_emits (P : Call -> Prop) (mt : MediaType) (seen : gset Z)
    (db_id : Z) :
  (db_id ∉ seen ->
   P (GetLibraryItem mt db_id)
   /\ (forall mappings, P (SetProviderMappings mt db_id mappings))
   /\ (forall recursive, P (RemoveItemFromLibrary mt db_id recursive))
   /\ P (SetFavorite mt db_id false)
   /\ (forall err, P (LogWarning (inr db_id) err))) ->
  emits P (sync_deletion self mt seen db_id).
Proof.
  intros Hcalls. unfold sync_deletion.
  case_bool_decide as Hunseen; [| apply emits_mret].
  destruct (Hcalls Hunseen) as (Hget & Hmap & Hremove & Hfavorite & Hlog).
  unfold_calls. repeat emits_step; auto.
Qed.

(** X5: the deletion processing of a pass touches only what the pass
    no longer saw: every entity it fetches, removes, un-favorites or
    re-maps has an id of the previous snapshot that is not among the
    seen ids, on the controller of the pass's media type; it looks
    nothing up by mapping, adds nothing and updates nothing, and it
    reads and writes only its own snapshot entry. *)
Theorem process_deletions_confined (mt : MediaType) (seen : gset Z)
    (s : State World) (w : World) (r : result (option (list Z))) :
  mass_cache_get (MediaType_value mt) CACHE_CATEGORY_LIBRARY_ITEMS
    (instance_id self) (world s) = (w, r) ->
  let prev := match r with Ok (Some ids) => ids | _ => [] end in
  Forall (deletion_call self CACHE_CATEGORY_LIBRARY_ITEMS mt prev seen)
    (trace_of (process_deletions self CACHE_CATEGORY_LIBRARY_ITEMS mt seen) s).
Proof.
  intros Hcache prev.
  assert (Hloop : forall ids,
             (forall db_id, db_id ∈ ids -> db_id ∈ prev) ->
             emits (deletion_call self CACHE_CATEGORY_LIBRARY_ITEMS mt prev seen)
               (for_each ids (sync_deletion self mt seen))).
  { intros ids Hids. apply emits_for_each. intros db_id Hin.
    apply sync_deletion_emits. intros Hunseen. simpl. auto 10. }
  unfold process_deletions, trace_of. unfold_calls. unfold_monad.
  rewrite Hcache. simpl.
  assert (Hget : deletion_call self CACHE_CATEGORY_LIBRARY_ITEMS mt prev seen
                   (CacheGet (MediaType_value mt) CACHE_CATEGORY_LIBRARY_ITEMS
                      (instance_id self))) by done.
  assert (Hset : forall data,
             deletion_call self CACHE_CATEGORY_LIBRARY_ITEMS mt prev seen
               (CacheSet (MediaType_value mt) data CACHE_CATEGORY_LIBRARY_ITEMS
                  (instance_id self))) by done.
  destruct r as [[[| db_id rest] |] | e |]; simpl;
    try (by repeat constructor).
  - destruct (mass_cache_set _ _ _ _ w) as [w1 r1]. by repeat constructor.
  - specialize (Hloop (db_id :: rest) (fun _ H => H) (mkState w (cur_db_ids s))).
    unfold trace_of in Hloop. simpl in Hloop.
    destruct (bind (sync_deletion self mt seen db_id)
                (fun _ => for_each rest (sync_deletion self mt seen))
                (mkState w (cur_db_ids s)))
      as [t1 [s1 [[] | e |]]]; simpl in Hloop |- *;
      try (constructor; [done |]; by rewrite ?app_nil_r).
    destruct (mass_cache_set _ _ _ _ (world s1)) as [w3 r3].
    simpl. constructor; [done |].
    apply Forall_app. split; [done | by repeat constructor].
  - destruct (mass_cache_set _ _ _ _ w) as [w1 r1]. by repeat constructor.
Qed.

(** How a pass can end: with an exception and no snapshot written, or
    with [cache.set] of the ids the reconciler returned as its last
    call, whose outcome is the outcome of the pass. *)
Lemma sync_library_outcome (fuel : nat) (mt : MediaType)
    (import_as_favorite : bool) (s : State World) :
  let run := sync_library self CACHE_CATEGORY_LIBRARY_ITEMS fuel mt
               import_as_favorite s in
  (Forall (fun c => is_CacheSet c = false) (fst run)
   /\ snd (snd run) <> Ok tt)
  \/ (exists (sync : M World (gset Z)) (t : list Call) (s0 : State World)
        (seen : gset Z) (reads : list Call) (w : World),
        reconciler self fuel mt import_as_favorite = Some sync
        /\ sync s = (t, (s0, Ok seen))
        /\ fst run
           = reads ++ [CacheSet (MediaType_value mt) (elements seen)
                         CACHE_CATEGORY_LIBRARY_ITEMS (instance_id self)]
        /\ Forall (fun c => is_CacheSet c = false) reads
        /\ mass_cache_set (MediaType_value mt) (elements seen)
             CACHE_CATEGORY_LIBRARY_ITEMS (instance_id self) w
           = (world (fst (snd run)), snd (snd run))).
Proof.
  simpl. unfold sync_library.
  destruct (library_supported self mt); simpl; [| left; by split].
  destruct (reconciler self fuel mt import_as_favorite) as [sync |] eqn:Hsync;
    [| left; by split].
  pose proof (reconciler_emits self (fun c => is_CacheSet c = false) fuel mt
                import_as_favorite sync) as Hrec.
  specialize (Hrec ltac:(done) ltac:(done) ltac:(done) ltac:(done) ltac:(done)
                ltac:(done) ltac:(done) Hsync s).
  unfold trace_of in Hrec. unfold mbind, M_bind, bind.
  destruct (sync s) as [t1 [s1 [seen | e |]]] eqn:Hrun; simpl in *;
    [| left; by split | left; by split].
  assert (Hloop : forall ids,
             emits (fun c => is_CacheSet c = false)
               (for_each ids (sync_deletion self mt seen))).
  { intros ids. apply emits_for_each. intros db_id _.
    apply sync_deletion_emits. done. }
  unfold process_deletions. unfold_calls. unfold_monad.
  destruct (mass_cache_get _ _ _ (world s1)) as [w2 [prev | e |]]; simpl;
    try (left; split; [apply Forall_app; split; by repeat constructor | done]).
  assert (Hread : Forall (fun c => is_CacheSet c = false)
                    (t1 ++ [CacheGet (MediaType_value mt)
                              CACHE_CATEGORY_LIBRARY_ITEMS (instance_id self)]))
    by (apply Forall_app; split; by repeat constructor).
  destruct prev as [[| db_id rest] |]; simpl.
  - right.
    destruct (mass_cache_set (MediaType_value mt) (elements seen)
                CACHE_CATEGORY_LIBRARY_ITEMS (instance_id self) w2)
      as [w4 r4] eqn:Hset.
    simpl.
    exists sync, t1, s1, seen,
      (t1 ++ [CacheGet (MediaType_value mt) CACHE_CATEGORY_LIBRARY_ITEMS
                (instance_id self)]), w2.
    split; [done |]. split; [done |].
    split; [by rewrite <- ?app_assoc |]. by split.
  - specialize (Hloop (db_id :: rest) (mkState w2 (cur_db_ids s1))).
    unfold trace_of in Hloop. simpl in Hloop.
    destruct (bind (sync_deletion self mt seen db_id)
                (fun _ => for_each rest (sync_deletion self mt seen))
                (mkState w2 (cur_db_ids s1)))
      as [t3 [s3 [[] | e |]]]; simpl in Hloop |- *;
      try (left; rewrite ?app_nil_r; split;
           [apply Forall_app; split; [done | by constructor] | done]).
    right.
    destruct (mass_cache_set (MediaType_value mt) (elements seen)
                CACHE_CATEGORY_LIBRARY_ITEMS (instance_id self) (world s3))
      as [w5 r5] eqn:Hset.
    simpl.
    exists sync, t1, s1, seen,
      (t1 ++ CacheGet (MediaType_value mt) CACHE_CATEGORY_LIBRARY_ITEMS
               (instance_id self) :: t3), (world s3).
    split; [done |]. split; [done |].
    split; [by rewrite <- !app_assoc |].
    split; [| done].
    apply Forall_app. split; [done | by constructor].
  - right.
    destruct (mass_cache_set (MediaType_value mt) (elements seen)
                CACHE_CATEGORY_LIBRARY_ITEMS (instance_id self) w2)
      as [w4 r4] eqn:Hset.
    simpl.
    exists sync, t1, s1, seen,
      (t1 ++ [CacheGet (MediaType_value mt) CACHE_CATEGORY_LIBRARY_ITEMS
                (instance_id self)]), w2.
    split; [done |]. split; [done |].
    split; [by rewrite <- ?app_assoc |]. by split.
Qed.

(** X6: a pass writes its snapshot at most once, and only as its very
    last call: either the reconciler of the media type returned a set
    of ids and the trace ends with the one [cache.set] of exactly
    these ids, or the pass ended with an exception and wrote no
    snapshot at all. *)
Theorem snapshot_written_last (fuel : nat) (mt : MediaType)
    (import_as_favorite : bool) (s : State World) :
  let run := sync_library self CACHE_CATEGORY_LIBRARY_ITEMS fuel mt
               import_as_favorite s in
  (Forall (fun c => is_CacheSet c = false) (fst run)
   /\ snd (snd run) <> Ok tt)
  \/ (exists (sync : M World (gset Z)) (t : list Call) (s0 : State World)
        (seen : gset Z) (reads : list Call),
        reconciler self fuel mt import_as_favorite = Some sync
        /\ sync s = (t, (s0, Ok seen))
        /\ fst run
           = reads ++ [CacheSet (MediaType_value mt) (elements seen)
                         CACHE_CATEGORY_LIBRARY_ITEMS (instance_id self)]
        /\ Forall (fun c => is_CacheSet c = false) reads).
Proof.
  destruct (sync_library_outcome fuel mt import_as_favorite s)
    as [Hfailed
       | (sync & t & s0 & seen & reads & w & Hsync & Hrun & Htrace & Hreads
          & _)].
  - by left.
  - right. by exists sync, t, s0, seen, reads.
Qed.

(** X7: an id of the previous snapshot whose entity is already gone
    from the library is skipped: when fetching it raises
    [MediaNotFoundError], the step makes no further call and the loop
    goes on. Any other exception from the fetch ends the step with that
    exception. *)
Theorem sync_deletion_entity_gone (mt : MediaType) (seen : gset Z) (db_id : Z)
    (s : State World) (w1 : World) (err : exn) :
  db_id ∉ seen ->
  mass_get_library_item mt db_id (world s) = (w1, Raise err) ->
  sync_deletion self mt seen db_id s
  = ([GetLibraryItem mt db_id],
     (mkState w1 (cur_db_ids s),
      if is_MediaNotFoundError err then Ok tt else Raise err)).
Proof.
  intros Hunseen Hget. unfold sync_deletion.
  rewrite (bool_decide_eq_true_2 _ Hunseen).
  unfold_calls. unfold_monad. rewrite Hget. simpl.
  by destruct (is_MediaNotFoundError err).
Qed.

(** X8: an entity no other provider instance claims, whose removal
    succeeds, is removed and nothing else: one fetch and one
    [remove_item_from_library], recursive exactly for albums; its
    favorite flag and mappings are not touched. *)
Theorem sync_deletion_removes_orphan (mt : MediaType) (seen : gset Z)
    (db_id : Z) (s : State World) (w1 w2 : World) (library_item : LibraryItem) :
  db_id ∉ seen ->
  mass_get_library_item mt db_id (world s) = (w1, Ok library_item) ->
  (forall x,
     x ∈ MediaItem.provider_mappings library_item ->
     ProviderMapping.provider_instance x = instance_id self
     \/ ProviderMapping.in_library x = false) ->
  mass_remove_item_from_library mt db_id (bool_decide (mt = ALBUM)) w1
  = (w2, Ok tt) ->
  sync_deletion self mt seen db_id s
  = ([GetLibraryItem mt db_id;
      RemoveItemFromLibrary mt db_id (bool_decide (mt = ALBUM))],
     (mkState w2 (cur_db_ids s), Ok tt)).
Proof.
  intros Hunseen Hget Hsole Hremove.
  assert (Hnone : ~ remaining_providers self library_item <> ∅).
  { rewrite remaining_providers_nonempty. intros (x & Hin & Hother & Hlib).
    destruct (Hsole x Hin); congruence. }
  unfold sync_deletion. rewrite (bool_decide_eq_true_2 _ Hunseen).
  unfold_calls. unfold_monad. rewrite Hget. simpl.
  rewrite (bool_decide_eq_false_2 _ Hnone). simpl. by rewrite Hremove.
Qed.

(** A reconciler returns its ids only when the catalog was listed to
    the end. *)
Lemma reconciler_needs_catalog (fuel : nat) (mt : MediaType)
    (import_as_favorite : bool) (sync : M World (gset Z)) (s : State World)
    (seen : gset Z) :
  reconciler self fuel mt import_as_favorite = Some sync ->
  ending (get_library_items self mt) <> Exhausted ->
  snd (snd (sync s)) <> Ok seen.
Proof.
  intros Hsync Hending.
  destruct mt; simpl in Hsync; simplify_eq;
    unfold _sync_library_artists, _sync_library_albums, _sync_library_tracks,
      _sync_library_playlists, _sync_library_podcasts, _sync_library_radios,
      _sync_library_audiobooks, async_for;
    unfold_monad; simpl;
    match goal with
    | |- context [for_each ?xs ?body ?st] =>
        destruct (for_each xs body st) as [t1 [s1 [[] | e |]]]
    end; simpl; try done;
    match goal with
    | |- context [ending ?gen] => destruct (ending gen)
    end; done.
Qed.

(** X9: when the provider cannot list its catalog to the end, the
    pass ends with an exception right after the reconciler: nothing is
    removed or demoted, and the snapshot is neither read nor
    written, however few items the listing yielded before it broke
    off. *)
Theorem catalog_failure_stops_pass (fuel : nat) (mt : MediaType)
    (import_as_favorite : bool) (s : State World) :
  library_supported self mt = true ->
  ending (get_library_items self mt) <> Exhausted ->
  let run := sync_library self CACHE_CATEGORY_LIBRARY_ITEMS fuel mt
               import_as_favorite s in
  snd (snd run) <> Ok tt
  /\ Forall (fun c => reconciler_call mt c = true) (fst run).
Proof.
  intros Hsupported Hending.
  destruct (supported_runs_reconciler self CACHE_CATEGORY_LIBRARY_ITEMS fuel mt
              import_as_favorite Hsupported) as (sync & Hsync & ->).
  assert (Hcalls : emits (fun c => reconciler_call mt c = true) sync).
  { apply (reconciler_emits self _ fuel mt import_as_favorite); simpl;
      try done.
    - intros x _. unfold reconciler_target. by rewrite bool_decide_eq_true_2.
    - by intros [-> | ->].
    - intros _ db_id. by rewrite bool_decide_eq_true_2.
    - by intros ->. }
  specialize (Hcalls s). unfold trace_of in Hcalls.
  pose proof (fun seen => reconciler_needs_catalog fuel mt import_as_favorite
                            sync s seen Hsync Hending) as Hfailed.
  unfold mbind, M_bind, bind. simpl.
  destruct (sync s) as [t1 [s1 [seen | e |]]]; simpl in *.
  - by destruct (Hfailed seen).
  - by split.
  - by split.
Qed.
End Deletion_calls.

Lemma process_deletions_confined_witness :
  Forall (deletion_call (plex TRACK []) 0 TRACK [4] ∅)
    (trace_of (process_deletions (plex TRACK []) 0 TRACK ∅)
       (mkState shared_library ∅)).
Proof.
  assert (Hcache : mass_cache_get (MediaType_value TRACK) 0
                     (instance_id (plex TRACK []))
                     (world (mkState shared_library ∅))
                   = (shared_library, Ok (Some [4])))
    by (vm_compute; reflexivity).
  exact (process_deletions_confined (plex TRACK []) 0 TRACK ∅
           (mkState shared_library ∅) shared_library (Ok (Some [4])) Hcache).
Defined.

Lemma catalog_failure_stops_pass_witness :
  let run := sync_library outage 0 0 ARTIST false (mkState synced_library ∅) in
  snd (snd run) <> Ok tt
  /\ Forall (fun c => reconciler_call ARTIST c = true) (fst run).
Proof.
  assert (Hsupported : library_supported outage ARTIST = true)
    by (vm_compute; reflexivity).
  assert (Hending : ending (get_library_items outage ARTIST) <> Exhausted)
    by discriminate.
  exact (catalog_failure_stops_pass outage 0 0 ARTIST false
           (mkState synced_library ∅) Hsupported Hending).
Defined.

Lemma sync_deletion_entity_gone_witness :
  sync_deletion (plex TRACK []) TRACK ∅ 5 (mkState vanished_library ∅)
  = ([GetLibraryItem TRACK 5], (mkState vanished_library ∅, Ok tt)).
Proof.
  assert (Hget : mass_get_library_item TRACK 5
                   (world (mkState vanished_library ∅))
                 = (vanished_library,
                    Raise (MediaNotFoundError "item not found")))
    by (vm_compute; reflexivity).
  exact (sync_deletion_entity_gone (plex TRACK []) TRACK ∅ 5
           (mkState vanished_library ∅) vanished_library
           (MediaNotFoundError "item not found") (not_elem_of_empty 5) Hget).
Defined.

Lemma sync_deletion_removes_orphan_witness :
  sync_deletion (plex TRACK []) TRACK ∅ 5 (mkState orphan_library ∅)
  = ([GetLibraryItem TRACK 5; RemoveItemFromLibrary TRACK 5 false],
     (mkState (library_of [] [("track", 0, "plex--1", [5])] healthy) ∅,
      Ok tt)).
Proof.
  assert (Hget : mass_get_library_item TRACK 5 (world (mkState orphan_library ∅))
                 = (orphan_library, Ok sole_track))
    by (vm_compute; reflexivity).
  assert (Hsole : forall x,
             x ∈ MediaItem.provider_mappings sole_track ->
             ProviderMapping.provider_instance x = instance_id (plex TRACK [])
             \/ ProviderMapping.in_library x = false).
  { intros x Hx. left. simpl in Hx. in_trace Hx. reflexivity. }
  assert (Hremove : mass_remove_item_from_library TRACK 5
                      (bool_decide (TRACK = ALBUM)) orphan_library
                    = (library_of [] [("track", 0, "plex--1", [5])] healthy,
                       Ok tt))
    by (vm_compute; reflexivity).
  exact (sync_deletion_removes_orphan (plex TRACK []) TRACK ∅ 5
           (mkState orphan_library ∅) orphan_library
           (library_of [] [("track", 0, "plex--1", [5])] healthy) sole_track
           (not_elem_of_empty 5) Hget Hsole Hremove).
Defined.

(** ** More on the consistency checker and on demotion *)

(** X10: the checker does not care what [in_library] flag the provider
    sent on the observed mapping: it overwrites the flag with the
    requested value before comparing, so the verdict, the item handed
    on and the exception raised, if any, are the same for either
    flag. *)
Theorem check_overwrites_observed_flag (self : MusicProvider)
    (library_item : LibraryItem) (provider_item : ProviderItem)
    (in_library flag : bool) :
  _check_provider_mappings self library_item
    (set_first_in_library flag provider_item) in_library
  = _check_provider_mappings self library_item provider_item in_library.
Proof.
  unfold _check_provider_mappings, set_first_in_library.
  destruct provider_item as [id pr nm ur fav av cs rp fp mappings]. simpl.
  destruct mappings as [| m others]; [done |]. simpl.
  destruct m as [mid dom inst av' lib]. simpl.
  unfold ProviderMapping.set_in_library, MediaItem.set_provider_mappings,
    find_library_mapping. simpl.
  reflexivity.
Qed.

Section Demotion.
Variable self : MusicProvider.

(** X11: demoting this instance's mappings keeps the mapping set what
    it was, flag apart: no mapping is added, dropped, reordered or
    re-keyed, and domains and availability stay; so a set without
    duplicate keys stays one. *)
Theorem unset_in_library_keeps_mappings (library_item : LibraryItem) :
  let shape m :=
    (ProviderMapping.key m, ProviderMapping.provider_domain m,
     ProviderMapping.available m) in
  shape <$> MediaItem.provider_mappings (unset_in_library self library_item)
  = shape <$> MediaItem.provider_mappings library_item
  /\ (NoDup (ProviderMapping.key <$> MediaItem.provider_mappings library_item) ->
      NoDup (ProviderMapping.key
               <$> MediaItem.provider_mappings
                     (unset_in_library self library_item))).
Proof.
  intros shape.
  assert (Hshape : shape <$> MediaItem.provider_mappings
                               (unset_in_library self library_item)
                   = shape <$> MediaItem.provider_mappings library_item).
  { unfold unset_in_library. simpl.
    induction (MediaItem.provider_mappings library_item) as [| m ms IH];
      [done |].
    simpl. f_equal; [by case_bool_decide | exact IH]. }
  split; [done |].
  assert (Hkeys : ProviderMapping.key
                    <$> MediaItem.provider_mappings
                          (unset_in_library self library_item)
                  = ProviderMapping.key <$> MediaItem.provider_mappings library_item).
  { apply (f_equal (fmap (fun p => fst (fst p)))) in Hshape.
    by rewrite <- !list_fmap_compose in Hshape. }
  by rewrite Hkeys.
Qed.

(** X12: after demotion no mapping of this instance is marked
    in-library, the other instances that claim the entity are the same
    as before, and demoting again changes nothing. *)
Theorem unset_in_library_result (library_item : LibraryItem) :
  (forall x,
     x ∈ MediaItem.provider_mappings (unset_in_library self library_item) ->
     ProviderMapping.provider_instance x = instance_id self ->
     ProviderMapping.in_library x = false)
  /\ remaining_providers self (unset_in_library self library_item)
     = remaining_providers self library_item
  /\ unset_in_library self (unset_in_library self library_item)
     = unset_in_library self library_item.
Proof.
  destruct library_item as [id pr nm ur fav av cs rp fp mappings].
  unfold unset_in_library, remaining_providers. simpl.
  split; [| split].
  - intros x Hx Hself. apply list_elem_of_In, List.in_map_iff in Hx
      as (m & <- & _).
    case_bool_decide as Hm; [done |]. by destruct Hm.
  - f_equal. induction mappings as [| m ms IH]; [done |]. simpl.
    destruct (decide (ProviderMapping.provider_instance m = instance_id self))
      as [Hm | Hm].
    + repeat (rewrite (bool_decide_eq_true_2 _ Hm); simpl). exact IH.
    + repeat (rewrite (bool_decide_eq_false_2 _ Hm); simpl).
      destruct (ProviderMapping.in_library m); simpl; by rewrite IH.
  - unfold MediaItem.set_provider_mappings. simpl. f_equal.
    induction mappings as [| m ms IH]; [done |]. simpl. rewrite IH. f_equal.
    destruct (decide (ProviderMapping.provider_instance m = instance_id self))
      as [Hm | Hm].
    + by repeat (rewrite (bool_decide_eq_true_2 _ Hm); simpl).
    + by repeat (rewrite (bool_decide_eq_false_2 _ Hm); simpl).
Qed.
End Demotion.

Lemma unset_in_library_keeps_mappings_witness :
  NoDup (ProviderMapping.key
           <$> MediaItem.provider_mappings
                 (unset_in_library (plex TRACK []) shared_track)).
Proof.
  apply (proj2 (unset_in_library_keeps_mappings (plex TRACK []) shared_track)).
  apply (bool_decide_unpack _). vm_compute. reflexivity.
Defined.

Lemma unset_in_library_result_witness :
  ProviderMapping.in_library (mapping "d" "plex--1" true false) = false.
Proof.
  apply (proj1 (unset_in_library_result (plex TRACK []) shared_track)
           (mapping "d" "plex--1" true false)).
  - apply list_elem_of_here.
  - reflexivity.
Defined.

(** ** Paging through a playlist *)

Section Paging.
Variable self : MusicProvider.
Variable prov_playlist_id : string.

(** What the iteration yields when the pages from [start] on are
    [pages], all non-empty, and the request after them ends with
    [last]. *)
Lemma iter_playlist_tracks_until (pages : list (list ProviderItem))
    (last : Ending) (start fuel : nat) :
  Forall (fun page => page <> []) pages ->
  (forall k page,
     pages !! k = Some page ->
     get_playlist_tracks self prov_playlist_id (start + k) = Ok page) ->
  match last with
  | Exhausted =>
      get_playlist_tracks self prov_playlist_id (start + length pages) = Ok []
  | Failed e =>
      get_playlist_tracks self prov_playlist_id (start + length pages) = Raise e
  | Unfinished =>
      get_playlist_tracks self prov_playlist_id (start + length pages)
      = OutOfFuel
  end ->
  (length pages < fuel)%nat ->
  iter_playlist_tracks fuel self prov_playlist_id start
  = {| yielded := concat pages; ending := last |}.
Proof.
  revert start fuel.
  induction pages as [| page pages IH]; intros start fuel Hfull Hpages Hlast Hfuel.
  - destruct fuel as [| fuel]; [lia |]. simpl in *.
    rewrite Nat.add_0_r in Hlast. by destruct last; rewrite Hlast.
  - destruct fuel as [| fuel]; [simpl in Hfuel; lia |]. simpl.
    apply Forall_cons in Hfull as [Hpage Hfull].
    pose proof (Hpages 0%nat page eq_refl) as Hfirst.
    rewrite Nat.add_0_r in Hfirst. rewrite Hfirst.
    rewrite (IH (S start) fuel Hfull).
    + by destruct page.
    + intros k page' Hk.
      replace (S start + k)%nat with (start + S k)%nat by lia. by apply Hpages.
    + simpl in Hlast.
      by replace (S start + length pages)%nat
        with (start + S (length pages))%nat by lia.
    + simpl in Hfuel. lia.
Qed.

(** X13: paging stops at the first empty page: when pages 0 to n-1 of
    a playlist are non-empty and page n is empty, the iteration yields
    the tracks of pages 0 to n-1 in order and ends, having made n+1
    requests; it never asks for a page beyond the empty one. *)
Theorem iter_playlist_tracks_pages (pages : list (list ProviderItem))
    (fuel : nat) :
  Forall (fun page => page <> []) pages ->
  (forall k page,
     pages !! k = Some page ->
     get_playlist_tracks self prov_playlist_id k = Ok page) ->
  get_playlist_tracks self prov_playlist_id (length pages) = Ok [] ->
  (length pages < fuel)%nat ->
  iter_playlist_tracks fuel self prov_playlist_id 0
  = {| yielded := concat pages; ending := Exhausted |}.
Proof.
  intros Hfull Hpages Hlast Hfuel.
  by apply (iter_playlist_tracks_until pages Exhausted 0 fuel).
Qed.

(** X14: when the request for a page raises, the tracks of the pages
    before it have been yielded, and the iteration then fails with
    that exception. *)
Theorem iter_playlist_tracks_failure (pages : list (list ProviderItem))
    (err : exn) (fuel : nat) :
  Forall (fun page => page <> []) pages ->
  (forall k page,
     pages !! k = Some page ->
     get_playlist_tracks self prov_playlist_id k = Ok page) ->
  get_playlist_tracks self prov_playlist_id (length pages) = Raise err ->
  (length pages < fuel)%nat ->
  iter_playlist_tracks fuel self prov_playlist_id 0
  = {| yielded := concat pages; ending := Failed err |}.
Proof.
  intros Hfull Hpages Hlast Hfuel.
  by apply (iter_playlist_tracks_until pages (Failed err) 0 fuel).
Qed.
End Paging.

Lemma iter_playlist_tracks_pages_witness :
  iter_playlist_tracks 3 paged "mix" 0
  = {| yielded := [gone_track; fresh_item; artist "a1"]; ending := Exhausted |}.
Proof.
  apply (iter_playlist_tracks_pages paged "mix"
           [[gone_track; fresh_item]; [artist "a1"]] 3).
  - by repeat constructor.
  - intros [| [| k]] page Hk; simpl in Hk; by simplify_eq.
  - reflexivity.
  - simpl. lia.
Defined.

Lemma iter_playlist_tracks_failure_witness :
  iter_playlist_tracks 2 flaky_pages "mix" 0
  = {| yielded := [gone_track; fresh_item];
       ending := Failed (MusicAssistantError "timeout") |}.
Proof.
  apply (iter_playlist_tracks_failure flaky_pages "mix"
           [[gone_track; fresh_item]] (MusicAssistantError "timeout") 2).
  - by repeat constructor.
  - intros [| k] page Hk; simpl in Hk; by simplify_eq.
  - reflexivity.
  - simpl. lia.
Defined.

(** ** Editing the provider's library *)

(** X15: [library_add] and [library_remove] refuse with
    [NotImplementedError] exactly when the provider declares the edit
    feature of the media type (the provider has to override them
    then), and otherwise report success without doing anything; the
    two agree on every media type. *)
Theorem library_add_remove_edit (self : MusicProvider) (prov_item_id : string)
    (media_type : MediaType) :
  library_add self media_type
  = (if library_edit_supported self media_type
     then Raise NotImplementedError
     else Ok true)
  /\ library_remove self prov_item_id media_type = library_add self media_type.
Proof.
  unfold library_add, library_remove, library_edit_supported.
  destruct media_type; simpl; split; try reflexivity;
    by repeat case_bool_decide.
Qed.

(** ** Splitting strings *)

Lemma split_after_unfold (sep s : string) :
  split_after sep s
  = match strip_prefix sep s with
    | Some rest => Some rest
    | None =>
        match s with
        | EmptyString => None
        | String _ s' => split_after sep s'
        end
    end.
Proof. by destruct s. Qed.

Lemma strip_prefix_app (p s r x : string) :
  strip_prefix p s = Some r -> strip_prefix p (s +:+ x) = Some (r +:+ x).
Proof.
  revert s. induction p as [| a p IH]; intros s Hs; simpl in *.
  - by simplify_eq.
  - destruct s as [| b s]; [done |]. simpl.
    case_bool_decide; [by apply IH | done].
Qed.

Lemma strip_prefix_length (p s r : string) :
  strip_prefix p s = Some r -> (String.length p <= String.length s)%nat.
Proof.
  revert s. induction p as [| a p IH]; intros s Hs; simpl in *; [lia |].
  destruct s as [| b s]; [done |]. simpl.
  case_bool_decide; [| done]. apply IH in Hs. lia.
Qed.

Lemma split_after_length (sep s r : string) :
  split_after sep s = Some r -> (String.length sep <= String.length s)%nat.
Proof.
  induction s as [| b s IH]; rewrite split_after_unfold; intros Hs.
  - destruct (strip_prefix sep "") eqn:Hp; [| done].
    by apply strip_prefix_length in Hp.
  - destruct (strip_prefix sep (String b s)) eqn:Hp.
    + by apply strip_prefix_length in Hp.
    + apply IH in Hs. simpl. lia.
Qed.

Lemma strip_prefix_mismatch (p s x : string) :
  strip_prefix p s = None ->
  (String.length p <= String.length s)%nat ->
  strip_prefix p (s +:+ x) = None.
Proof.
  revert s. induction p as [| a p IH]; intros s Hs Hlen; simpl in *; [done |].
  destruct s as [| b s]; simpl in *; [lia |].
  case_bool_decide; [| done]. apply IH; [done | lia].
Qed.

(** What follows the leftmost separator grows with the string. *)
Lemma split_after_app (sep s r x : string) :
  split_after sep s = Some r -> split_after sep (s +:+ x) = Some (r +:+ x).
Proof.
  induction s as [| b s IH]; rewrite split_after_unfold; intros Hs.
  - destruct (strip_prefix sep "") eqn:Hp; [| done]. simplify_eq.
    rewrite split_after_unfold. by rewrite (strip_prefix_app _ _ _ _ Hp).
  - rewrite split_after_unfold.
    destruct (strip_prefix sep (String b s)) eqn:Hp.
    + simplify_eq. by rewrite (strip_prefix_app _ _ _ _ Hp).
    + rewrite strip_prefix_mismatch; [by apply IH | done |].
      apply split_after_length in Hs. simpl. lia.
Qed.

(** ** Browsing *)

Section Browse_facts.
Context {World : Type} `{!Mass World}.
Variable self : MusicProvider.
Variable CACHE_CATEGORY_LIBRARY_ITEMS : Z.
Variable BROWSE_supported : bool.
Variable mass_library_items :
  MediaType -> option string -> string -> list Z -> World ->
  World * result (list LibraryItem).

Local Abbreviation browse_here :=
  (browse self CACHE_CATEGORY_LIBRARY_ITEMS BROWSE_supported mass_library_items).

(** A folder of the main listing lies directly under the browsed path
    and belongs to a media type the provider supports. *)
Lemma root_folders_shape (path : string) (folder : BrowseFolder) :
  folder ∈ root_folders self path ->
  folder_path folder = path +:+ folder_item_id folder
  /\ exists mt,
       folder_of mt = Some (folder_item_id folder)
       /\ library_supported self mt = true.
Proof.
  unfold root_folders. intros Hin.
  repeat (apply elem_of_app in Hin as [Hin | Hin]);
    (case_bool_decide as Hfeature;
     [apply list_elem_of_singleton in Hin as -> | by apply elem_of_nil in Hin]);
    (split; [reflexivity |]).
  - exists ARTIST. split; [done |]. by apply bool_decide_eq_true_2.
  - exists ALBUM. split; [done |]. by apply bool_decide_eq_true_2.
  - exists TRACK. split; [done |]. by apply bool_decide_eq_true_2.
  - exists PLAYLIST. split; [done |]. by apply bool_decide_eq_true_2.
  - exists RADIO. split; [done |]. by apply bool_decide_eq_true_2.
  - exists AUDIOBOOK. split; [done |]. by apply bool_decide_eq_true_2.
  - exists PODCAST. split; [done |]. by apply bool_decide_eq_true_2.
Qed.

(** Browsing a path whose subpath is the folder of a media type is the
    listing of that type, whatever the fuel. *)
Lemma browse_folder (fuel : nat) (path folder : string) (mt : MediaType)
    (w : World) :
  BROWSE_supported = true ->
  folder_of mt = Some folder ->
  split_after "://" path = Some folder ->
  browse_here (S fuel) path w
  = browse_listing self CACHE_CATEGORY_LIBRARY_ITEMS mass_library_items mt
      (MediaType_value mt) (browse_provider self mt)
      (folder +:+ ".item_id in :ids") w.
Proof.
  intros Hbrowse Hfolder Hsplit. simpl.
  rewrite Hbrowse, Hsplit. simpl.
  destruct mt; simpl in Hfolder; simplify_eq; reflexivity.
Qed.

(** X16: [browse] refuses without touching the store: with
    [NotImplementedError] when the provider does not declare the
    browse feature, with [IndexError] when the path has no "://", and
    with [KeyError] when what follows "://" is neither empty nor one
    of the seven folders. *)
Theorem browse_rejects (fuel : nat) (path : string) (w : World) :
  (BROWSE_supported = false ->
   browse_here (S fuel) path w = (w, Raise NotImplementedError))
  /\ (BROWSE_supported = true ->
      split_after "://" path = None ->
      browse_here (S fuel) path w = (w, Raise IndexError))
  /\ (BROWSE_supported = true ->
      forall subpath,
        split_after "://" path = Some subpath ->
        subpath <> "" ->
        (forall mt, folder_of mt <> Some subpath) ->
        browse_here (S fuel) path w = (w, Raise (KeyError "Invalid subpath"))).
Proof.
  simpl. split; [| split].
  - by intros ->.
  - by intros -> ->.
  - intros -> subpath -> Hnonempty Hunknown. simpl.
    rewrite !bool_decide_eq_false_2; [done | done | ..];
      intros ->;
      [ apply (Hunknown PODCAST) | apply (Hunknown AUDIOBOOK)
      | apply (Hunknown PLAYLIST) | apply (Hunknown RADIO)
      | apply (Hunknown TRACK) | apply (Hunknown ALBUM)
      | apply (Hunknown ARTIST) ]; reflexivity.
Qed.

(** X17: browsing the folder of a media type reads the snapshot that
    [sync_library] stores for that type (same key, category and base
    key). With a non-empty snapshot the library is asked for exactly
    those ids, filtered by provider instance only for artists; with no
    snapshot or an empty one the provider lists its own catalog, and
    a failure of that listing is the failure of [browse]. *)
Theorem browse_reads_snapshot (fuel : nat) (path folder : string)
    (mt : MediaType) (w w1 : World) (snapshot : option (list Z)) :
  BROWSE_supported = true ->
  folder_of mt = Some folder ->
  split_after "://" path = Some folder ->
  mass_cache_get (MediaType_value mt) CACHE_CATEGORY_LIBRARY_ITEMS
    (instance_id self) w = (w1, Ok snapshot) ->
  (snapshot = None \/ snapshot = Some [] ->
   browse_here (S fuel) path w = (w1, collect (get_library_items self mt)))
  /\ (forall ids w2 items,
        snapshot = Some ids -> ids <> [] ->
        mass_library_items mt (browse_provider self mt)
          (folder +:+ ".item_id in :ids") ids w1 = (w2, Ok items) ->
        browse_here (S fuel) path w = (w2, Ok (LibraryEntry <$> items))).
Proof.
  intros Hbrowse Hfolder Hsplit Hcache.
  rewrite (browse_folder fuel path folder mt w Hbrowse Hfolder Hsplit).
  unfold browse_listing. rewrite Hcache. split.
  - by intros [-> | ->].
  - intros ids w2 items -> Hids Hitems. destruct ids; [done |].
    by rewrite Hitems.
Qed.

(** X18: the main listing has one folder for each media type whose
    library the provider supports, in the fixed order artists, albums,
    tracks, playlists, radios, audiobooks, podcasts, each directly
    under the browsed path; unless there is exactly one, [browse]
    returns these folders without touching the store. *)
Theorem browse_root (fuel : nat) (path : string) (w : World) :
  folder_item_id <$> root_folders self path
  = omap folder_of (List.filter (library_supported self) browsable)
  /\ Forall (fun folder =>
               folder_path folder = path +:+ folder_item_id folder)
       (root_folders self path)
  /\ (BROWSE_supported = true ->
      split_after "://" path = Some "" ->
      length (root_folders self path) <> 1%nat ->
      browse_here (S fuel) path w = (w, Ok (FolderEntry <$> root_folders self path))).
Proof.
  split; [| split].
  - unfold root_folders, browsable, library_supported. simpl.
    repeat case_bool_decide; reflexivity.
  - apply Forall_forall. intros folder Hin.
    by apply root_folders_shape in Hin as [? _].
  - intros Hbrowse Hsplit Hmany. simpl.
    rewrite Hbrowse, Hsplit. simpl.
    destruct (root_folders self path) as [| only [| second rest]]; done.
Qed.

(** X19: a provider with a single supported media type has no main
    listing: browsing its root is browsing the one folder, so the
    result is the listing of that media type. *)
Theorem browse_single_folder (fuel : nat) (path : string) (w : World)
    (only : BrowseFolder) :
  BROWSE_supported = true ->
  split_after "://" path = Some "" ->
  root_folders self path = [only] ->
  exists mt,
    folder_of mt = Some (folder_item_id only)
    /\ library_supported self mt = true
    /\ browse_here (S (S fuel)) path w
       = browse_listing self CACHE_CATEGORY_LIBRARY_ITEMS mass_library_items
           mt (MediaType_value mt) (browse_provider self mt)
           (folder_item_id only +:+ ".item_id in :ids") w.
Proof.
  intros Hbrowse Hsplit Hroot.
  assert (Hin : only ∈ root_folders self path)
    by (rewrite Hroot; apply list_elem_of_here).
  apply root_folders_shape in Hin as (Hpath & mt & Hfolder & Hsupported).
  exists mt. split; [done |]. split; [done |].
  rewrite <- (browse_folder fuel (folder_path only) (folder_item_id only) mt w
                Hbrowse Hfolder).
  - simpl. rewrite Hbrowse, Hsplit. simpl. by rewrite Hroot.
  - rewrite Hpath. apply (split_after_app "://" path "" _ Hsplit).
Qed.

(** More than two levels of recursion change nothing. *)
Lemma browse_fuel (fuel : nat) (path : string) (w : World) :
  browse_here (S (S fuel)) path w = browse_here 2 path w.
Proof.
  simpl.
  destruct BROWSE_supported eqn:Hbrowse; simpl; [| done].
  destruct (split_after "://" path) as [subpath |] eqn:Hsplit; [| done].
  repeat (case_bool_decide; [done |]). simpl.
  case_bool_decide as Hroot; simpl; [| done]. subst subpath.
  destruct (root_folders self path) as [| only [| second rest]] eqn:Hfolders;
    try done.
  assert (Hin : only ∈ root_folders self path)
    by (rewrite Hfolders; apply list_elem_of_here).
  apply root_folders_shape in Hin as (Hpath & mt & Hfolder & _).
  pose proof (split_after_app "://" path "" (folder_item_id only) Hsplit)
    as Hsub.
  rewrite <- Hpath in Hsub. simpl in Hsub.
  pose proof (browse_folder fuel (folder_path only) _ mt w Hbrowse Hfolder Hsub)
    as Hdeep.
  pose proof (browse_folder 0 (folder_path only) _ mt w Hbrowse Hfolder Hsub)
    as Hshallow.
  simpl in Hdeep, Hshallow.
  rewrite Hbrowse in Hdeep, Hshallow. simpl in Hdeep, Hshallow.
  by rewrite Hdeep, Hshallow.
Qed.

(** A listing returns when the cache, the library and the catalog
    do. *)
Lemma browse_listing_returns (mt : MediaType) (key : string)
    (provider : option string) (query : string) (w : World) :
  ending (get_library_items self mt) <> Unfinished ->
  (forall w',
     snd (mass_cache_get key CACHE_CATEGORY_LIBRARY_ITEMS (instance_id self) w')
     <> OutOfFuel) ->
  (forall ids w',
     snd (mass_library_items mt provider query ids w') <> OutOfFuel) ->
  snd (browse_listing self CACHE_CATEGORY_LIBRARY_ITEMS mass_library_items mt
         key provider query w)
  <> OutOfFuel.
Proof.
  intros Hcatalog Hcache Hlibrary. unfold browse_listing.
  specialize (Hcache w).
  destruct (mass_cache_get key CACHE_CATEGORY_LIBRARY_ITEMS (instance_id self) w)
    as [w1 [[[| db_id ids] |] | e |]]; simpl in *; try done.
  - unfold collect. by destruct (ending (get_library_items self mt)).
  - specialize (Hlibrary (db_id :: ids) w1).
    by destruct (mass_library_items mt provider query (db_id :: ids) w1)
      as [w2 [items | e |]].
  - unfold collect. by destruct (ending (get_library_items self mt)).
Qed.

(** X20: [browse] calls itself at most once. When the cache, the
    library and the catalog generators return, [browse] returns with
    two levels of recursion, with folders, items or an exception, and
    more levels change nothing. *)
Theorem browse_depth (fuel : nat) (path : string) (w : World) :
  (forall mt, ending (get_library_items self mt) <> Unfinished) ->
  (forall key w',
     snd (mass_cache_get key CACHE_CATEGORY_LIBRARY_ITEMS (instance_id self) w')
     <> OutOfFuel) ->
  (forall mt provider query ids w',
     snd (mass_library_items mt provider query ids w') <> OutOfFuel) ->
  snd (browse self CACHE_CATEGORY_LIBRARY_ITEMS BROWSE_supported
         mass_library_items 2 path w)
  <> OutOfFuel
  /\ browse self CACHE_CATEGORY_LIBRARY_ITEMS BROWSE_supported
       mass_library_items (S (S fuel)) path w
     = browse self CACHE_CATEGORY_LIBRARY_ITEMS BROWSE_supported
         mass_library_items 2 path w.
Proof.
  intros Hcatalog Hcache Hlibrary. split; [| apply browse_fuel].
  simpl.
  destruct BROWSE_supported eqn:Hbrowse; simpl; [| done].
  destruct (split_after "://" path) as [subpath |] eqn:Hsplit; [| done].
  repeat (case_bool_decide; [by apply browse_listing_returns |]). simpl.
  case_bool_decide as Hroot; simpl; [| done]. subst subpath.
  destruct (root_folders self path) as [| only [| second rest]] eqn:Hfolders;
    try done.
  assert (Hin : only ∈ root_folders self path)
    by (rewrite Hfolders; apply list_elem_of_here).
  apply root_folders_shape in Hin as (Hpath & mt & Hfolder & _).
  pose proof (split_after_app "://" path "" (folder_item_id only) Hsplit)
    as Hsub.
  rewrite <- Hpath in Hsub. simpl in Hsub.
  pose proof (browse_folder 0 (folder_path only) _ mt w Hbrowse Hfolder Hsub)
    as Hshallow.
  simpl in Hshallow. rewrite Hbrowse in Hshallow. simpl in Hshallow.
  rewrite Hshallow. by apply browse_listing_returns.
Qed.

(** X21: after a pass for a media type that ended without an
    exception, browsing the folder of that type lists what the pass
    kept. Let [seen] be the ids the reconciler of the pass returned:
    the pass ends with [cache.set] of exactly these ids, and, in a
    store whose cache hands back what was just stored, [browse] asks
    the library for exactly these ids; when the reconciler returned
    none, [browse] lists the provider's catalog instead. *)
Theorem browse_after_sync (fuel browse_fuel : nat) (mt : MediaType)
    (import_as_favorite : bool) (s : State World) (path folder : string)
    (sync : M World (gset Z)) (t : list Call) (s0 : State World)
    (seen : gset Z) :
  let run := sync_library self CACHE_CATEGORY_LIBRARY_ITEMS fuel mt
               import_as_favorite s in
  let after := world (fst (snd run)) in
  reconciler self fuel mt import_as_favorite = Some sync ->
  sync s = (t, (s0, Ok seen)) ->
  snd (snd run) = Ok tt ->
  (forall w data,
     mass_cache_set (MediaType_value mt) data CACHE_CATEGORY_LIBRARY_ITEMS
       (instance_id self) w = (after, Ok tt) ->
     mass_cache_get (MediaType_value mt) CACHE_CATEGORY_LIBRARY_ITEMS
       (instance_id self) after = (after, Ok (Some data))) ->
  BROWSE_supported = true ->
  folder_of mt = Some folder ->
  split_after "://" path = Some folder ->
  last (fst run)
  = Some (CacheSet (MediaType_value mt) (elements seen)
            CACHE_CATEGORY_LIBRARY_ITEMS (instance_id self))
  /\ (seen = ∅ ->
      browse_here (S browse_fuel) path after
      = (after, collect (get_library_items self mt)))
  /\ (forall w2 items,
        seen <> ∅ ->
        mass_library_items mt (browse_provider self mt)
          (folder +:+ ".item_id in :ids") (elements seen) after
        = (w2, Ok items) ->
        browse_here (S browse_fuel) path after
        = (w2, Ok (LibraryEntry <$> items))).
Proof.
  intros run after Hsync Hseen Hok Hcache Hbrowse Hfolder Hsplit.
  destruct (sync_library_outcome self CACHE_CATEGORY_LIBRARY_ITEMS fuel mt
              import_as_favorite s)
    as [[_ Hfailed]
       | (sync' & t' & s0' & seen' & reads & w & Hsync' & Hseen' & Htrace & _
          & Hset)];
    [done |].
  rewrite Hsync in Hsync'. injection Hsync' as <-.
  rewrite Hseen in Hseen'. injection Hseen' as <- <- <-.
  fold run in Htrace, Hset. fold after in Hset. rewrite Hok in Hset.
  apply Hcache in Hset.
  split; [by rewrite Htrace, last_snoc |].
  rewrite (browse_folder browse_fuel path folder mt after Hbrowse Hfolder
             Hsplit).
  unfold browse_listing. rewrite Hset. split.
  - intros ->. by rewrite elements_empty.
  - intros w2 items Hnonempty Hitems.
    destruct (elements seen) as [| db_id ids] eqn:Helements.
    + by apply elements_empty_inv, leibniz_equiv in Helements.
    + by rewrite Hitems.
Qed.
End Browse_facts.

Lemma browse_rejects_witness :
  browse one_artist 0 false mem_library_items 1 "plex--1://artists"
    synced_library
  = (synced_library, Raise NotImplementedError)
  /\ browse one_artist 0 true mem_library_items 1 "artists" synced_library
     = (synced_library, Raise IndexError)
  /\ browse one_artist 0 true mem_library_items 1 "plex--1://genres"
       synced_library
     = (synced_library, Raise (KeyError "Invalid subpath")).
Proof.
  split; [| split].
  - destruct (browse_rejects one_artist 0 false mem_library_items 0
                "plex--1://artists" synced_library) as (Hrefused & _ & _).
    exact (Hrefused eq_refl).
  - destruct (browse_rejects one_artist 0 true mem_library_items 0
                "artists" synced_library) as (_ & Hindex & _).
    assert (Hsplit : split_after "://" "artists" = None)
      by (vm_compute; reflexivity).
    exact (Hindex eq_refl Hsplit).
  - destruct (browse_rejects one_artist 0 true mem_library_items 0
                "plex--1://genres" synced_library) as (_ & _ & Hkey).
    assert (Hsplit : split_after "://" "plex--1://genres" = Some "genres")
      by (vm_compute; reflexivity).
    assert (Hnonempty : "genres" <> "") by discriminate.
    assert (Hunknown : forall mt, folder_of mt <> Some "genres")
      by (intros []; discriminate).
    exact (Hkey eq_refl "genres" Hsplit Hnonempty Hunknown).
Defined.

Lemma browse_reads_snapshot_witness :
  browse one_artist 0 true mem_library_items 1 "plex--1://artists"
    synced_library
  = (synced_library,
     Ok [LibraryEntry
           (library_item 7 true true [mapping "a1" "plex--1" true true])])
  /\ browse one_artist 0 true mem_library_items 1 "plex--1://artists"
       (library_of [] [] healthy)
     = (library_of [] [] healthy, Ok [ProviderEntry (artist "a1")]).
Proof.
  assert (Hsplit : split_after "://" "plex--1://artists" = Some "artists")
    by (vm_compute; reflexivity).
  split.
  - assert (Hcache : mass_cache_get (MediaType_value ARTIST) 0
                       (instance_id one_artist) synced_library
                     = (synced_library, Ok (Some [7])))
      by (vm_compute; reflexivity).
    destruct (browse_reads_snapshot one_artist 0 true mem_library_items 0
                "plex--1://artists" "artists" ARTIST synced_library
                synced_library (Some [7]) eq_refl eq_refl Hsplit Hcache)
      as [_ Hlisted].
    assert (Hids : [7] <> @nil Z) by discriminate.
    assert (Hitems :
              mem_library_items ARTIST (browse_provider one_artist ARTIST)
                ("artists" +:+ ".item_id in :ids") [7] synced_library
              = (synced_library,
                 Ok [library_item 7 true true
                       [mapping "a1" "plex--1" true true]]))
      by (vm_compute; reflexivity).
    exact (Hlisted [7] synced_library _ eq_refl Hids Hitems).
  - assert (Hcache : mass_cache_get (MediaType_value ARTIST) 0
                       (instance_id one_artist) (library_of [] [] healthy)
                     = (library_of [] [] healthy, Ok None))
      by (vm_compute; reflexivity).
    destruct (browse_reads_snapshot one_artist 0 true mem_library_items 0
                "plex--1://artists" "artists" ARTIST (library_of [] [] healthy)
                (library_of [] [] healthy) None eq_refl eq_refl Hsplit Hcache)
      as [Hcatalog _].
    exact (Hcatalog (or_introl eq_refl)).
Defined.

Lemma browse_root_witness :
  folder_item_id <$> root_folders one_artist "plex--1://"
  = ["artists"; "tracks"; "playlists"; "audiobooks"]
  /\ browse one_artist 0 true mem_library_items 1 "plex--1://" synced_library
     = (synced_library, Ok (FolderEntry <$> root_folders one_artist "plex--1://")).
Proof.
  destruct (browse_root one_artist 0 true mem_library_items 0 "plex--1://"
              synced_library) as (Hfolders & _ & Hlisting).
  split.
  - rewrite Hfolders. vm_compute. reflexivity.
  - assert (Hsplit : split_after "://" "plex--1://" = Some "")
      by (vm_compute; reflexivity).
    assert (Hmany : length (root_folders one_artist "plex--1://") <> 1%nat)
      by (vm_compute; discriminate).
    exact (Hlisting eq_refl Hsplit Hmany).
Defined.

Lemma browse_single_folder_witness :
  exists mt,
    folder_of mt = Some "playlists"
    /\ library_supported playlists_only mt = true
    /\ browse playlists_only 0 true mem_library_items 2 "lists--1://"
         (library_of [] [] healthy)
       = browse_listing playlists_only 0 mem_library_items mt
           (MediaType_value mt) (browse_provider playlists_only mt)
           "playlists.item_id in :ids" (library_of [] [] healthy).
Proof.
  assert (Hsplit : split_after "://" "lists--1://" = Some "")
    by (vm_compute; reflexivity).
  assert (Hroot : root_folders playlists_only "lists--1://"
                  = [Build_BrowseFolder "playlists" "lists--1"
                       "lists--1://playlists" "Playlists" "playlists" true])
    by (vm_compute; reflexivity).
  exact (browse_single_folder playlists_only 0 true mem_library_items 0
           "lists--1://" (library_of [] [] healthy) _ eq_refl Hsplit Hroot).
Defined.

Lemma browse_depth_witness :
  snd (browse playlists_only 0 true mem_library_items 2 "lists--1://"
         (library_of [] [] healthy))
  <> OutOfFuel
  /\ browse playlists_only 0 true mem_library_items 5 "lists--1://"
       (library_of [] [] healthy)
     = browse playlists_only 0 true mem_library_items 2 "lists--1://"
         (library_of [] [] healthy).
Proof.
  apply (browse_depth playlists_only 0 true mem_library_items 3).
  - intros mt. simpl. by case_bool_decide.
  - intros key w'. simpl. unfold mem_cache_get, guarded.
    by destruct (faults w' _).
  - done.
Defined.

(** The cache of the example store hands back what was stored last,
    unless reading it is made to fail. *)
Lemma mem_cache_round_trip (key : string) (data : list Z) (category : Z)
    (base_key : string) (lib lib' : Library) :
  mem_cache_set key data category base_key lib = (lib', Ok tt) ->
  faults lib' (CacheGet key category base_key) = None ->
  mem_cache_get key category base_key lib' = (lib', Ok (Some data)).
Proof.
  unfold mem_cache_set, mem_cache_get, guarded.
  destruct (faults lib _); [done |]. intros [= <-]. simpl. intros ->.
  unfold is_snapshot. simpl. by rewrite bool_decide_eq_true_2.
Qed.

Lemma browse_after_sync_witness :
  let run := sync_library one_artist 0 0 ARTIST false
               (mkState (library_of [] [] healthy) ∅) in
  last (fst run) = Some (CacheSet "artist" [100] 0 "plex--1")
  /\ browse one_artist 0 true mem_library_items 1 "plex--1://artists"
       (world (fst (snd run)))
     = (world (fst (snd run)),
        Ok [LibraryEntry
              (MediaItem.mk 100 "library" "a1" "a1" false true None None
                 None [mapping "a1" "plex--1" true true])]).
Proof.
  intros run.
  set (start := mkState (library_of [] [] healthy) ∅).
  set (sync := _sync_library_artists one_artist false).
  assert (Hseen : sync start
                  = (fst (sync start), (fst (snd (sync start)), Ok {[ 100 ]})))
    by (vm_compute; reflexivity).
  assert (Hok : snd (snd run) = Ok tt) by (vm_compute; reflexivity).
  assert (Hsplit : split_after "://" "plex--1://artists" = Some "artists")
    by (vm_compute; reflexivity).
  assert (Hcache :
            forall w data,
              mass_cache_set (MediaType_value ARTIST) data 0
                (instance_id one_artist) w = (world (fst (snd run)), Ok tt) ->
              mass_cache_get (MediaType_value ARTIST) 0
                (instance_id one_artist) (world (fst (snd run)))
              = (world (fst (snd run)), Ok (Some data))).
  { intros w data Hset.
    apply (mem_cache_round_trip _ _ _ _ w); [exact Hset |].
    vm_compute. reflexivity. }
  destruct (browse_after_sync one_artist 0 true mem_library_items 0 0 ARTIST
              false start "plex--1://artists" "artists" sync _ _ {[ 100 ]}
              eq_refl Hseen Hok Hcache eq_refl eq_refl Hsplit)
    as (Hlast & _ & Hlisted).
  assert (Hids : elements ({[ 100 ]} : gset Z) = [100])
    by apply elements_singleton.
  split.
  - etrans; [exact Hlast |]. by rewrite Hids.
  - assert (Hnonempty : ({[ 100 ]} : gset Z) <> ∅)
      by (apply non_empty_singleton_L).
    assert (Hitems :
              mem_library_items ARTIST (browse_provider one_artist ARTIST)
                ("artists" +:+ ".item_id in :ids")
                (elements ({[ 100 ]} : gset Z)) (world (fst (snd run)))
              = (world (fst (snd run)),
                 Ok [MediaItem.mk 100 "library" "a1" "a1" false true None None
                       None [mapping "a1" "plex--1" true true]]))
      by (rewrite Hids; vm_compute; reflexivity).
    exact (Hlisted _ _ Hnonempty Hitems).
Defined.

(** ** Spotify: images *)

Lemma parse_images_is_loop (images_list : list (gmap string json))
    (lookup_key : string) (exclude_generic : bool) :
  parse_images images_list lookup_key exclude_generic
  = parse_images_loop images_list lookup_key exclude_generic.
Proof. by destruct images_list. Qed.

(** X22: [parse_images] returns the first image that is not passed
    over, and nothing else: when every image object before it has a
    url naming the placeholder picture and placeholders are excluded,
    the result is the one thumbnail of its url, attributed to the
    lookup key, whatever comes after it. *)
Theorem parse_images_first_kept
    (images_list before after : list (gmap string json))
    (img : gmap string json) (img_url : json) (lookup_key : string)
    (exclude_generic : bool) :
  images_list = before ++ img :: after ->
  Forall (skipped exclude_generic) before ->
  img !! "url" = Some img_url ->
  (exclude_generic = true -> py_in GENERIC_IMAGE img_url = Ok false) ->
  parse_images images_list lookup_key exclude_generic
  = Ok [thumb img_url lookup_key].
Proof.
  intros -> Hbefore Hurl Hkept. rewrite parse_images_is_loop.
  induction Hbefore as [| first before (-> & url & Hfirst & Hgeneric) _ IH];
    simpl.
  - rewrite Hurl. destruct exclude_generic; simpl; [| done].
    by rewrite Hkept.
  - rewrite Hfirst, Hgeneric. by apply IH.
Qed.

Lemma parse_images_first_kept_witness :
  parse_images [placeholder; portrait; placeholder] "spotify" true
  = Ok [thumb (JString "https://i.scdn.co/image/ab6761610000e5eb") "spotify"].
Proof.
  assert (Hskipped : Forall (skipped true) [placeholder]).
  { repeat constructor.
    exists (JString
              "https://i.scdn.co/image/2a96cbd8b46e442fc41c2b86b821562f").
    split; vm_compute; reflexivity. }
  assert (Hurl : portrait !! "url"
                 = Some (JString "https://i.scdn.co/image/ab6761610000e5eb"))
    by (vm_compute; reflexivity).
  assert (Hkept : true = true ->
                  py_in GENERIC_IMAGE
                    (JString "https://i.scdn.co/image/ab6761610000e5eb")
                  = Ok false)
    by (intros _; vm_compute; reflexivity).
  exact (parse_images_first_kept [placeholder; portrait; placeholder]
           [placeholder] [placeholder] portrait _ "spotify" true eq_refl
           Hskipped Hurl Hkept).
Defined.

